(** * Expense tracker: a shallow embedding of [expense_tracker.py]

    The program is a command-line tool.  Every invocation reads the whole
    document from [~/.expense_tracker/data.json], runs one command handler and,
    when the handler changed something, writes the document back.

    The embedding follows the source function by function and keeps its names.
    Python exceptions are an explicit result type, the file system and the
    terminal are an explicit [World] threaded through a small state-and-error
    monad, and [date.today()] is part of the environment of an invocation.

    Modelling conventions.
    - Python [int] is [Z]; Python [str] is [string]: an ASCII character is
      itself, a character outside ASCII is the bytes of its UTF-8 form (all of
      them above 127), which keeps equality, prefixes and the order of
      strings; [len] counts a character once, whatever its bytes.  What
      Python decides by the Unicode tables ([lower], [strip], the decimal
      digits that [strptime] and [int] read) is an interface ([PyText]),
      fixed on ASCII text and left open beyond it.
    - Python [float] is an interface ([PyFloat]): the program only compares
      amounts with zero and with one another, adds them, rounds them with
      [round(x, 2)] and prints them with [:.2f].  [Binary64] is the instance
      of IEEE 754 double precision, [Cents] a decimal one for the examples.
    - A JSON object is a Python [dict]: a finite map with one value per key
      ([gmap]) for [budgets], a record for the document and for each expense
      (the members the program itself writes).
    - The file system is the data directory with its three files, and the
      CSV files written; the path given to [export] may name one of the
      three files.  Writing a file does not fail. *)

From Stdlib Require Import ZArith String Ascii List Lia Bool.
From Stdlib Require Import Sorting.Sorted Sorting.Permutation.
From Stdlib Require Import Floats.SpecFloat.
From stdpp Require Import base decidable option list gmap strings pretty.

Local Open Scope string_scope.
Local Open Scope Z_scope.

(** ** Text primitives *)

Module Text.

Definition code (c : ascii) : Z := Z.of_N (N_of_ascii c).

(** The ASCII characters: the code points below 128. *)
Fixpoint is_ascii (s : string) : bool :=
  match s with
  | EmptyString => true
  | String c r => (code c <? 128) && is_ascii r
  end.

(** [str.isspace] on ASCII: TAB..CR, FS..US and the blank. *)
Definition isspace (c : ascii) : bool :=
  let n := code c in
  ((9 <=? n) && (n <=? 13)) || ((28 <=? n) && (n <=? 32)).

Definition isdigit (c : ascii) : bool :=
  let n := code c in (48 <=? n) && (n <=? 57).

Definition digit_value (c : ascii) : Z := code c - 48.

Definition lower_char (c : ascii) : ascii :=
  let n := code c in
  if (65 <=? n) && (n <=? 90) then ascii_of_N (Z.to_N (n + 32)) else c.

(** The decimal digit at the head of an ASCII text: its value and the rest. *)
Definition digit (s : string) : option (Z * string) :=
  match s with
  | String c r => if isdigit c then Some (digit_value c, r) else None
  | EmptyString => None
  end.

(** [s.lower()] on ASCII text *)
Fixpoint lower (s : string) : string :=
  match s with
  | EmptyString => EmptyString
  | String c r => String (lower_char c) (lower r)
  end.

Fixpoint lstrip (s : string) : string :=
  match s with
  | EmptyString => EmptyString
  | String c r => if isspace c then lstrip r else s
  end.

(** Drops the trailing white space: a character is kept when it is not a
    space or when something is kept after it. *)
Fixpoint rstrip (s : string) : string :=
  match s with
  | EmptyString => EmptyString
  | String c r =>
      match rstrip r with
      | EmptyString => if isspace c then EmptyString else String c EmptyString
      | r' => String c r'
      end
  end.

(** [s.strip()] on ASCII text *)
Definition strip (s : string) : string := rstrip (lstrip s).

(** [s.startswith(p)] *)
Fixpoint startswith (p s : string) : bool :=
  match p, s with
  | EmptyString, _ => true
  | String a p', String b s' => if Ascii.eqb a b then startswith p' s' else false
  | String _ _, EmptyString => false
  end.

Fixpoint zeros (k : nat) : string :=
  match k with
  | O => EmptyString
  | S k' => String "0" (zeros k')
  end.

(** [str(n)] for an [int]. *)
Definition str_int (n : Z) : string := pretty n.

(** [f"{n:0wd}"]: sign-aware zero padding to width [w]. *)
Definition format_0d (w : nat) (n : Z) : string :=
  let ds := pretty (Z.abs n) in
  if n <? 0
  then String "-" (zeros (w - 1 - String.length ds) ++ ds)
  else zeros (w - String.length ds) ++ ds.

(** [s.ljust(w)] *)
Fixpoint blanks (k : nat) : string :=
  match k with
  | O => EmptyString
  | S k' => String " " (blanks k')
  end.

(** [len(s)]: the number of characters.  A character outside ASCII is
    counted at the first of its bytes, the bytes [10xxxxxx] that continue it
    are not. *)
Definition starts_char (c : ascii) : bool :=
  negb ((128 <=? code c) && (code c <? 192)).

Fixpoint len (s : string) : nat :=
  match s with
  | EmptyString => O
  | String c r => if starts_char c then S (len r) else len r
  end.

Definition ljust (w : nat) (s : string) : string :=
  s ++ blanks (w - len s).

(** [sep.join(parts)] *)
Fixpoint join (sep : string) (parts : list string) : string :=
  match parts with
  | [] => EmptyString
  | [p] => p
  | p :: rest => p ++ sep ++ join sep rest
  end.

End Text.

(** ** Text: what Python decides by the Unicode tables

    [str_digit] reads one decimal digit (a character of category Nd, of any
    script) at the head of a text, as the [\d] of a regular expression and
    [int] do, and returns its value and the text after it.  On ASCII text the
    three operations are those of [Text]; the laws beyond ASCII are the ones
    every text satisfies: lowering never empties a text, and a digit is read
    from its own characters, whatever follows. *)

Class PyText : Type := {
  str_lower : string -> string;                    (* [s.lower()] *)
  str_strip : string -> string;                    (* [s.strip()] *)
  str_digit : string -> option (Z * string);       (* [\d], then [int] *)
  str_lower_ascii : forall s, Text.is_ascii s = true -> str_lower s = Text.lower s;
  str_lower_not_empty : forall s, str_lower s = EmptyString -> s = EmptyString;
  str_strip_ascii : forall s, Text.is_ascii s = true -> str_strip s = Text.strip s;
  str_digit_empty : str_digit EmptyString = None;
  str_digit_ascii : forall c r,
    Text.code c < 128 -> str_digit (String c r) = Text.digit (String c r);
  str_digit_value : forall s v r, str_digit s = Some (v, r) -> 0 <= v <= 9;
  str_digit_rest : forall s v r,
    str_digit s = Some (v, r) ->
    exists p, s = p ++ r /\ forall r', str_digit (p ++ r') = Some (v, r')
}.

(** The interface on ASCII text: every character above 127 is left alone and
    is no digit.  The examples run on it. *)
Module AsciiText.

#[export] Instance ascii_text : PyText.
Proof.
  refine {| str_lower := Text.lower; str_strip := Text.strip; str_digit := Text.digit |}.
  - reflexivity.
  - intros [|c s] H; [reflexivity | discriminate H].
  - reflexivity.
  - reflexivity.
  - reflexivity.
  - intros [|c s] v r; simpl; [discriminate|].
    destruct (Text.isdigit c) eqn:Hd; [|discriminate]. intros [= <- _].
    unfold Text.isdigit in Hd. unfold Text.digit_value. lia.
  - intros [|c s] v r; simpl; [discriminate|].
    destruct (Text.isdigit c) eqn:Hd; [|discriminate]. intros [= <- <-].
    exists (String c EmptyString). split; [reflexivity|]. intros r'. simpl.
    rewrite Hd. reflexivity.
Defined.

End AsciiText.

(** ** Exceptions and results *)

Inductive exn : Type :=
| ArgumentTypeError (msg : string)   (* the program's own validation error *)
| ValueError (msg : string)
| AttributeError (msg : string)
| UnicodeDecodeError.

Inductive result (A : Type) : Type :=
| Ok (a : A)
| Raise (e : exn).
Arguments Ok {A} a.
Arguments Raise {A} e.

Definition is_raise {A : Type} (r : result A) : bool :=
  match r with
  | Ok _ => false
  | Raise _ => true
  end.

(** ** Calendar dates: [datetime.date], [strptime], [isoformat] *)

Record Date : Type := mkDate { year : Z; month : Z; day : Z }.

Definition is_leap (y : Z) : bool :=
  (y mod 4 =? 0) && (negb (y mod 100 =? 0) || (y mod 400 =? 0)).

Definition days_in_month (y m : Z) : Z :=
  if m =? 2 then (if is_leap y then 29 else 28)
  else if (m =? 4) || (m =? 6) || (m =? 9) || (m =? 11) then 30
  else 31.

(** What the constructor [date(y, m, d)] accepts. *)
Definition valid_date (d : Date) : bool :=
  (1 <=? year d) && (year d <=? 9999) &&
  (1 <=? month d) && (month d <=? 12) &&
  (1 <=? day d) && (day d <=? days_in_month (year d) (month d)).

(** [d.isoformat()] *)
Definition isoformat (d : Date) : string :=
  Text.format_0d 4 (year d) ++ "-" ++ Text.format_0d 2 (month d) ++ "-"
  ++ Text.format_0d 2 (day d).

(** [datetime.strptime(value, "%Y-%m-%d")].  The library compiles the format
    into the regular expression
    [(?P<Y>\d\d\d\d)-(?P<m>1[0-2]|0[1-9]|[1-9])-(?P<d>3[0-1]|[1-2]\d|0[1-9]|[1-9]| [1-9])],
    matches it at the start of the text, refuses text left over after the
    match, converts the three groups with [int], and then builds the date,
    which refuses year 0 and days the month does not have.  Every failure is
    a [ValueError]: [None] here. *)
Module Strptime.
Section Pieces.
Context `{PT : PyText}.

(** A piece of the expression: the number it read and the text left. *)
Definition piece : Type := string -> option (Z * string).

(** One digit of [0-9] whose value lies in [lo..hi]: the classes [[1-9]],
    [[0-2]] and the like, which hold ASCII digits only. *)
Definition digit_in (lo hi : Z) : piece := fun s =>
  match s with
  | String c r =>
      if Text.isdigit c && (lo <=? Text.digit_value c) && (Text.digit_value c <=? hi)
      then Some (Text.digit_value c, r)
      else None
  | EmptyString => None
  end.

(** Two pieces in a row, read as a decimal number. *)
Definition then_ (p q : piece) : piece := fun s =>
  match p s with
  | Some (a, r) =>
      match q r with
      | Some (b, r') => Some (10 * a + b, r')
      | None => None
      end
  | None => None
  end.

(** A blank followed by a piece. *)
Definition blank_then (p : piece) : piece := fun s =>
  match s with
  | String c r => if Ascii.eqb c " " then p r else None
  | EmptyString => None
  end.

Definition dash (s : string) : option string :=
  match s with
  | String c r => if Ascii.eqb c "-" then Some r else None
  | EmptyString => None
  end.

(** [\d]: a decimal digit of any script. *)
Definition any_digit : piece := str_digit.

Definition re_Y : piece := then_ (then_ (then_ any_digit any_digit) any_digit) any_digit.

Definition re_m : list piece :=
  [ then_ (digit_in 1 1) (digit_in 0 2);
    then_ (digit_in 0 0) (digit_in 1 9);
    digit_in 1 9 ].

Definition re_d : list piece :=
  [ then_ (digit_in 3 3) (digit_in 0 1);
    then_ (digit_in 1 2) any_digit;
    then_ (digit_in 0 0) (digit_in 1 9);
    digit_in 1 9;
    blank_then (digit_in 1 9) ].

(** Alternation with backtracking: the first alternative after which the
    rest of the expression [k] matches. *)
Fixpoint alternatives {A : Type} (alts : list piece) (k : Z -> string -> option A)
         (s : string) : option A :=
  match alts with
  | [] => None
  | p :: rest =>
      match (match p s with Some (v, r) => k v r | None => None end) with
      | Some a => Some a
      | None => alternatives rest k s
      end
  end.

(** The match: year, month, day and the unconverted text. *)
Definition re_match (s : string) : option (Z * Z * Z * string) :=
  match re_Y s with
  | Some (y, r1) =>
      match dash r1 with
      | Some r2 =>
          alternatives re_m (fun m r3 =>
            match dash r3 with
            | Some r4 => alternatives re_d (fun d r5 => Some (y, m, d, r5)) r4
            | None => None
            end) r2
      | None => None
      end
  | None => None
  end.

Definition strptime (s : string) : option Date :=
  match re_match s with
  | Some (y, m, d, rest) =>
      match rest with
      | EmptyString =>
          let dt := mkDate y m d in
          if valid_date dt then Some dt else None
      | String _ _ => None          (* unconverted data remains *)
      end
  | None => None
  end.

End Pieces.
End Strptime.

Section ParseDate.
Context `{PT : PyText}.

(** [parse_date(value)]; [today] is [date.today()]. *)
Definition parse_date (today : Date) (value : option string) : result string :=
  match value with
  | None => Ok (isoformat today)
  | Some EmptyString => Ok (isoformat today)
  | Some v =>
      match Strptime.strptime v with
      | Some d => Ok (isoformat d)
      | None => Raise (ArgumentTypeError "Invalid date format. Use YYYY-MM-DD.")
      end
  end.

End ParseDate.

(** [month_to_ym(month, year)] *)
Definition month_to_ym (today : Date) (month : Z) (yr : option Z) : result (Z * Z) :=
  if (month <? 1) || (month >? 12)
  then Raise (ArgumentTypeError "Month must be between 1 and 12.")
  else Ok (match yr with Some y => y | None => year today end, month).

(** [ym_key(year, month)] *)
Definition ym_key (y m : Z) : string :=
  Text.format_0d 4 y ++ "-" ++ Text.format_0d 2 m.

(** [month_name(month)]: [datetime(2000, month, 1).strftime("%B")]. *)
Definition month_name (m : Z) : result string :=
  match m with
  | 1 => Ok "January" | 2 => Ok "February" | 3 => Ok "March"
  | 4 => Ok "April" | 5 => Ok "May" | 6 => Ok "June"
  | 7 => Ok "July" | 8 => Ok "August" | 9 => Ok "September"
  | 10 => Ok "October" | 11 => Ok "November" | 12 => Ok "December"
  | _ => Raise (ValueError "month must be in 1..12")
  end.

(** ** Amounts: the operations the program applies to a Python [float] *)

Class PyFloat : Type := {
  float : Type;
  fzero : float;                       (* [0] *)
  fadd : float -> float -> float;      (* [x + y] *)
  fle : float -> float -> bool;        (* [x <= y] *)
  fgt : float -> float -> bool;        (* [x > y] *)
  round2 : float -> float;             (* [round(x, 2)] *)
  format_2f : float -> string;         (* [f"{x:.2f}"] *)
  repr_float : float -> string         (* [str(x)] *)
}.

(** ** [sorted]: a stable sort, written with the comparison [x < y] alone *)

Section Sorted.
Context {A : Type} (lt : A -> A -> bool).

(** [x] goes in front of the first element that is not smaller than it, so
    that it stays in front of the equal elements sorted before it. *)
Fixpoint insert_sorted (x : A) (l : list A) : list A :=
  match l with
  | [] => [x]
  | y :: l' => if lt y x then y :: insert_sorted x l' else x :: y :: l'
  end.

Fixpoint sorted (l : list A) : list A :=
  match l with
  | [] => []
  | x :: l' => insert_sorted x (sorted l')
  end.
End Sorted.

(** ** The program *)

Section Program.
Context `{PF : PyFloat} `{PT : PyText}.

(** *** Data model *)

(** The dataclass [Expense]; as stored, a JSON object with these members. *)
Record Expense : Type := mkExpense {
  e_id : Z;
  e_date : string;
  e_description : string;
  e_amount : float;
  e_category : option string
}.

(** The dictionary the handlers work on: all three keys are present. *)
Record Document : Type := mkDocument {
  next_id : Z;
  expenses : list Expense;
  budgets : gmap string float
}.

(** [{"next_id": 1, "expenses": [], "budgets": {}}] *)
Definition fresh_document : Document := mkDocument 1 [] ∅.

(** A JSON object as found in the file: any of the three keys may be
    missing. *)
Record JsonObject : Type := mkJsonObject {
  o_next_id : option Z;
  o_expenses : option (list Expense);
  o_budgets : option (gmap string float)
}.

(** The other values [json.load] can return. *)
Inductive json_other : Type :=
| JList | JStr | JInt | JFloat | JBool | JNone.

Definition type_name (t : json_other) : string :=
  match t with
  | JList => "list" | JStr => "str" | JInt => "int"
  | JFloat => "float" | JBool => "bool" | JNone => "NoneType"
  end.

(** One row of an exported CSV file, by column. *)
Definition csv_row : Type := list string.

(** What a file can hold, by what reading it as JSON does.  A CSV file that
    [export] wrote begins with the header line [id,date,...], which is no
    JSON. *)
Inductive FileContent : Type :=
| NotUtf8                        (* decoding the bytes fails *)
| NotJson (text : string)        (* [json.load] raises [JSONDecodeError] *)
| CsvText (rows : list csv_row)  (* written by [export]: [JSONDecodeError] too *)
| JsonObj (o : JsonObject)       (* [json.load] returns a [dict] *)
| JsonOther (t : json_other).    (* [json.load] returns something else *)

(** [json.dump(data, f)] of a document. *)
Definition dump (d : Document) : FileContent :=
  JsonObj (mkJsonObject (Some (next_id d)) (Some (expenses d)) (Some (budgets d))).

(** The directory [~/.expense_tracker]. *)
Record Dir : Type := mkDir {
  data_json : option FileContent;
  data_bak : option FileContent;
  data_tmp : option FileContent
}.

Definition empty_dir : Dir := mkDir None None None.

(** What the program can touch: the data directory ([None] before it is
    created), the lines printed, the documents handed to [save_data] so far,
    and the CSV files written (path and rows, latest last). *)
Record World : Type := mkWorld {
  data_dir : option Dir;
  stdout : list string;
  saves : list Document;
  csv_files : list (string * list csv_row)
}.

(** The file a path leads to: one of the three files of the data directory,
    or a file the program does not read. *)
Inductive Place : Type :=
| OtherFile
| DataFile       (* [~/.expense_tracker/data.json] *)
| BackupFile     (* [~/.expense_tracker/data.bak] *)
| TempFile.      (* [~/.expense_tracker/data.tmp] *)

(** What an invocation finds around it: the current date, whether renaming
    the data file to its backup name succeeds, the file that [Path(p)] names
    (by the working directory and the links of the file system), and the text
    [str(Path(p))] that [pathlib] makes of [p] ([out.csv] of [./out.csv]). *)
Record Env : Type := mkEnv {
  today : Date;
  replace_ok : bool;
  csv_target : string -> Place;
  path_str : string -> string
}.

(** *** State and exceptions *)

Definition M (A : Type) : Type := Env -> World -> result A * World.

Definition ret {A : Type} (a : A) : M A := fun _ w => (Ok a, w).

Definition bind {A B : Type} (m : M A) (k : A -> M B) : M B := fun env w =>
  match m env w with
  | (Ok a, w') => k a env w'
  | (Raise e, w') => (Raise e, w')
  end.

Definition lift {A : Type} (r : result A) : M A := fun _ w => (r, w).

Definition ask : M Env := fun env w => (Ok env, w).

Definition print (line : string) : M unit := fun _ w =>
  (Ok tt, mkWorld (data_dir w) (stdout w ++ [line]) (saves w) (csv_files w)).

Notation "'do' x <- m ; k" := (bind m (fun x => k))
  (at level 10, x name, m at level 100, k at level 200).
Notation "'do' ' p <- m ; k" := (bind m (fun x => match x with p => k end))
  (at level 10, p pattern, m at level 100, k at level 200).
Notation "'run' m ; k" := (bind m (fun _ => k))
  (at level 10, m at level 100, k at level 200).

(** *** Store *)

(** [get_data_file_path()]: makes sure the directory is there. *)
Definition get_data_file_path : M Dir := fun _ w =>
  let dir := match data_dir w with Some d => d | None => empty_dir end in
  (Ok dir, mkWorld (Some dir) (stdout w) (saves w) (csv_files w)).

Definition put_dir (d : Dir) : M unit := fun _ w =>
  (Ok tt, mkWorld (Some d) (stdout w) (saves w) (csv_files w)).

(** The three [setdefault] calls. *)
Definition ensure_keys (o : JsonObject) : Document :=
  mkDocument
    (match o_next_id o with Some n => n | None => 1 end)
    (match o_expenses o with Some l => l | None => [] end)
    (match o_budgets o with Some b => b | None => ∅ end).

Definition load_data : M Document :=
  do dir <- get_data_file_path;
  match data_json dir with
  | None => ret fresh_document
  | Some NotUtf8 => lift (Raise UnicodeDecodeError)
  | Some (NotJson _) | Some (CsvText _) =>
      do env <- ask;
      run (if replace_ok env
           then put_dir (mkDir None (data_json dir) (data_tmp dir))
           else ret tt);
      ret fresh_document
  | Some (JsonOther t) =>
      lift (Raise (AttributeError
        ("'" ++ type_name t ++ "' object has no attribute 'setdefault'")))
  | Some (JsonObj o) => ret (ensure_keys o)
  end.

Definition log_save (d : Document) : M unit := fun _ w =>
  (Ok tt, mkWorld (data_dir w) (stdout w) (saves w ++ [d]) (csv_files w)).

Definition save_data (data : Document) : M unit :=
  do dir <- get_data_file_path;
  run put_dir (mkDir (data_json dir) (data_bak dir) (Some (dump data)));
  run put_dir (mkDir (Some (dump data)) (data_bak dir) None);
  log_save data.

(** *** Validation *)

Definition validate_amount (amount : float) : result float :=
  if fle amount fzero
  then Raise (ArgumentTypeError "Amount must be positive.")
  else Ok (round2 amount).

(** [args.category.strip() if args.category else None] *)
Definition clean_category (c : option string) : option string :=
  match c with
  | None => None
  | Some EmptyString => None
  | Some s => Some (str_strip s)
  end.

(** *** Filtering *)

(** [(e.get("category") or "")] *)
Definition category_or_empty (e : Expense) : string :=
  match e_category e with
  | Some c => c
  | None => EmptyString
  end.

(** The sort key [(date, id)] and Python's [<] on such pairs. *)
Definition sort_key (e : Expense) : string * Z := (e_date e, e_id e).

Definition key_lt (a b : string * Z) : bool :=
  if String.eqb (fst a) (fst b) then snd a <? snd b else String.ltb (fst a) (fst b).

Definition expense_lt (a b : Expense) : bool := key_lt (sort_key a) (sort_key b).

Definition filter_expenses (today : Date) (exps : list Expense)
           (category : option string) (month : option Z) : result (list Expense) :=
  let filtered1 :=
    match category with
    | None => exps
    | Some EmptyString => exps
    | Some c =>
        List.filter (fun e => String.eqb (str_lower (category_or_empty e)) (str_lower c)) exps
    end in
  match month with
  | None => Ok (sorted expense_lt filtered1)
  | Some mo =>
      match month_to_ym today mo (Some (year today)) with
      | Raise e => Raise e
      | Ok (y, m) =>
          let prefix := Text.format_0d 4 y ++ "-" ++ Text.format_0d 2 m ++ "-" in
          Ok (sorted expense_lt
                (List.filter (fun e => Text.startswith prefix (e_date e)) filtered1))
      end
  end.

(** *** Command handlers *)

Definition set_expenses (d : Document) (l : list Expense) : Document :=
  mkDocument (next_id d) l (budgets d).

Definition set_next_id (d : Document) (n : Z) : Document :=
  mkDocument n (expenses d) (budgets d).

Definition set_budgets (d : Document) (b : gmap string float) : Document :=
  mkDocument (next_id d) (expenses d) b.

Definition add_expense (description : string) (amount : float)
           (date category : option string) : M unit :=
  do data <- load_data;
  let expense_id := next_id data in
  do env <- ask;
  do date' <- lift (parse_date (today env) date);
  let description' := str_strip description in
  do amount' <- lift (validate_amount amount);
  let expense :=
    mkExpense expense_id date' description' amount' (clean_category category) in
  let data1 := set_expenses data (expenses data ++ [expense]) in
  let data2 := set_next_id data1 (expense_id + 1) in
  run save_data data2;
  print ("Expense added successfully (ID: " ++ Text.str_int (e_id expense) ++ ")").

(** [next(e for e in data["expenses"] if e["id"] == id)]: the position of
    the first match.  The match is a reference into the list, so the
    assignments to it below are assignments to that position. *)
Fixpoint find_expense (id : Z) (l : list Expense) : option nat :=
  match l with
  | [] => None
  | e :: l' =>
      if e_id e =? id then Some O
      else match find_expense id l' with
           | Some i => Some (S i)
           | None => None
           end
  end.

(** [data["expenses"][i][field] = ...] *)
Definition assign (i : nat) (f : Expense -> Expense) (d : Document) : Document :=
  set_expenses d (alter f i (expenses d)).

Definition with_description (s : string) (e : Expense) : Expense :=
  mkExpense (e_id e) (e_date e) s (e_amount e) (e_category e).
Definition with_amount (a : float) (e : Expense) : Expense :=
  mkExpense (e_id e) (e_date e) (e_description e) a (e_category e).
Definition with_date (s : string) (e : Expense) : Expense :=
  mkExpense (e_id e) s (e_description e) (e_amount e) (e_category e).
Definition with_category (c : option string) (e : Expense) : Expense :=
  mkExpense (e_id e) (e_date e) (e_description e) (e_amount e) c.

Definition update_expense (id : Z) (description : option string)
           (amount : option float) (date category : option string) : M unit :=
  do data <- load_data;
  match find_expense id (expenses data) with
  | None => print "Error: Expense ID not found."
  | Some i =>
      let data1 :=
        match description with
        | Some s => assign i (with_description (str_strip s)) data
        | None => data
        end in
      do data2 <-
        match amount with
        | Some a =>
            do a' <- lift (validate_amount a);
            ret (assign i (with_amount a') data1)
        | None => ret data1
        end;
      do data3 <-
        match date with
        | Some s =>
            do env <- ask;
            do s' <- lift (parse_date (today env) (Some s));
            ret (assign i (with_date s') data2)
        | None => ret data2
        end;
      let data4 :=
        match category with
        | Some c => assign i (with_category (clean_category (Some c))) data3
        | None => data3
        end in
      run save_data data4;
      print "Expense updated successfully"
  end.

Definition delete_expense (id : Z) : M unit :=
  do data <- load_data;
  let before := length (expenses data) in
  let data1 := set_expenses data (List.filter (fun e => negb (e_id e =? id)) (expenses data)) in
  let after := length (expenses data1) in
  if Nat.eqb before after
  then print "Error: Expense ID not found."
  else
    run save_data data1;
    print "Expense deleted successfully".

Definition table_headers : list string :=
  ["ID"; "Date"; "Description"; "Amount"; "Category"].

(** The width of column [i]: the longest cell, header included. *)
Definition column_width (headers : list string) (rows : list (list string)) (i : nat) : nat :=
  fold_right Nat.max (Text.len (nth i headers ""))
    (List.map (fun r => Text.len (nth i r "")) rows).

Fixpoint fmt_cols (widths : list nat) (cols : list string) : list string :=
  match cols, widths with
  | c :: cols', w :: widths' => Text.ljust w c :: fmt_cols widths' cols'
  | _, _ => []
  end.

Definition fmt_row (widths : list nat) (cols : list string) : string :=
  Text.join "  " (fmt_cols widths cols).

Fixpoint print_all (lines : list string) : M unit :=
  match lines with
  | [] => ret tt
  | l :: rest => run print l; print_all rest
  end.

Definition print_table (headers : list string) (rows : list (list string)) : M unit :=
  let widths := List.map (column_width headers rows) (seq 0 (length headers)) in
  run print (fmt_row widths headers);
  print_all (List.map (fmt_row widths) rows).

Definition list_expenses (category : option string) (month : option Z) : M unit :=
  do data <- load_data;
  do env <- ask;
  do exps <- lift (filter_expenses (today env) (expenses data) category month);
  match exps with
  | [] => print "No expenses found."
  | _ =>
      let rows := List.map (fun e =>
        [ Text.str_int (e_id e); e_date e; e_description e;
          "$" ++ format_2f (e_amount e);
          match e_category e with
          | Some (String c r) => String c r
          | _ => "-"
          end ]) exps in
      print_table table_headers rows
  end.

Definition summary (month : option Z) : M unit :=
  do data <- load_data;
  do env <- ask;
  do exps <- lift (filter_expenses (today env) (expenses data) None month);
  let total := fold_left fadd (List.map e_amount exps) fzero in
  match month with
  | None => print ("Total expenses: $" ++ format_2f total)
  | Some mo =>
      do mname <- lift (month_name mo);
      run print ("Total expenses for " ++ mname ++ ": $" ++ format_2f total);
      do ' (y, m) <- lift (month_to_ym (today env) mo (Some (year (today env))));
      let key := ym_key y m in
      match budgets data !! key with
      | Some budget_amount =>
          if fgt total budget_amount
          then print ("Warning: over budget for " ++ key ++ "! Budget $"
                      ++ format_2f budget_amount ++ ", spent $" ++ format_2f total)
          else ret tt
      | None => ret tt
      end
  end.

Definition budget_set (month : Z) (amount : float) : M unit :=
  do data <- load_data;
  do env <- ask;
  do ' (y, m) <- lift (month_to_ym (today env) month (Some (year (today env))));
  let key := ym_key y m in
  do amount' <- lift (validate_amount amount);
  let data1 := set_budgets data (<[key := amount']> (budgets data)) in
  run save_data data1;
  print ("Budget set for " ++ key ++ ": $" ++ format_2f amount').

Definition budget_show (month : option Z) : M unit :=
  do data <- load_data;
  match month with
  | None =>
      match sorted (fun a b => String.ltb (fst a) (fst b)) (map_to_list (budgets data)) with
      | [] => print "No budgets set."
      | items =>
          print_table ["Month"; "Budget"]
            (List.map (fun kv => [fst kv; "$" ++ format_2f (snd kv)]) items)
      end
  | Some mo =>
      do env <- ask;
      do ' (y, m) <- lift (month_to_ym (today env) mo (Some (year (today env))));
      let key := ym_key y m in
      match budgets data !! key with
      | Some b => print ("Budget for " ++ key ++ ": $" ++ format_2f b)
      | None => print ("No budget set for " ++ key ++ ".")
      end
  end.

(** The directory after [content] is written to the file at [place]. *)
Definition put_file (place : Place) (content : FileContent) (dir : Dir) : Dir :=
  match place with
  | OtherFile => dir
  | DataFile => mkDir (Some content) (data_bak dir) (data_tmp dir)
  | BackupFile => mkDir (data_json dir) (Some content) (data_tmp dir)
  | TempFile => mkDir (data_json dir) (data_bak dir) (Some content)
  end.

(** [out_path.parent.mkdir(...)], then [out_path.open("w")] and the rows
    written: the file the path names holds the rows, whatever it held. *)
Definition write_csv (path : string) (rows : list csv_row) : M unit := fun env w =>
  let dir :=
    match csv_target env path with
    | OtherFile => data_dir w
    | place =>
        Some (put_file place (CsvText rows)
                (match data_dir w with Some d => d | None => empty_dir end))
    end in
  (Ok tt, mkWorld dir (stdout w) (saves w) (csv_files w ++ [(path, rows)])).

Definition export_csv (csv : string) (category : option string) (month : option Z) : M unit :=
  do data <- load_data;
  do env <- ask;
  do exps <- lift (filter_expenses (today env) (expenses data) category month);
  match exps with
  | [] => print "No expenses to export."
  | _ =>
      let header := ["id"; "date"; "description"; "amount"; "category"] in
      let rows := List.map (fun e =>
        [ Text.str_int (e_id e); e_date e; e_description e; repr_float (e_amount e);
          category_or_empty e ]) exps in
      run write_csv csv (header :: rows);
      print ("Exported " ++ Text.str_int (Z.of_nat (length exps)) ++ " expenses to "
             ++ path_str env csv)
  end.

(** *** Dispatch *)

(** The parsed command line: the sub-command and its options. *)
Inductive Command : Type :=
| Add (description : string) (amount : float) (date category : option string)
| Update (id : Z) (description : option string) (amount : option float)
         (date category : option string)
| Delete (id : Z)
| ListCmd (category : option string) (month : option Z)
| Summary (month : option Z)
| BudgetSet (month : Z) (amount : float)
| BudgetShow (month : option Z)
| Export (csv : string) (category : option string) (month : option Z).

(** [args.func(args)] *)
Definition func (c : Command) : M unit :=
  match c with
  | Add d a dt cat => add_expense d a dt cat
  | Update i d a dt cat => update_expense i d a dt cat
  | Delete i => delete_expense i
  | ListCmd cat mo => list_expenses cat mo
  | Summary mo => summary mo
  | BudgetSet mo a => budget_set mo a
  | BudgetShow mo => budget_show mo
  | Export p cat mo => export_csv p cat mo
  end.

Definition main (c : Command) : M unit := fun env w =>
  match func c env w with
  | (Raise (ArgumentTypeError msg), w') => print ("Error: " ++ msg) env w'
  | r => r
  end.

End Program.

(** ** A decimal instance of the amount interface

    Amounts counted in whole hundredths.  On such amounts comparison and
    addition are those of the integers, [round(x, 2)] changes nothing, and the
    two printers write the hundredths out.  The examples run the program on
    this instance. *)

Module Cents.

Definition show_2f (c : Z) : string :=
  (if c <? 0 then "-" else "")
  ++ Text.str_int (Z.abs c / 100) ++ "." ++ Text.format_0d 2 (Z.abs c mod 100).

Definition show_repr (c : Z) : string :=
  (if c <? 0 then "-" else "")
  ++ Text.str_int (Z.abs c / 100) ++ "."
  ++ (if Z.abs c mod 10 =? 0
      then Text.str_int (Z.abs c mod 100 / 10)
      else Text.format_0d 2 (Z.abs c mod 100)).

#[export] Instance cents : PyFloat := {|
  float := Z;
  fzero := 0;
  fadd := Z.add;
  fle := Z.leb;
  fgt := Z.gtb;
  round2 := fun c => c;
  format_2f := show_2f;
  repr_float := show_repr
|}.

End Cents.

(** ** The binary instance of the amount interface

    IEEE 754 double precision, as the Standard Library specifies it: a float
    is a zero, an infinity, NaN, or [m * 2 ^ e] with a sign.  Comparison,
    addition and division are the library's.

    [round(x, 2)] converts the exact value of [x] to decimal with two digits
    after the point, a tie going to the even digit, and reads the result back
    as the nearest float; [f"{x:.2f}"] prints that decimal.  [str(x)], the
    shortest decimal text that reads back as [x], is an argument of the
    instance. *)

Module Binary64.

Definition prec : Z := 53.
Definition emax : Z := 1024.

(** [n / d] rounded to the nearest integer, a tie to the even one ([d > 0]). *)
Definition div_half_even (n d : Z) : Z :=
  let q := n / d in
  match 2 * (n mod d) ?= d with
  | Lt => q
  | Gt => q + 1
  | Eq => if Z.even q then q else q + 1
  end.

(** [100 * m * 2 ^ e] as a fraction of integers. *)
Definition scaled (m : positive) (e : Z) : Z * Z :=
  if 0 <=? e then (100 * Zpos m * 2 ^ e, 1) else (100 * Zpos m, 2 ^ (- e)).

(** The hundredths in [m * 2 ^ e], to the nearest integer. *)
Definition hundredths (m : positive) (e : Z) : Z :=
  div_half_even (fst (scaled m e)) (snd (scaled m e)).

(** The float nearest to [k / 100], with the sign [s]. *)
Definition of_hundredths (s : bool) (k : Z) : spec_float :=
  match k with
  | Zpos p => SFdiv prec emax (S754_finite s p 0) (S754_finite false 100 0)
  | _ => S754_zero s
  end.

(** [round(x, 2)] *)
Definition round_2 (x : spec_float) : spec_float :=
  match x with
  | S754_finite s m e => of_hundredths s (hundredths m e)
  | _ => x
  end.

(** [f"{x:.2f}"] *)
Definition show_2f (x : spec_float) : string :=
  match x with
  | S754_nan => "nan"
  | S754_infinity s => if s then "-inf" else "inf"
  | S754_zero s => if s then "-0.00" else "0.00"
  | S754_finite s m e =>
      let k := hundredths m e in
      (if s then "-" else "") ++ Text.str_int (k / 100) ++ "." ++ Text.format_0d 2 (k mod 100)
  end.

Definition binary64 (repr : spec_float -> string) : PyFloat := {|
  float := spec_float;
  fzero := S754_zero false;
  fadd := SFadd prec emax;
  fle := SFleb;
  fgt := fun x y => SFltb y x;
  round2 := round_2;
  format_2f := show_2f;
  repr_float := repr
|}.

(** The float nearest to [n / d]: what [float] makes of a decimal text. *)
Definition ratio (n d : positive) : spec_float :=
  SFdiv prec emax (S754_finite false n 0) (S754_finite false d 0).

End Binary64.

(** ** Notions the statements use *)

(** The character of a decimal digit. *)
Definition digit_char (v : Z) : ascii := ascii_of_N (Z.to_N (v + 48)).

Definition digits : list Z := [0; 1; 2; 3; 4; 5; 6; 7; 8; 9].

Definition four_chars (a b c d : Z) : string :=
  String (digit_char a) (String (digit_char b) (String (digit_char c)
    (String (digit_char d) EmptyString))).

Definition two_chars (a b : Z) : string :=
  String (digit_char a) (String (digit_char b) EmptyString).

Definition with_year (y : Z) (t : Z * Z * string) : Z * Z * Z * string :=
  (y, fst (fst t), snd (fst t), snd t).

(** The exact shape [YYYY-MM-DD]: ten characters, digits around two dashes. *)
Definition iso_shape (s : string) : bool :=
  match s with
  | String y1 (String y2 (String y3 (String y4 (String s1
      (String m1 (String m2 (String s2 (String d1 (String d2 EmptyString))))))))) =>
      Text.isdigit y1 && Text.isdigit y2 && Text.isdigit y3 && Text.isdigit y4
      && Ascii.eqb s1 "-" && Text.isdigit m1 && Text.isdigit m2
      && Ascii.eqb s2 "-" && Text.isdigit d1 && Text.isdigit d2
  | _ => false
  end.

(** The ways of writing a month and a day in ASCII digits that [strptime]
    reads: with the leading zero, and below ten also without it (a day also
    after a blank). *)
Definition month_spellings (m : Z) : list string :=
  Text.format_0d 2 m :: (if m <? 10 then [Text.str_int m] else []).

Definition day_spellings (d : Z) : list string :=
  Text.format_0d 2 d
  :: (if d <? 10 then [Text.str_int d; String " " (Text.str_int d)] else []).

Definition spellings (d : Date) : list string :=
  List.flat_map (fun ms =>
    List.map (fun ds => Text.format_0d 4 (year d) ++ "-" ++ ms ++ "-" ++ ds)
             (day_spellings (day d)))
    (month_spellings (month d)).

Section DateNotions.
Context `{PT : PyText}.

(** The month and the day of a date text, once the year and its dash are
    read: the part of [re_match] after the year. *)
Definition tail_match (t : string) : option (Z * Z * string) :=
  Strptime.alternatives Strptime.re_m (fun m r3 =>
    match Strptime.dash r3 with
    | Some r4 => Strptime.alternatives Strptime.re_d (fun d r5 => Some (m, d, r5)) r4
    | None => None
    end) t.

(** [p] is one decimal digit, of value [v], and nothing else. *)
Definition digit_text (v : Z) (p : string) : Prop :=
  str_digit p = Some (v, EmptyString).

(** A year as [strptime] reads it: four decimal digits, of any script. *)
Definition year_text (y : Z) (t : string) : Prop :=
  exists a b c d pa pb pc pd,
    digit_text a pa /\ digit_text b pb /\ digit_text c pc /\ digit_text d pd
    /\ t = pa ++ pb ++ pc ++ pd
    /\ y = 10 * (10 * (10 * a + b) + c) + d.

(** A day as [strptime] reads it: one of the ASCII spellings or, from 10 to
    29, the ASCII digit 1 or 2 followed by a decimal digit of any script. *)
Definition day_text (d : Z) (t : string) : Prop :=
  In t (day_spellings d)
  \/ exists a b pb,
       1 <= a <= 2 /\ digit_text b pb /\ t = String (digit_char a) pb /\ d = 10 * a + b.

(** The texts [strptime] reads as the date [dt]. *)
Definition spells (dt : Date) (s : string) : Prop :=
  exists ty tm td,
    year_text (year dt) ty /\ In tm (month_spellings (month dt))
    /\ day_text (day dt) td
    /\ s = ty ++ "-" ++ tm ++ "-" ++ td.

End DateNotions.

Definition invalid_date_error : exn :=
  ArgumentTypeError "Invalid date format. Use YYYY-MM-DD.".

(** [k] is the integer nearest to [n / d], the even one of two. *)
Definition nearest_even (n d k : Z) : Prop :=
  2 * Z.abs (n - k * d) <= d /\ (2 * Z.abs (n - k * d) = d -> Z.even k = true).

(** [x <= 0] on floats: zero, a negative number, minus infinity. *)
Definition not_positive (x : spec_float) : bool :=
  match x with
  | S754_zero _ => true
  | S754_finite s _ _ => s
  | S754_infinity s => s
  | S754_nan => false
  end.

(** The exact value of the float is a whole number of hundredths. *)
Definition two_decimals (x : spec_float) : bool :=
  match x with
  | S754_zero _ => true
  | S754_finite _ m e => fst (Binary64.scaled m e) mod snd (Binary64.scaled m e) =? 0
  | _ => false
  end.


Section Notions.
Context `{PF : PyFloat} `{PT : PyText}.


(** Case-insensitive equality of a stored category with a filter; a record
    without category matches nothing. *)
Definition matches_category (c : string) (e : Expense) : bool :=
  match e_category e with
  | Some x => String.eqb (str_lower x) (str_lower c)
  | None => false
  end.

(** The date starts with [YYYY-MM-] for the current year and month [mo]. *)
Definition in_month (today : Date) (mo : Z) (e : Expense) : bool :=
  Text.startswith (ym_key (year today) mo ++ "-") (e_date e).

(** The records a filter is to keep. *)
Definition keeps (today : Date) (category : option string) (mo : option Z)
           (e : Expense) : bool :=
  match category with
  | None => true
  | Some EmptyString => true
  | Some c => matches_category c e
  end
  && match mo with
     | None => true
     | Some m => in_month today m e
     end.

(** [next_id] is above every id in [expenses]. *)
Definition ids_below_next (d : Document) : Prop :=
  Forall (fun e => e_id e < next_id d) (expenses d).

(** The document an invocation would start from. *)
Definition reads (w : World) (d : Document) : Prop :=
  forall env, fst (load_data env w) = Ok d.

(** The data file holds the JSON object [o]. *)
Definition holds (w : World) (o : JsonObject) : Prop :=
  exists dir, data_dir w = Some dir /\ data_json dir = Some (JsonObj o).

(** All three top-level keys are there. *)
Definition well_formed (o : JsonObject) : Prop :=
  is_Some (o_next_id o) /\ is_Some (o_expenses o) /\ is_Some (o_budgets o).

(** A session: invocations one after the other, each in its environment.
    [worlds] lists the world before the first and after each invocation. *)
Definition invoke (w : World) (i : Env * Command) : World :=
  snd (main (snd i) (fst i) w).

Fixpoint worlds (w : World) (session : list (Env * Command)) : list World :=
  match session with
  | [] => [w]
  | i :: rest => w :: worlds (invoke w i) rest
  end.

Definition final (w : World) (session : list (Env * Command)) : World :=
  fold_left invoke session w.

(** The world an invocation leaves when all it did was read the document and
    print [line]. *)
Definition only_printed (env : Env) (w : World) (line : string) : World :=
  let w1 := snd (load_data env w) in
  mkWorld (data_dir w1) (stdout w ++ [line]) (saves w) (csv_files w).

(** The directory as [get_data_file_path] leaves it. *)
Definition the_dir (w : World) : Dir :=
  match data_dir w with
  | Some d => d
  | None => empty_dir
  end.

Definition with_dir (w : World) (d : Dir) : World :=
  mkWorld (Some d) (stdout w) (saves w) (csv_files w).

Definition setdefault_error (t : json_other) : exn :=
  AttributeError ("'" ++ type_name t ++ "' object has no attribute 'setdefault'").

(** The world after printing [lines]. *)
Definition printed (w : World) (lines : list string) : World :=
  mkWorld (data_dir w) (stdout w ++ lines) (saves w) (csv_files w).

(** The world after saving [d] and printing [line]. *)
Definition saved_and_printed (w : World) (d : Document) (line : string) : World :=
  mkWorld (Some (mkDir (Some (dump d)) (data_bak (the_dir w)) None))
          (stdout w ++ [line]) (saves w ++ [d]) (csv_files w).

(** The document [add_expense] saves. *)
Definition added (data : Document) (date' description' : string) (amount' : float)
           (category' : option string) : Document :=
  mkDocument (next_id data + 1)
    (expenses data ++ [mkExpense (next_id data) date' description' amount' category'])
    (budgets data).

(** The assignments of [update_expense] to the record at position [i], in
    the order of the source. *)
Definition update_fields (today : Date) (i : nat) (description : option string)
           (amount : option float) (date category : option string)
           (data : Document) : result Document :=
  let data1 :=
    match description with
    | Some s => assign i (with_description (str_strip s)) data
    | None => data
    end in
  match (match amount with
         | Some a =>
             match validate_amount a with
             | Ok a' => Ok (assign i (with_amount a') data1)
             | Raise e => Raise e
             end
         | None => Ok data1
         end) with
  | Raise e => Raise e
  | Ok data2 =>
      match (match date with
             | Some s =>
                 match parse_date today (Some s) with
                 | Ok s' => Ok (assign i (with_date s') data2)
                 | Raise e => Raise e
                 end
             | None => Ok data2
             end) with
      | Raise e => Raise e
      | Ok data3 =>
          Ok (match category with
              | Some c => assign i (with_category (clean_category (Some c))) data3
              | None => data3
              end)
      end
  end.

(** The ids of the stored records, in order. *)
Definition ids (d : Document) : list Z := List.map e_id (expenses d).

(** The commands that only read: whatever they do after loading is
    printing, and when they raise the validation error they have not
    printed. *)
Definition reads_only (m : M unit) : Prop :=
  forall env w,
    let w1 := snd (load_data env w) in
    let r := m env w in
    data_dir (snd r) = data_dir w1
    /\ saves (snd r) = saves w
    /\ (forall msg, fst r = Raise (ArgumentTypeError msg) -> snd r = w1).

(** What a command that saves makes of the document [d] it loaded. *)
Definition step_doc (env : Env) (c : Command) (d d' : Document) : Prop :=
  match c with
  | Add description amount date category =>
      exists date' amount',
        parse_date (today env) date = Ok date'
        /\ validate_amount amount = Ok amount'
        /\ d' = added d date' (str_strip description) amount' (clean_category category)
  | Update id description amount date category =>
      exists i,
        find_expense id (expenses d) = Some i
        /\ update_fields (today env) i description amount date category d = Ok d'
  | Delete id =>
      d' = set_expenses d (List.filter (fun e => negb (e_id e =? id)) (expenses d))
      /\ length (expenses d') <> length (expenses d)
  | BudgetSet mo amount =>
      exists amount',
        1 <= mo <= 12
        /\ validate_amount amount = Ok amount'
        /\ d' = set_budgets d (<[ym_key (year (today env)) mo := amount']> (budgets d))
  | _ => False
  end.

(** An export whose path leads to the data file. *)
Definition overwrites_store (i : Env * Command) : Prop :=
  match snd i with
  | Export csv _ _ => csv_target (fst i) csv = DataFile
  | _ => False
  end.

(** The line [main] prints for a validation error. *)
Definition error_line (msg : string) : string := "Error: " ++ msg.

Definition not_found_line : string := "Error: Expense ID not found.".

End Notions.

(** ** Further notions *)

(** Dates in calendar order. *)
Definition date_lt (a b : Date) : Prop :=
  year a < year b
  \/ (year a = year b /\ (month a < month b \/ (month a = month b /\ day a < day b))).

Section MoreNotions.
Context `{PF : PyFloat} `{PT : PyText}.

(** The commands whose handlers never call [save_data]. *)
Definition is_query (c : Command) : bool :=
  match c with
  | ListCmd _ _ | Summary _ | BudgetShow _ | Export _ _ _ => true
  | _ => false
  end.

(** The record [update_expense] leaves at the position of [e]. *)
Definition updated_record (today : Date) (description : option string)
           (amount : option float) (date category : option string)
           (e : Expense) : Expense :=
  mkExpense (e_id e)
    (match date with
     | Some s => match parse_date today (Some s) with Ok s' => s' | Raise _ => e_date e end
     | None => e_date e
     end)
    (match description with Some s => str_strip s | None => e_description e end)
    (match amount with Some a => round2 a | None => e_amount e end)
    (match category with Some c => clean_category (Some c) | None => e_category e end).

(** The options of an [update] pass validation. *)
Definition update_valid (today : Date) (amount : option float) (date : option string) : Prop :=
  (forall a, amount = Some a -> fle a fzero = false)
  /\ (forall s, date = Some s -> is_raise (parse_date today (Some s)) = false).

(** The lines of a table, as [print_table] prints them. *)
Definition table_lines (headers : list string) (rows : list (list string)) : list string :=
  let widths := List.map (column_width headers rows) (seq 0 (length headers)) in
  fmt_row widths headers :: List.map (fmt_row widths) rows.

(** The row of [list_expenses] for a record. *)
Definition list_row (e : Expense) : list string :=
  [ Text.str_int (e_id e); e_date e; e_description e;
    "$" ++ format_2f (e_amount e);
    match e_category e with
    | Some (String c r) => String c r
    | _ => "-"
    end ].

(** The row of [export_csv] for a record. *)
Definition export_row (e : Expense) : csv_row :=
  [ Text.str_int (e_id e); e_date e; e_description e; repr_float (e_amount e);
    category_or_empty e ].

(** [sum(float(e["amount"]) for e in exps)] *)
Definition total_of (exps : list Expense) : float :=
  fold_left fadd (List.map e_amount exps) fzero.

(** Every stored date has the shape [YYYY-MM-DD]. *)
Definition dates_canonical (d : Document) : Prop :=
  Forall (fun e => iso_shape (e_date e) = true) (expenses d).

(** The lines [budget_set] and [budget_show] print for a key. *)
Definition budget_set_line (key : string) (v : float) : string :=
  "Budget set for " ++ key ++ ": $" ++ format_2f v.

Definition budget_line (key : string) (v : float) : string :=
  "Budget for " ++ key ++ ": $" ++ format_2f v.

Definition no_budget_line (key : string) : string :=
  "No budget set for " ++ key ++ ".".

(** The lines [summary] prints. *)
Definition total_line (mname : option string) (total : float) : string :=
  match mname with
  | None => "Total expenses: $" ++ format_2f total
  | Some n => "Total expenses for " ++ n ++ ": $" ++ format_2f total
  end.

Definition over_budget_line (key : string) (b total : float) : string :=
  "Warning: over budget for " ++ key ++ "! Budget $" ++ format_2f b
  ++ ", spent $" ++ format_2f total.

(** The header and the last line of [export_csv]. *)
Definition csv_header : csv_row := ["id"; "date"; "description"; "amount"; "category"].

Definition exported_line (n : nat) (path : string) : string :=
  "Exported " ++ Text.str_int (Z.of_nat n) ++ " expenses to " ++ path.

(** The world after [rows] were written to [path] and [line] was printed. *)
Definition exported (env : Env) (w : World) (path : string) (rows : list csv_row)
           (line : string) : World :=
  printed (snd (write_csv path rows env w)) [line].

(** The width of a table: its columns and the two blanks between them. *)
Definition table_width (headers : list string) (rows : list (list string)) : nat :=
  (list_sum (List.map (column_width headers rows) (seq 0 (length headers)))
   + 2 * (length headers - 1))%nat.

(** The row of [budget_show] for a budget entry. *)
Definition budget_row (kv : string * float) : list string :=
  [fst kv; "$" ++ format_2f (snd kv)].

(** The budget entries in the order [budget_show] lists them. *)
Definition budget_items (d : Document) : list (string * float) :=
  sorted (fun a b => String.ltb (fst a) (fst b)) (map_to_list (budgets d)).

End MoreNotions.

(** ** Sample data

    A small document and the worlds the examples start from. *)

Module Sample.
Import Cents AsciiText.

(** The sample environment: the home directory is [/home/ann], the three
    paths below lead to the files of the data directory, and [pathlib] drops
    a leading [./] (the paths of the examples need no other change). *)
Definition target (p : string) : Place :=
  if String.eqb p "/home/ann/.expense_tracker/data.json" then DataFile
  else if String.eqb p "/home/ann/.expense_tracker/data.bak" then BackupFile
  else if String.eqb p "/home/ann/.expense_tracker/data.tmp" then TempFile
  else OtherFile.

Definition shown (p : string) : string :=
  match p with
  | String "." (String "/" r) => r
  | _ => p
  end.

Definition env0 : Env := mkEnv (mkDate 2024 6 7) true target shown.
Definition env1 : Env := mkEnv (mkDate 2024 11 30) false target shown.

Definition lunch : Expense := mkExpense 1 "2024-03-01" "Lunch" 1250 (Some "Food").
Definition bus : Expense := mkExpense 3 "2024-03-02" "Bus" 300 None.
Definition tea : Expense := mkExpense 4 "2024-06-07" "Tea" 450 (Some "food").
Definition rent : Expense := mkExpense 2 "2023-03-01" "Rent" 90000 (Some "Home").

Definition doc0 : Document := mkDocument 5 [lunch; bus; tea; rent] ∅.

Definition object0 : JsonObject :=
  mkJsonObject (Some 5) (Some [lunch; bus; tea; rent]) (Some ∅).

Definition world_of (content : option FileContent) : World :=
  mkWorld (Some (mkDir content None None)) [] [] [].

(** The data file holds [object0]. *)
Definition world0 : World := world_of (Some (JsonObj object0)).

(** The data file holds the JSON text [[]]. *)
Definition world_list : World := world_of (Some (JsonOther JList)).

(** The data file holds bytes that are not UTF-8. *)
Definition world_bytes : World := world_of (Some NotUtf8).

Definition data_path : string := "/home/ann/.expense_tracker/data.json".

(** An export onto the data file, then an [add]. *)
Definition session1 : list (Env * Command) :=
  [ (env0, Export data_path None None);
    (env0, Add "Tea" 450 None None) ].

Definition session0 : list (Env * Command) :=
  [ (env0, Delete 4);
    (env0, Add "Tea" 450 None (Some "food"));
    (env1, Update 1 (Some "Dinner") (Some (-5)) None None);
    (env1, BudgetSet 3 100000);
    (env1, Delete 5);
    (env0, Add "Book" 1999 (Some "2024-6-1") None) ].

End Sample.

(** * Theorems *)

(** ** Digits and number formatting *)

Lemma in_digits (v : Z) : 0 <= v <= 9 -> In v digits.
Proof.
  intros Hv. unfold digits. simpl.
  assert (v = 0 \/ v = 1 \/ v = 2 \/ v = 3 \/ v = 4 \/ v = 5 \/ v = 6 \/ v = 7
          \/ v = 8 \/ v = 9) as Hc by lia.
  intuition auto.
Qed.

Lemma forall_digits (P : Z -> bool) :
  forallb P digits = true -> forall v, 0 <= v <= 9 -> P v = true.
Proof.
  intros Hall v Hv. rewrite forallb_forall in Hall. apply Hall, in_digits, Hv.
Qed.

Lemma isdigit_digit_char (v : Z) :
  0 <= v <= 9 -> Text.isdigit (digit_char v) = true /\ Text.digit_value (digit_char v) = v.
Proof.
  intros Hv.
  pose proof (forall_digits
    (fun v => Text.isdigit (digit_char v) && (Text.digit_value (digit_char v) =? v))
    eq_refl v Hv) as Hb.
  apply andb_true_iff in Hb as [H1 H2]. split; [exact H1 | lia].
Qed.

Lemma isdigit_inv (c : ascii) :
  Text.isdigit c = true ->
  c = digit_char (Text.digit_value c) /\ 0 <= Text.digit_value c <= 9.
Proof.
  destruct c as [[] [] [] [] [] [] [] []]; vm_compute; intros Hd;
    first [discriminate Hd | split; [reflexivity | split; discriminate]].
Qed.

Lemma format_4_digits (a b c d : Z) :
  0 <= a <= 9 -> 0 <= b <= 9 -> 0 <= c <= 9 -> 0 <= d <= 9 ->
  Text.format_0d 4 (10 * (10 * (10 * a + b) + c) + d) = four_chars a b c d.
Proof.
  intros Ha Hb Hc Hd.
  assert (forallb (fun a => forallb (fun b => forallb (fun c => forallb (fun d =>
            String.eqb (Text.format_0d 4 (10 * (10 * (10 * a + b) + c) + d))
                       (four_chars a b c d)) digits) digits) digits) digits = true)
    as Hall by (vm_compute; reflexivity).
  pose proof (forall_digits _ Hall a Ha) as H1. cbv beta in H1.
  pose proof (forall_digits _ H1 b Hb) as H2. cbv beta in H2.
  pose proof (forall_digits _ H2 c Hc) as H3. cbv beta in H3.
  pose proof (forall_digits _ H3 d Hd) as H4. cbv beta in H4.
  apply String.eqb_eq, H4.
Qed.

Lemma format_2_digits (a b : Z) :
  0 <= a <= 9 -> 0 <= b <= 9 -> Text.format_0d 2 (10 * a + b) = two_chars a b.
Proof.
  intros Ha Hb.
  assert (forallb (fun a => forallb (fun b =>
            String.eqb (Text.format_0d 2 (10 * a + b)) (two_chars a b)) digits) digits
          = true) as Hall by (vm_compute; reflexivity).
  pose proof (forall_digits _ Hall a Ha) as H1. cbv beta in H1.
  pose proof (forall_digits _ H1 b Hb) as H2. cbv beta in H2.
  apply String.eqb_eq, H2.
Qed.

Lemma str_int_digit (v : Z) :
  0 <= v <= 9 -> Text.str_int v = String (digit_char v) EmptyString.
Proof.
  intros Hv. apply String.eqb_eq.
  exact (forall_digits
    (fun v => String.eqb (Text.str_int v) (String (digit_char v) EmptyString))
    eq_refl v Hv).
Qed.

(** A number below ten thousand is its four decimal digits. *)
Lemma four_digits_of (y : Z) :
  0 <= y <= 9999 ->
  exists a b c d, 0 <= a <= 9 /\ 0 <= b <= 9 /\ 0 <= c <= 9 /\ 0 <= d <= 9
                  /\ y = 10 * (10 * (10 * a + b) + c) + d.
Proof.
  intros Hy.
  exists (y / 1000), (y / 100 mod 10), (y / 10 mod 10), (y mod 10).
  pose proof (Z.div_mod y 10 ltac:(lia)) as E1.
  pose proof (Z.div_mod (y / 10) 10 ltac:(lia)) as E2.
  pose proof (Z.div_mod (y / 10 / 10) 10 ltac:(lia)) as E3.
  pose proof (Z.mod_pos_bound y 10 ltac:(lia)).
  pose proof (Z.mod_pos_bound (y / 10) 10 ltac:(lia)).
  pose proof (Z.mod_pos_bound (y / 10 / 10) 10 ltac:(lia)).
  replace (y / 100) with (y / 10 / 10) by (rewrite Z.div_div by lia; reflexivity).
  replace (y / 1000) with (y / 10 / 10 / 10)
    by (rewrite !Z.div_div by lia; reflexivity).
  assert (0 <= y / 10 / 10 / 10 <= 9).
  { split.
    - apply Z.div_pos; [apply Z.div_pos; [apply Z.div_pos|]|]; lia.
    - rewrite !Z.div_div by lia. simpl.
      apply Z.lt_succ_r, Z.div_lt_upper_bound; lia. }
  repeat split; lia.
Qed.

Lemma two_digits_of (v : Z) :
  0 <= v <= 99 -> exists a b, 0 <= a <= 9 /\ 0 <= b <= 9 /\ v = 10 * a + b.
Proof.
  intros Hv. exists (v / 10), (v mod 10).
  pose proof (Z.div_mod v 10 ltac:(lia)).
  pose proof (Z.mod_pos_bound v 10 ltac:(lia)).
  assert (0 <= v / 10 <= 9).
  { split; [apply Z.div_pos; lia | apply Z.lt_succ_r, Z.div_lt_upper_bound; lia]. }
  lia.
Qed.

(** ** Appending strings *)

Lemma append_cons (x : ascii) (a b : string) : String x a ++ b = String x (a ++ b).
Proof. reflexivity. Qed.

Lemma append_empty_l (b : string) : EmptyString ++ b = b.
Proof. reflexivity. Qed.

Lemma append_String_assoc (a b c : string) : (a ++ b) ++ c = a ++ (b ++ c).
Proof.
  induction a as [|x a IH]; [reflexivity|].
  rewrite !append_cons, IH. reflexivity.
Qed.

Lemma append_empty_r (a : string) : a ++ EmptyString = a.
Proof.
  induction a as [|x a IH]; [reflexivity|].
  rewrite append_cons, IH. reflexivity.
Qed.

Lemma append_is_empty (a b : string) : a ++ b = EmptyString -> b = EmptyString.
Proof. destruct a as [|x a]; [intros H; exact H | discriminate]. Qed.

(** ** What [strptime] reads *)

Section StrptimeFacts.
Context `{PT : PyText}.

Lemma alternatives_ext {A : Type} (alts : list Strptime.piece)
      (k k' : Z -> string -> option A) (s : string) :
  (forall v r, k v r = k' v r) ->
  Strptime.alternatives alts k s = Strptime.alternatives alts k' s.
Proof.
  intros Hk. induction alts as [|p alts IH]; simpl; [reflexivity|].
  rewrite IH. destruct (p s) as [[v r]|]; [rewrite Hk|]; reflexivity.
Qed.

Lemma alternatives_map {A B : Type} (f : A -> B) (alts : list Strptime.piece)
      (k : Z -> string -> option A) (s : string) :
  Strptime.alternatives alts (fun v r => option_map f (k v r)) s
  = option_map f (Strptime.alternatives alts k s).
Proof.
  induction alts as [|p alts IH]; simpl; [reflexivity|].
  rewrite IH. destruct (p s) as [[v r]|]; [|reflexivity].
  destruct (k v r); reflexivity.
Qed.

Lemma alternatives_inv {A : Type} (alts : list Strptime.piece)
      (k : Z -> string -> option A) (s : string) (x : A) :
  Strptime.alternatives alts k s = Some x ->
  exists p v r, In p alts /\ p s = Some (v, r) /\ k v r = Some x.
Proof.
  induction alts as [|p alts IH]; simpl; [discriminate|].
  destruct (p s) as [[v r]|] eqn:Hp.
  - destruct (k v r) as [a|] eqn:Hk.
    + intros [= <-]. exists p, v, r. auto.
    + intros H. destruct (IH H) as (q & v' & r' & Hq & H1 & H2).
      exists q, v', r'. auto.
  - intros H. destruct (IH H) as (q & v' & r' & Hq & H1 & H2).
    exists q, v', r'. auto.
Qed.

(** An alternative that does not match is passed over; the first one that
    matches, and after which the rest matches, decides. *)
Lemma alternatives_skip {A : Type} (p : Strptime.piece) (alts : list Strptime.piece)
      (k : Z -> string -> option A) (s : string) :
  p s = None ->
  Strptime.alternatives (p :: alts) k s = Strptime.alternatives alts k s.
Proof. intros H. simpl. rewrite H. reflexivity. Qed.

Lemma alternatives_take {A : Type} (p : Strptime.piece) (alts : list Strptime.piece)
      (k : Z -> string -> option A) (s : string) (v : Z) (r : string) (x : A) :
  p s = Some (v, r) -> k v r = Some x ->
  Strptime.alternatives (p :: alts) k s = Some x.
Proof. intros H Hk. simpl. rewrite H, Hk. reflexivity. Qed.

Lemma re_match_split (s : string) :
  Strptime.re_match s =
  match Strptime.re_Y s with
  | Some (y, r1) =>
      match Strptime.dash r1 with
      | Some r2 => option_map (with_year y) (tail_match r2)
      | None => None
      end
  | None => None
  end.
Proof.
  unfold Strptime.re_match, tail_match.
  destruct (Strptime.re_Y s) as [[y r1]|]; [|reflexivity].
  destruct (Strptime.dash r1) as [r2|]; [|reflexivity].
  rewrite <- (alternatives_map (with_year y)). apply alternatives_ext. intros m r3.
  destruct (Strptime.dash r3) as [r4|]; [|reflexivity].
  rewrite <- (alternatives_map (with_year y)). apply alternatives_ext. reflexivity.
Qed.

Lemma digit_in_inv (lo hi : Z) (s : string) (v : Z) (r : string) :
  Strptime.digit_in lo hi s = Some (v, r) ->
  s = String (digit_char v) r /\ lo <= v <= hi /\ 0 <= v <= 9.
Proof.
  unfold Strptime.digit_in. destruct s as [|c s']; [discriminate|].
  destruct (Text.isdigit c) eqn:Hd; simpl; [|discriminate].
  destruct (lo <=? Text.digit_value c) eqn:Hlo; simpl; [|discriminate].
  destruct (Text.digit_value c <=? hi) eqn:Hhi; [|discriminate].
  intros [= <- <-]. destruct (isdigit_inv c Hd) as [Hc Hr].
  rewrite <- Hc. repeat split; lia.
Qed.

Lemma digit_in_ok (lo hi v : Z) (r : string) :
  0 <= v <= 9 -> lo <= v <= hi ->
  Strptime.digit_in lo hi (String (digit_char v) r) = Some (v, r).
Proof.
  intros Hv Hr. unfold Strptime.digit_in.
  destruct (isdigit_digit_char v Hv) as [-> ->].
  replace (lo <=? v) with true by lia. replace (v <=? hi) with true by lia.
  reflexivity.
Qed.

Lemma digit_in_out (lo hi v : Z) (r : string) :
  0 <= v <= 9 -> ~ lo <= v <= hi ->
  Strptime.digit_in lo hi (String (digit_char v) r) = None.
Proof.
  intros Hv Hr. unfold Strptime.digit_in.
  destruct (isdigit_digit_char v Hv) as [-> ->]. simpl.
  destruct (lo <=? v) eqn:Hlo; [|reflexivity].
  destruct (v <=? hi) eqn:Hhi; [|reflexivity]. lia.
Qed.

Lemma digit_in_end (lo hi : Z) : Strptime.digit_in lo hi EmptyString = None.
Proof. reflexivity. Qed.

Lemma digit_in_blank (lo hi : Z) (r : string) :
  Strptime.digit_in lo hi (String " " r) = None.
Proof. reflexivity. Qed.

Lemma digit_in_dash (lo hi : Z) (r : string) :
  Strptime.digit_in lo hi (String "-" r) = None.
Proof. reflexivity. Qed.

Lemma then_inv (p q : Strptime.piece) (s : string) (v : Z) (r : string) :
  Strptime.then_ p q s = Some (v, r) ->
  exists a b r1, p s = Some (a, r1) /\ q r1 = Some (b, r) /\ v = 10 * a + b.
Proof.
  unfold Strptime.then_. destruct (p s) as [[a r1]|] eqn:Hp; [|discriminate].
  destruct (q r1) as [[b r2]|] eqn:Hq; [|discriminate].
  intros [= <- <-]. exists a, b, r1. auto.
Qed.

Lemma then_ok (p q : Strptime.piece) (s r1 r : string) (a b : Z) :
  p s = Some (a, r1) -> q r1 = Some (b, r) -> Strptime.then_ p q s = Some (10 * a + b, r).
Proof. intros Hp Hq. unfold Strptime.then_. rewrite Hp, Hq. reflexivity. Qed.

Lemma then_none_l (p q : Strptime.piece) (s : string) :
  p s = None -> Strptime.then_ p q s = None.
Proof. intros Hp. unfold Strptime.then_. rewrite Hp. reflexivity. Qed.

Lemma then_none_r (p q : Strptime.piece) (s r1 : string) (a : Z) :
  p s = Some (a, r1) -> q r1 = None -> Strptime.then_ p q s = None.
Proof. intros Hp Hq. unfold Strptime.then_. rewrite Hp, Hq. reflexivity. Qed.

Lemma two_digits_inv (l1 h1 l2 h2 : Z) (s : string) (v : Z) (r : string) :
  Strptime.then_ (Strptime.digit_in l1 h1) (Strptime.digit_in l2 h2) s = Some (v, r) ->
  exists a b, s = two_chars a b ++ r /\ v = 10 * a + b
              /\ l1 <= a <= h1 /\ l2 <= b <= h2 /\ 0 <= a <= 9 /\ 0 <= b <= 9.
Proof.
  intros H. apply then_inv in H as (a & b & r1 & Ha & Hb & ->).
  apply digit_in_inv in Ha as (-> & ? & ?). apply digit_in_inv in Hb as (-> & ? & ?).
  exists a, b. simpl. repeat split; solve [reflexivity | lia].
Qed.

Lemma two_digits_ok (l1 h1 l2 h2 a b : Z) (r : string) :
  0 <= a <= 9 -> 0 <= b <= 9 -> l1 <= a <= h1 -> l2 <= b <= h2 ->
  Strptime.then_ (Strptime.digit_in l1 h1) (Strptime.digit_in l2 h2) (two_chars a b ++ r)
  = Some (10 * a + b, r).
Proof.
  intros Ha Hb Ha' Hb'.
  apply (then_ok _ _ _ (String (digit_char b) r)); apply digit_in_ok; assumption.
Qed.

Lemma dash_inv (s r : string) : Strptime.dash s = Some r -> s = String "-" r.
Proof.
  unfold Strptime.dash. destruct s as [|c s']; [discriminate|].
  destruct (Ascii.eqb c "-") eqn:Hc; [|discriminate].
  apply Ascii.eqb_eq in Hc as ->. intros [= ->]. reflexivity.
Qed.

(** *** Decimal digits *)

(** A digit is read from a text whatever follows it. *)
Lemma digit_text_reads (v : Z) (p r : string) :
  digit_text v p -> str_digit (p ++ r) = Some (v, r).
Proof.
  intros H. destruct (str_digit_rest _ _ _ H) as (p' & E & Hp').
  rewrite append_empty_r in E. subst p'. apply Hp'.
Qed.

Lemma str_digit_inv (s : string) (v : Z) (r : string) :
  str_digit s = Some (v, r) -> exists p, digit_text v p /\ s = p ++ r /\ 0 <= v <= 9.
Proof.
  intros H. destruct (str_digit_rest _ _ _ H) as (p & E & Hp).
  exists p. split; [|split; [exact E | exact (str_digit_value _ _ _ H)]].
  unfold digit_text. rewrite <- (append_empty_r p). apply Hp.
Qed.

Lemma digit_text_value (v : Z) (p : string) : digit_text v p -> 0 <= v <= 9.
Proof. intros H. exact (str_digit_value _ _ _ H). Qed.

Lemma digit_char_code (v : Z) : 0 <= v <= 9 -> Text.code (digit_char v) < 128.
Proof.
  intros Hv.
  pose proof (forall_digits (fun v => Text.code (digit_char v) <? 128) eq_refl v Hv) as Hb.
  cbv beta in Hb. apply Z.ltb_lt, Hb.
Qed.

(** The ASCII digits are decimal digits. *)
Lemma ascii_digit_text (v : Z) :
  0 <= v <= 9 -> digit_text v (String (digit_char v) EmptyString).
Proof.
  intros Hv. unfold digit_text.
  rewrite str_digit_ascii by (apply digit_char_code, Hv). simpl.
  destruct (isdigit_digit_char v Hv) as [-> ->]. reflexivity.
Qed.

(** A decimal digit written in ASCII is one of the ASCII digits. *)
Lemma digit_text_ascii (v : Z) (p : string) :
  digit_text v p -> Text.is_ascii p = true -> p = String (digit_char v) EmptyString.
Proof.
  unfold digit_text. intros H Ha. destruct p as [|c r].
  - rewrite str_digit_empty in H. discriminate.
  - simpl in Ha. apply andb_true_iff in Ha as [Hc _].
    rewrite str_digit_ascii in H by lia. simpl in H.
    destruct (Text.isdigit c) eqn:Hd; [|discriminate].
    injection H as <- ->. rewrite <- (proj1 (isdigit_inv c Hd)). reflexivity.
Qed.

(** *** The year *)

Lemma re_Y_inv (s : string) (y : Z) (r : string) :
  Strptime.re_Y s = Some (y, r) ->
  0 <= y <= 9999 /\ exists ty, year_text y ty /\ s = ty ++ r.
Proof.
  unfold Strptime.re_Y, Strptime.any_digit. intros H.
  apply then_inv in H as (abc & d & r3 & H & Hd & ->).
  apply then_inv in H as (ab & c & r2 & H & Hc & ->).
  apply then_inv in H as (a & b & r1 & Ha & Hb & ->).
  apply str_digit_inv in Ha as (pa & Ha & -> & ?).
  apply str_digit_inv in Hb as (pb & Hb & -> & ?).
  apply str_digit_inv in Hc as (pc & Hc & -> & ?).
  apply str_digit_inv in Hd as (pd & Hd & -> & ?).
  split; [lia|]. exists (pa ++ pb ++ pc ++ pd). split.
  - exists a, b, c, d, pa, pb, pc, pd. auto 10.
  - rewrite !append_String_assoc. reflexivity.
Qed.

Lemma re_Y_ok (y : Z) (ty r : string) :
  year_text y ty -> Strptime.re_Y (ty ++ r) = Some (y, r).
Proof.
  intros (a & b & c & d & pa & pb & pc & pd & Ha & Hb & Hc & Hd & -> & ->).
  rewrite !append_String_assoc.
  unfold Strptime.re_Y, Strptime.any_digit.
  apply (then_ok _ _ _ (pd ++ r)); [|apply digit_text_reads, Hd].
  apply (then_ok _ _ _ (pc ++ pd ++ r)); [|apply digit_text_reads, Hc].
  apply (then_ok _ _ _ (pb ++ pc ++ pd ++ r)); apply digit_text_reads; assumption.
Qed.

(** A year written with four ASCII digits is a year text. *)
Lemma format_year_text (y : Z) : 0 <= y <= 9999 -> year_text y (Text.format_0d 4 y).
Proof.
  intros Hy. destruct (four_digits_of y Hy) as (a & b & c & d & Ha & Hb & Hc & Hd & ->).
  rewrite format_4_digits by assumption.
  exists a, b, c, d, (String (digit_char a) EmptyString), (String (digit_char b) EmptyString),
    (String (digit_char c) EmptyString), (String (digit_char d) EmptyString).
  repeat (split; [apply ascii_digit_text; assumption|]).
  split; reflexivity.
Qed.

Lemma year_text_bounds (y : Z) (ty : string) : year_text y ty -> 0 <= y <= 9999.
Proof.
  intros (a & b & c & d & pa & pb & pc & pd & Ha & Hb & Hc & Hd & _ & ->).
  apply digit_text_value in Ha, Hb, Hc, Hd. lia.
Qed.

Lemma is_ascii_app (a b : string) :
  Text.is_ascii (a ++ b) = Text.is_ascii a && Text.is_ascii b.
Proof.
  induction a as [|x a IH]; [reflexivity|].
  rewrite append_cons. simpl. rewrite IH, andb_assoc. reflexivity.
Qed.

(** A year text in ASCII is the year written with four digits. *)
Lemma year_text_ascii (y : Z) (ty : string) :
  year_text y ty -> Text.is_ascii ty = true -> ty = Text.format_0d 4 y.
Proof.
  intros (a & b & c & d & pa & pb & pc & pd & Ha & Hb & Hc & Hd & -> & ->) Hascii.
  rewrite !is_ascii_app in Hascii.
  apply andb_true_iff in Hascii as [Ha' Hascii].
  apply andb_true_iff in Hascii as [Hb' Hascii].
  apply andb_true_iff in Hascii as [Hc' Hd'].
  rewrite (digit_text_ascii _ _ Ha Ha'), (digit_text_ascii _ _ Hb Hb'),
    (digit_text_ascii _ _ Hc Hc'), (digit_text_ascii _ _ Hd Hd').
  apply digit_text_value in Ha, Hb, Hc, Hd.
  rewrite format_4_digits by assumption. reflexivity.
Qed.

(** *** The month *)

Lemma re_m_inv (p : Strptime.piece) (s : string) (v : Z) (r : string) :
  In p Strptime.re_m -> p s = Some (v, r) ->
  1 <= v <= 12 /\ exists ms, In ms (month_spellings v) /\ s = ms ++ r.
Proof.
  unfold Strptime.re_m, month_spellings. simpl.
  intros [<- | [<- | [<- | []]]] H.
  - apply two_digits_inv in H as (a & b & -> & -> & ? & ? & ? & ?).
    split; [lia|]. exists (two_chars a b). rewrite format_2_digits by lia. simpl. auto.
  - apply two_digits_inv in H as (a & b & -> & -> & ? & ? & ? & ?).
    split; [lia|]. exists (two_chars a b). rewrite format_2_digits by lia. simpl. auto.
  - apply digit_in_inv in H as (-> & ? & ?). split; [lia|].
    exists (String (digit_char v) EmptyString).
    replace (v <? 10) with true by lia. rewrite str_int_digit by lia. simpl. auto.
Qed.

(** Every spelling of a month is read as that month when a dash follows. *)
Lemma re_m_ok {A : Type} (k : Z -> string -> option A) (m : Z) (ms t : string) (x : A) :
  1 <= m <= 12 -> In ms (month_spellings m) ->
  k m (String "-" t) = Some x ->
  Strptime.alternatives Strptime.re_m k (ms ++ String "-" t) = Some x.
Proof.
  intros Hm Hms Hk. unfold month_spellings in Hms.
  destruct (two_digits_of m ltac:(lia)) as (a & b & Ha & Hb & ->).
  rewrite format_2_digits in Hms by assumption.
  unfold Strptime.re_m.
  destruct Hms as [<- | Hms].
  - (* two digits *)
    assert (a = 0 \/ a = 1) as [-> | ->] by lia.
    + rewrite alternatives_skip
        by (apply then_none_l, digit_in_out; lia).
      apply (alternatives_take _ _ _ _ (10 * 0 + b) (String "-" t)); [|exact Hk].
      apply two_digits_ok; lia.
    + apply (alternatives_take _ _ _ _ (10 * 1 + b) (String "-" t)); [|exact Hk].
      apply two_digits_ok; lia.
  - (* one digit *)
    destruct (10 * a + b <? 10) eqn:Hlt; [|destruct Hms].
    destruct Hms as [<- | []]. rewrite str_int_digit by lia.
    rewrite append_cons, append_empty_l.
    assert (Strptime.then_ (Strptime.digit_in 1 1) (Strptime.digit_in 0 2)
              (String (digit_char (10 * a + b)) (String "-" t)) = None) as H1.
    { destruct (Z.eq_dec (10 * a + b) 1) as [E | Hne].
      - apply (then_none_r _ _ _ (String "-" t) (10 * a + b)); [apply digit_in_ok; lia|].
        apply digit_in_dash.
      - apply then_none_l, digit_in_out; lia. }
    rewrite alternatives_skip by exact H1.
    rewrite alternatives_skip by (apply then_none_l, digit_in_out; lia).
    apply (alternatives_take _ _ _ _ (10 * a + b) (String "-" t)); [|exact Hk].
    apply digit_in_ok; lia.
Qed.

(** *** The day *)

Lemma re_d_inv (p : Strptime.piece) (s : string) (v : Z) (r : string) :
  In p Strptime.re_d -> p s = Some (v, r) ->
  1 <= v <= 31 /\ exists td, day_text v td /\ s = td ++ r.
Proof.
  unfold Strptime.re_d, day_text, day_spellings, Strptime.any_digit. simpl.
  intros [<- | [<- | [<- | [<- | [<- | []]]]]] H.
  - apply two_digits_inv in H as (a & b & -> & -> & ? & ? & ? & ?).
    split; [lia|]. exists (two_chars a b). rewrite format_2_digits by lia.
    split; [left; left; reflexivity | reflexivity].
  - apply then_inv in H as (a & b & r1 & Ha & Hb & ->).
    apply digit_in_inv in Ha as (-> & ? & ?).
    apply str_digit_inv in Hb as (pb & Hb & -> & ?).
    split; [lia|]. exists (String (digit_char a) pb). split; [|reflexivity].
    right. exists a, b, pb. auto.
  - apply two_digits_inv in H as (a & b & -> & -> & ? & ? & ? & ?).
    split; [lia|]. exists (two_chars a b). rewrite format_2_digits by lia.
    split; [left; left; reflexivity | reflexivity].
  - apply digit_in_inv in H as (-> & ? & ?). split; [lia|].
    exists (String (digit_char v) EmptyString).
    replace (v <? 10) with true by lia. rewrite str_int_digit by lia.
    split; [left; right; left; reflexivity | reflexivity].
  - unfold Strptime.blank_then in H. destruct s as [|c s']; [discriminate|].
    destruct (Ascii.eqb c " ") eqn:Hc; [|discriminate].
    apply Ascii.eqb_eq in Hc as ->.
    apply digit_in_inv in H as (-> & ? & ?). split; [lia|].
    exists (String " " (String (digit_char v) EmptyString)).
    replace (v <? 10) with true by lia. rewrite str_int_digit by lia.
    split; [left; right; right; left; reflexivity | reflexivity].
Qed.

(** Days 10 to 29: the digit 1 or 2, then a decimal digit. *)
Lemma re_d_tens {A : Type} (k : Z -> string -> option A) (a b : Z) (pb : string) (x : A) :
  1 <= a <= 2 -> digit_text b pb -> k (10 * a + b) EmptyString = Some x ->
  Strptime.alternatives Strptime.re_d k (String (digit_char a) pb) = Some x.
Proof.
  intros Ha Hb Hk. unfold Strptime.re_d.
  rewrite alternatives_skip by (apply then_none_l, digit_in_out; lia).
  apply (alternatives_take _ _ _ _ (10 * a + b) EmptyString); [|exact Hk].
  apply (then_ok _ _ _ pb); [apply digit_in_ok; lia|].
  unfold Strptime.any_digit. rewrite <- (append_empty_r pb). apply digit_text_reads, Hb.
Qed.

(** Every spelling of a day is read as that day at the end of the text. *)
Lemma re_d_ok {A : Type} (k : Z -> string -> option A) (d : Z) (td : string) (x : A) :
  1 <= d <= 31 -> day_text d td -> k d EmptyString = Some x ->
  Strptime.alternatives Strptime.re_d k td = Some x.
Proof.
  intros Hd [Hds | (a & b & pb & Ha & Hb & -> & ->)] Hk;
    [|apply (re_d_tens k a b pb x); assumption].
  unfold day_spellings in Hds.
  destruct (two_digits_of d ltac:(lia)) as (a & b & Ha & Hb & ->).
  rewrite format_2_digits in Hds by assumption.
  destruct Hds as [<- | Hds].
  - (* two digits *)
    assert (a = 0 \/ 1 <= a <= 2 \/ a = 3) as [-> | [Ha' | ->]] by lia.
    + unfold Strptime.re_d.
      rewrite alternatives_skip by (apply then_none_l, digit_in_out; lia).
      rewrite alternatives_skip by (apply then_none_l, digit_in_out; lia).
      apply (alternatives_take _ _ _ _ (10 * 0 + b) EmptyString); [|exact Hk].
      rewrite <- (append_empty_r (two_chars 0 b)). apply two_digits_ok; lia.
    + apply (re_d_tens k a b _ x); [exact Ha' | apply ascii_digit_text, Hb | exact Hk].
    + unfold Strptime.re_d.
      apply (alternatives_take _ _ _ _ (10 * 3 + b) EmptyString); [|exact Hk].
      rewrite <- (append_empty_r (two_chars 3 b)). apply two_digits_ok; lia.
  - (* one digit, with or without a blank before it *)
    destruct (10 * a + b <? 10) eqn:Hlt; [|destruct Hds].
    rewrite str_int_digit in Hds by lia.
    assert (forall q : Strptime.piece, q EmptyString = None ->
              forall lo hi, Strptime.then_ (Strptime.digit_in lo hi) q
                              (String (digit_char (10 * a + b)) EmptyString) = None) as Hend.
    { intros q Hq lo hi.
      destruct (Strptime.digit_in lo hi (String (digit_char (10 * a + b)) EmptyString))
        as [[v r]|] eqn:Hp; [|apply then_none_l, Hp].
      pose proof Hp as Hp'. apply digit_in_inv in Hp' as (Hs & _ & _).
      injection Hs as _ <-. apply (then_none_r _ _ _ EmptyString v); assumption. }
    unfold Strptime.re_d.
    destruct Hds as [<- | [<- | []]].
    + rewrite alternatives_skip by (apply Hend, digit_in_end).
      rewrite alternatives_skip by (apply Hend, str_digit_empty).
      rewrite alternatives_skip by (apply Hend, digit_in_end).
      apply (alternatives_take _ _ _ _ (10 * a + b) EmptyString); [|exact Hk].
      apply digit_in_ok; lia.
    + rewrite alternatives_skip by (apply then_none_l, digit_in_blank).
      rewrite alternatives_skip by (apply then_none_l, digit_in_blank).
      rewrite alternatives_skip by (apply then_none_l, digit_in_blank).
      rewrite alternatives_skip by apply digit_in_blank.
      apply (alternatives_take _ _ _ _ (10 * a + b) EmptyString); [|exact Hk].
      simpl. apply digit_in_ok; lia.
Qed.

(** A day text in ASCII is one of the listed spellings. *)
Lemma day_text_ascii (d : Z) (td : string) :
  day_text d td -> Text.is_ascii td = true -> In td (day_spellings d).
Proof.
  intros [H | (a & b & pb & Ha & Hb & -> & ->)] Hascii; [exact H|].
  simpl in Hascii. apply andb_true_iff in Hascii as [_ Hpb].
  rewrite (digit_text_ascii _ _ Hb Hpb). apply digit_text_value in Hb.
  unfold day_spellings. left. rewrite format_2_digits by lia. reflexivity.
Qed.

(** *** The whole date *)

Lemma tail_match_ok (m d : Z) (tm td : string) :
  1 <= m <= 12 -> 1 <= d <= 31 ->
  In tm (month_spellings m) -> day_text d td ->
  tail_match (tm ++ "-" ++ td) = Some (m, d, EmptyString).
Proof.
  intros Hm Hd Htm Htd. unfold tail_match.
  change (tm ++ "-" ++ td) with (tm ++ String "-" td).
  apply (re_m_ok _ m); [exact Hm | exact Htm|].
  change (Strptime.dash (String "-" td)) with (Some td). cbv beta iota.
  apply (re_d_ok _ d); [exact Hd | exact Htd | reflexivity].
Qed.

Lemma valid_date_bounds (dt : Date) :
  valid_date dt = true ->
  1 <= year dt <= 9999 /\ 1 <= month dt <= 12 /\ 1 <= day dt <= 31.
Proof.
  unfold valid_date, days_in_month. intros H.
  repeat (apply andb_true_iff in H as [H ?]).
  repeat match goal with
         | Hc : context [if ?b then _ else _] |- _ => destruct b
         end; lia.
Qed.

Lemma in_spellings (dt : Date) (s : string) :
  In s (spellings dt) <->
  exists ms ds, In ms (month_spellings (month dt)) /\ In ds (day_spellings (day dt))
                /\ s = Text.format_0d 4 (year dt) ++ "-" ++ ms ++ "-" ++ ds.
Proof.
  unfold spellings. rewrite in_flat_map. split.
  - intros (ms & Hms & H). apply in_map_iff in H as (ds & <- & Hds). eauto.
  - intros (ms & ds & Hms & Hds & ->). exists ms. split; [exact Hms|].
    apply in_map_iff. eauto.
Qed.

(** The spellings in ASCII digits are among the texts read as the date. *)
Lemma spellings_spell (dt : Date) (s : string) :
  0 <= year dt <= 9999 -> In s (spellings dt) -> spells dt s.
Proof.
  intros Hy Hs. apply in_spellings in Hs as (ms & ds & Hms & Hds & ->).
  exists (Text.format_0d 4 (year dt)), ms, ds.
  split; [apply format_year_text, Hy|]. split; [exact Hms|].
  split; [left; exact Hds | reflexivity].
Qed.

Lemma is_ascii_cons (c : ascii) (r : string) :
  Text.is_ascii (String c r) = (Text.code c <? 128) && Text.is_ascii r.
Proof. reflexivity. Qed.

Lemma is_ascii_digit (v : Z) (r : string) :
  0 <= v <= 9 -> Text.is_ascii (String (digit_char v) r) = Text.is_ascii r.
Proof.
  intros Hv. pose proof (digit_char_code v Hv). simpl.
  replace (Text.code (digit_char v) <? 128) with true by lia. reflexivity.
Qed.

Lemma format_year_ascii (y : Z) :
  0 <= y <= 9999 -> Text.is_ascii (Text.format_0d 4 y) = true.
Proof.
  intros Hy. destruct (four_digits_of y Hy) as (a & b & c & d & ? & ? & ? & ? & ->).
  rewrite format_4_digits by assumption. unfold four_chars.
  rewrite !is_ascii_digit by assumption. reflexivity.
Qed.

Lemma month_spellings_ascii (m : Z) (ms : string) :
  1 <= m <= 12 -> In ms (month_spellings m) -> Text.is_ascii ms = true.
Proof.
  intros Hm Hms. unfold month_spellings in Hms.
  destruct (two_digits_of m ltac:(lia)) as (a & b & Ha & Hb & E).
  rewrite E, format_2_digits in Hms by assumption.
  destruct Hms as [<- | Hms].
  - unfold two_chars. rewrite !is_ascii_digit by assumption. reflexivity.
  - destruct (10 * a + b <? 10) eqn:Hlt; [|destruct Hms].
    destruct Hms as [<- | []]. rewrite str_int_digit by lia.
    rewrite is_ascii_digit by lia. reflexivity.
Qed.

Lemma day_spellings_ascii (d : Z) (ds : string) :
  1 <= d <= 31 -> In ds (day_spellings d) -> Text.is_ascii ds = true.
Proof.
  intros Hd Hds. unfold day_spellings in Hds.
  destruct (two_digits_of d ltac:(lia)) as (a & b & Ha & Hb & E).
  rewrite E, format_2_digits in Hds by assumption.
  destruct Hds as [<- | Hds].
  - unfold two_chars. rewrite !is_ascii_digit by assumption. reflexivity.
  - destruct (10 * a + b <? 10) eqn:Hlt; [|destruct Hds].
    rewrite str_int_digit in Hds by lia.
    destruct Hds as [<- | [<- | []]].
    + rewrite is_ascii_digit by lia. reflexivity.
    + rewrite is_ascii_cons, is_ascii_digit by lia. reflexivity.
Qed.

(** Among the ASCII texts, the ones read as a date are its listed
    spellings. *)
Lemma spells_ascii (dt : Date) (s : string) :
  1 <= month dt <= 12 -> spells dt s -> Text.is_ascii s = true -> In s (spellings dt).
Proof.
  intros Hm (ty & tm & td & Hy & Htm & Htd & ->) Hascii.
  rewrite !is_ascii_app in Hascii.
  apply andb_true_iff in Hascii as [Hty Hascii].
  apply andb_true_iff in Hascii as [_ Hascii].
  apply andb_true_iff in Hascii as [_ Hascii].
  apply andb_true_iff in Hascii as [_ Htd'].
  apply in_spellings. exists tm, td. split; [exact Htm|].
  split; [apply day_text_ascii; assumption|].
  rewrite (year_text_ascii _ _ Hy Hty). reflexivity.
Qed.

(** Every text that spells a real date is read as that date. *)
Lemma strptime_complete (dt : Date) (s : string) :
  valid_date dt = true -> spells dt s -> Strptime.strptime s = Some dt.
Proof.
  intros Hv (ty & tm & td & Hy & Htm & Htd & ->).
  destruct (valid_date_bounds dt Hv) as (_ & Hm & Hd).
  unfold Strptime.strptime. rewrite re_match_split, (re_Y_ok _ _ _ Hy).
  change (Strptime.dash ("-" ++ tm ++ "-" ++ td)) with (Some (tm ++ "-" ++ td)).
  cbv beta iota.
  rewrite (tail_match_ok (month dt) (day dt)) by assumption.
  destruct dt as [y m d]. cbn [option_map with_year fst snd year month day] in *.
  rewrite Hv. reflexivity.
Qed.

(** Whatever is read is a real date, and the text spells it. *)
Lemma strptime_sound (dt : Date) (s : string) :
  Strptime.strptime s = Some dt -> valid_date dt = true /\ spells dt s.
Proof.
  unfold Strptime.strptime. rewrite re_match_split.
  destruct (Strptime.re_Y s) as [[y r1]|] eqn:HY; [|discriminate].
  destruct (Strptime.dash r1) as [r2|] eqn:Hdash; [|discriminate].
  destruct (tail_match r2) as [[[m d] rest]|] eqn:Ht; [|discriminate].
  simpl. destruct rest as [|c rest]; [|discriminate].
  destruct (valid_date (mkDate y m d)) eqn:Hv; [|discriminate].
  intros [= <-]. split; [exact Hv|].
  apply re_Y_inv in HY as (_ & ty & Hty & ->). apply dash_inv in Hdash as ->.
  unfold tail_match in Ht.
  apply alternatives_inv in Ht as (p & m' & r3 & Hp & Hpm & Hk).
  destruct (Strptime.dash r3) as [r4|] eqn:Hdash2; [|discriminate].
  apply alternatives_inv in Hk as (q & d' & r5 & Hq & Hqd & Hk).
  injection Hk as -> -> ->.
  apply dash_inv in Hdash2 as ->.
  apply re_m_inv in Hpm as (_ & ms & Hms & ->); [|exact Hp].
  apply re_d_inv in Hqd as (_ & td & Htd & ->); [|exact Hq].
  exists ty, ms, td. cbn [year month day].
  rewrite append_empty_r. auto.
Qed.

Lemma isoformat_in_spellings (dt : Date) : In (isoformat dt) (spellings dt).
Proof.
  apply in_spellings.
  exists (Text.format_0d 2 (month dt)), (Text.format_0d 2 (day dt)).
  unfold month_spellings, day_spellings, isoformat. simpl. auto.
Qed.

Lemma spells_not_empty (dt : Date) (s : string) : spells dt s -> s <> EmptyString.
Proof.
  intros (ty & tm & td & _ & _ & _ & ->) E.
  apply append_is_empty in E. discriminate E.
Qed.

(** A valid date in ISO form has the exact shape [YYYY-MM-DD]. *)
Lemma isoformat_iso_shape (dt : Date) :
  valid_date dt = true -> iso_shape (isoformat dt) = true.
Proof.
  intros Hv. destruct (valid_date_bounds dt Hv) as (Hy & Hm & Hd).
  destruct (four_digits_of (year dt) ltac:(lia)) as (a & b & c & d & ? & ? & ? & ? & E).
  destruct (two_digits_of (month dt) ltac:(lia)) as (m1 & m2 & ? & ? & Em).
  destruct (two_digits_of (day dt) ltac:(lia)) as (d1 & d2 & ? & ? & Ed).
  unfold isoformat. rewrite E, Em, Ed, format_4_digits, !format_2_digits by assumption.
  unfold four_chars, two_chars, iso_shape.
  rewrite !append_cons, !append_empty_l.
  repeat match goal with
         | |- context [Text.isdigit (digit_char ?v)] =>
             rewrite (proj1 (isdigit_digit_char v ltac:(assumption)))
         end.
  reflexivity.
Qed.

(** [parse_date] on a text that spells a real date. *)
Lemma parse_date_spelled (today dt : Date) (s : string) :
  valid_date dt = true -> spells dt s -> parse_date today (Some s) = Ok (isoformat dt).
Proof.
  intros Hv Hs. pose proof (spells_not_empty dt s Hs) as Hne.
  unfold parse_date. destruct s as [|c s]; [congruence|].
  rewrite (strptime_complete dt _ Hv Hs). reflexivity.
Qed.

(** ** C6: [parse_date] *)

(** C6, as the program behaves.  An absent or empty input gives today's date
    in ISO form.  Every valid date in ISO form is returned as it is.  More
    generally every text that spells a valid date is accepted and returned in
    ISO form: the year in four decimal digits, the month and the day with or
    without their leading zero, a one-digit day also after a blank; the
    digits of the year and the second digit of a day from 10 to 29 may be
    decimal digits of any script, the others are ASCII digits.  Every other
    non-empty text is refused with the invalid-date error, and whatever is
    returned is the ISO form of a valid date that the input spells.  Among
    ASCII texts, the ones that spell a date are its listed spellings. *)
Theorem parse_date_reads_spellings (today : Date) :
  parse_date today None = Ok (isoformat today)
  /\ parse_date today (Some EmptyString) = Ok (isoformat today)
  /\ (forall dt, valid_date dt = true ->
        parse_date today (Some (isoformat dt)) = Ok (isoformat dt))
  /\ (forall dt s, valid_date dt = true -> spells dt s ->
        parse_date today (Some s) = Ok (isoformat dt))
  /\ (forall s, s <> EmptyString ->
        (forall dt, valid_date dt = true -> ~ spells dt s) ->
        parse_date today (Some s) = Raise invalid_date_error)
  /\ (forall s r, s <> EmptyString -> parse_date today (Some s) = Ok r ->
        exists dt, valid_date dt = true /\ spells dt s /\ r = isoformat dt)
  /\ (forall dt s, valid_date dt = true ->
        (In s (spellings dt) <-> spells dt s /\ Text.is_ascii s = true)).
Proof.
  split; [reflexivity|]. split; [reflexivity|].
  split.
  { intros dt Hv. apply parse_date_spelled; [exact Hv|].
    destruct (valid_date_bounds dt Hv) as (Hy & _ & _).
    apply spellings_spell; [lia | apply isoformat_in_spellings]. }
  split; [intros dt s; apply parse_date_spelled|]. split; [|split].
  - intros s Hne Hnone. unfold parse_date. destruct s as [|c s]; [congruence|].
    destruct (Strptime.strptime (String c s)) as [dt|] eqn:Hp; [|reflexivity].
    apply strptime_sound in Hp as [Hv Hs]. destruct (Hnone dt Hv Hs).
  - intros s r Hne. unfold parse_date. destruct s as [|c s]; [congruence|].
    destruct (Strptime.strptime (String c s)) as [dt|] eqn:Hp; [|discriminate].
    intros [= <-]. apply strptime_sound in Hp as [Hv Hs]. eauto.
  - intros dt s Hv. destruct (valid_date_bounds dt Hv) as (Hy & Hm & Hd). split.
    + intros Hs. split; [apply spellings_spell; [lia | exact Hs]|].
      apply in_spellings in Hs as (ms & ds & Hms & Hds & ->).
      rewrite !is_ascii_app.
      rewrite (format_year_ascii (year dt)) by lia.
      rewrite (month_spellings_ascii _ _ Hm Hms).
      rewrite (day_spellings_ascii _ _ Hd Hds). reflexivity.
    + intros [Hs Ha]. apply spells_ascii; assumption.
Qed.

End StrptimeFacts.

Lemma parse_date_reads_spellings_witness :
  @parse_date AsciiText.ascii_text (mkDate 2025 6 7) (Some "2024-02-29") = Ok "2024-02-29"
  /\ @parse_date AsciiText.ascii_text (mkDate 2025 6 7) (Some "2024-2-9") = Ok "2024-02-09".
Proof.
  destruct (@parse_date_reads_spellings AsciiText.ascii_text (mkDate 2025 6 7))
    as (_ & _ & Hiso & Hsp & _).
  split.
  - exact (Hiso (mkDate 2024 2 29) eq_refl).
  - apply (Hsp (mkDate 2024 2 9) "2024-2-9" eq_refl).
    apply spellings_spell; [simpl; lia|]. vm_compute.
    do 4 right. left. reflexivity.
Defined.

(** C6, as stated, fails: a text that is not of the shape [YYYY-MM-DD] is
    accepted, and returned in another form than it was given, whatever the
    digits beyond ASCII are. *)
Lemma parse_date_accepts_short_month :
  iso_shape "2024-3-1" = false
  /\ forall PT : PyText,
       @parse_date PT (mkDate 2025 6 7) (Some "2024-3-1") = Ok "2024-03-01".
Proof.
  split; [reflexivity|]. intros PT.
  apply (parse_date_spelled (mkDate 2025 6 7) (mkDate 2024 3 1)); [reflexivity|].
  apply spellings_spell; [simpl; lia|]. vm_compute.
  do 4 right. left. reflexivity.
Qed.

(** ** [sorted] sorts *)

Section SortedFacts.
Context {A : Type} (lt : A -> A -> bool) (le : A -> A -> Prop).
Hypothesis le_trans : forall a b c, le a b -> le b c -> le a c.
Hypothesis lt_le : forall a b, lt a b = true -> le a b.
Hypothesis not_lt_le : forall a b, lt a b = false -> le b a.

Lemma insert_sorted_perm (x : A) (l : list A) :
  Permutation (insert_sorted lt x l) (x :: l).
Proof.
  induction l as [|y l IH]; simpl; [reflexivity|].
  destruct (lt y x); [|reflexivity].
  rewrite IH. apply perm_swap.
Qed.

Lemma sorted_perm (l : list A) : Permutation (sorted lt l) l.
Proof.
  induction l as [|x l IH]; simpl; [reflexivity|].
  rewrite insert_sorted_perm, IH. reflexivity.
Qed.

Lemma insert_sorted_ordered (x : A) (l : list A) :
  StronglySorted le l -> StronglySorted le (insert_sorted lt x l).
Proof.
  induction l as [|y l IH]; simpl; intros Hs.
  - constructor; constructor.
  - apply StronglySorted_inv in Hs as [Hs Hy].
    destruct (lt y x) eqn:Hyx.
    + constructor; [apply IH, Hs|].
      apply (Permutation_Forall (Permutation_sym (insert_sorted_perm x l))).
      constructor; [apply lt_le, Hyx | exact Hy].
    + pose proof (not_lt_le _ _ Hyx) as Hxy.
      constructor; [constructor; assumption|].
      constructor; [exact Hxy|].
      apply List.Forall_forall. intros z Hz.
      apply (le_trans x y z Hxy). revert z Hz. apply List.Forall_forall, Hy.
Qed.

Lemma sorted_ordered (l : list A) : StronglySorted le (sorted lt l).
Proof.
  induction l as [|x l IH]; simpl; [constructor | apply insert_sorted_ordered, IH].
Qed.

End SortedFacts.

(** ** The order on strings and on sort keys *)



Lemma ltb_leb (a b : string) : String.ltb a b = true -> String.leb a b = true.
Proof. unfold String.ltb, String.leb. destruct (String.compare a b); congruence. Qed.






(** ** C7 and C10: filtering *)

Section FilterFacts.
Context `{PF : PyFloat} `{PT : PyText}.

Lemma filter_filter (f g : Expense -> bool) (l : list Expense) :
  List.filter g (List.filter f l) = List.filter (fun e => f e && g e) l.
Proof.
  induction l as [|e l IH]; simpl; [reflexivity|].
  destruct (f e); simpl; [|exact IH].
  destruct (g e); rewrite IH; reflexivity.
Qed.

Lemma filter_ext_bool (f g : Expense -> bool) (l : list Expense) :
  (forall e, f e = g e) -> List.filter f l = List.filter g l.
Proof.
  intros H. induction l as [|e l IH]; simpl; [reflexivity|].
  rewrite H, IH. reflexivity.
Qed.

Lemma filter_true (l : list Expense) : List.filter (fun _ => true) l = l.
Proof. induction l as [|e l IH]; simpl; [reflexivity | rewrite IH; reflexivity]. Qed.

Lemma lower_cons_not_empty (c : ascii) (r : string) :
  String.eqb (str_lower EmptyString) (str_lower (String c r)) = false.
Proof.
  rewrite (str_lower_ascii EmptyString) by reflexivity.
  apply String.eqb_neq. intros E. symmetry in E.
  apply str_lower_not_empty in E. discriminate E.
Qed.

(** The comparison the program makes is [matches_category]. *)
Lemma category_test (c : ascii) (r : string) (e : Expense) :
  String.eqb (str_lower (category_or_empty e)) (str_lower (String c r))
  = matches_category (String c r) e.
Proof.
  unfold matches_category, category_or_empty.
  destruct (e_category e); [reflexivity | apply lower_cons_not_empty].
Qed.

Lemma month_prefix (y m : Z) :
  Text.format_0d 4 y ++ "-" ++ Text.format_0d 2 m ++ "-" = ym_key y m ++ "-".
Proof.
  unfold ym_key. rewrite !append_String_assoc. reflexivity.
Qed.

Lemma month_to_ym_ok (today : Date) (mo : Z) (yr : option Z) :
  1 <= mo <= 12 ->
  month_to_ym today mo yr = Ok (match yr with Some y => y | None => year today end, mo).
Proof.
  intros Hm. unfold month_to_ym.
  replace (mo <? 1) with false by lia. replace (mo >? 12) with false by lia.
  reflexivity.
Qed.

Lemma month_to_ym_raises (today : Date) (mo : Z) (yr : option Z) :
  ~ 1 <= mo <= 12 ->
  month_to_ym today mo yr = Raise (ArgumentTypeError "Month must be between 1 and 12.").
Proof.
  intros Hm. unfold month_to_ym.
  destruct (mo <? 1) eqn:H1; [reflexivity|].
  destruct (mo >? 12) eqn:H2; [reflexivity|]. lia.
Qed.

(** The list the program sorts is the list of the records to keep. *)
Lemma filter_expenses_unfold (today : Date) (exps : list Expense)
      (category : option string) (month : option Z) :
  (forall mo, month = Some mo -> 1 <= mo <= 12) ->
  filter_expenses today exps category month
  = Ok (sorted expense_lt (List.filter (keeps today category month) exps)).
Proof.
  intros Hmo. unfold filter_expenses.
  assert (match category with
          | None => exps
          | Some EmptyString => exps
          | Some c => List.filter (fun e => String.eqb (str_lower (category_or_empty e))
                                                      (str_lower c)) exps
          end
          = List.filter (keeps today category None) exps) as ->.
  { unfold keeps. destruct category as [[|c r]|].
    - simpl. rewrite filter_true. reflexivity.
    - apply filter_ext_bool. intros e. rewrite category_test, andb_true_r. reflexivity.
    - simpl. rewrite filter_true. reflexivity. }
  destruct month as [mo|].
  - rewrite month_to_ym_ok by (apply Hmo; reflexivity).
    rewrite month_prefix, filter_filter. do 2 f_equal.
    apply filter_ext_bool. intros e. unfold keeps, in_month.
    rewrite andb_true_r. reflexivity.
  - reflexivity.
Qed.


(** C10.  An empty category is no filter: the result is the one obtained
    without category, whatever the month; without month every record is
    returned, with or without a category of its own. *)
Theorem empty_category_is_no_filter (today : Date) (exps : list Expense)
        (month : option Z) :
  filter_expenses today exps (Some EmptyString) month
  = filter_expenses today exps None month
  /\ exists r, filter_expenses today exps (Some EmptyString) None = Ok r
               /\ Permutation r exps.
Proof.
  split; [reflexivity|].
  eexists. split; [reflexivity|]. apply sorted_perm.
Qed.

End FilterFacts.

(** ** C2 and C9: the store *)

Section StoreFacts.
Context `{PF : PyFloat} `{PT : PyText}.

(** [load_data], case by case. *)
Lemma load_data_eq (env : Env) (w : World) :
  load_data env w =
  match data_json (the_dir w) with
  | None => (Ok fresh_document, with_dir w (the_dir w))
  | Some NotUtf8 => (Raise UnicodeDecodeError, with_dir w (the_dir w))
  | Some (NotJson _) | Some (CsvText _) =>
      (Ok fresh_document,
       if replace_ok env
       then with_dir w (mkDir None (data_json (the_dir w)) (data_tmp (the_dir w)))
       else with_dir w (the_dir w))
  | Some (JsonOther t) => (Raise (setdefault_error t), with_dir w (the_dir w))
  | Some (JsonObj o) => (Ok (ensure_keys o), with_dir w (the_dir w))
  end.
Proof.
  unfold load_data, bind, get_data_file_path, the_dir, with_dir, ret, lift, ask, put_dir.
  destruct (data_dir w) as [dir|]; simpl.
  - destruct (data_json dir) as [[| text | rows | o | t]|]; try reflexivity;
      destruct (replace_ok env); reflexivity.
  - reflexivity.
Qed.

Lemma save_data_eq (data : Document) (env : Env) (w : World) :
  save_data data env w =
  (Ok tt, mkWorld (Some (mkDir (Some (dump data)) (data_bak (the_dir w)) None))
                  (stdout w) (saves w ++ [data]) (csv_files w)).
Proof. reflexivity. Qed.

Lemma ensure_keys_dump (d : Document) :
  match dump d with
  | JsonObj o => ensure_keys o = d
  | _ => False
  end.
Proof. destruct d. reflexivity. Qed.

Lemma Place_eq_dec (a b : Place) : {a = b} + {a <> b}.
Proof. decide equality. Defined.

(** What is read depends on the data directory alone. *)
Lemma load_data_same_dir (env env' : Env) (w w' : World) :
  data_dir w = data_dir w' -> fst (load_data env w) = fst (load_data env' w').
Proof.
  intros E. rewrite !load_data_eq. unfold the_dir. rewrite E.
  destruct (match data_dir w' with Some d => d | None => empty_dir end) as [j b t].
  simpl. destruct j as [[| text | rows | o | k]|]; reflexivity.
Qed.

(** More precisely, on the data file alone. *)
Lemma load_data_same_json (env env' : Env) (w w' : World) :
  data_json (the_dir w) = data_json (the_dir w') ->
  fst (load_data env w) = fst (load_data env' w').
Proof.
  intros E. rewrite !load_data_eq, E.
  destruct (data_json (the_dir w')) as [[| text | rows | o | k]|]; reflexivity.
Qed.

(** Reading does not change what is read next. *)
Lemma load_data_again (env env' : Env) (w : World) :
  fst (load_data env' (snd (load_data env w))) = fst (load_data env w).
Proof.
  rewrite !load_data_eq. unfold the_dir, with_dir.
  destruct (data_dir w) as [[j b t]|]; simpl; [|reflexivity].
  destruct j as [[| text | rows | o | k]|]; simpl; try reflexivity;
    destruct (replace_ok env); reflexivity.
Qed.

(** Saving does not fail, and what was saved is what is read next. *)
Lemma load_data_after_save (env env' : Env) (w : World) (d : Document) :
  fst (load_data env' (snd (save_data d env w))) = Ok d.
Proof.
  rewrite save_data_eq, load_data_eq. simpl. destruct d. reflexivity.
Qed.

(** [load_data] returns a document for every data file that is absent, that is
    not JSON, or that is a JSON object; the document is the fresh one in the
    first two cases and the object with its missing keys filled in in the
    third; a file that is not JSON is moved to the backup name when the
    renaming succeeds and left where it is otherwise. *)
Lemma load_data_recovers (env : Env) (w : World) :
  (data_json (the_dir w) = None ->
     load_data env w = (Ok fresh_document, with_dir w (the_dir w)))
  /\ (forall text, data_json (the_dir w) = Some (NotJson text) ->
        fst (load_data env w) = Ok fresh_document
        /\ (replace_ok env = true ->
              data_dir (snd (load_data env w))
              = Some (mkDir None (Some (NotJson text)) (data_tmp (the_dir w))))
        /\ (replace_ok env = false ->
              data_dir (snd (load_data env w)) = Some (the_dir w)))
  /\ (forall o, data_json (the_dir w) = Some (JsonObj o) ->
        load_data env w = (Ok (ensure_keys o), with_dir w (the_dir w))
        /\ next_id (ensure_keys o) = default 1 (o_next_id o)
        /\ expenses (ensure_keys o) = default [] (o_expenses o)
        /\ budgets (ensure_keys o) = default ∅ (o_budgets o)).
Proof.
  rewrite load_data_eq. split; [|split].
  - intros ->. reflexivity.
  - intros text ->. split; [reflexivity|].
    split; intros ->; reflexivity.
  - intros o ->. split; [reflexivity|].
    unfold ensure_keys. simpl.
    destruct (o_next_id o), (o_expenses o), (o_budgets o); auto.
Qed.

(** [load_data] raises exactly on a file that is not UTF-8 text and on JSON
    that is not an object. *)
Lemma load_data_raises_iff (env : Env) (w : World) :
  is_raise (fst (load_data env w)) = true <->
  data_json (the_dir w) = Some NotUtf8
  \/ exists t, data_json (the_dir w) = Some (JsonOther t).
Proof.
  rewrite load_data_eq.
  destruct (data_json (the_dir w)) as [[| text | rows | o | t]|]; simpl; split;
    try discriminate; try (intros [H | [t' H]]; discriminate); eauto.
Qed.

Lemma holds_the_dir (w : World) (o : JsonObject) :
  holds w o -> data_dir w = Some (the_dir w) /\ data_json (the_dir w) = Some (JsonObj o).
Proof.
  intros (dir & Hd & Ho). unfold the_dir. rewrite Hd. auto.
Qed.

Lemma with_dir_same (w : World) :
  data_dir w = Some (the_dir w) -> with_dir w (the_dir w) = w.
Proof. intros E. unfold with_dir. rewrite <- E. destruct w. reflexivity. Qed.

(** C9.  On a data file that holds a JSON object with all three keys,
    loading the document and saving it again succeeds, leaves the same object
    in the data file, and the document loaded afterwards is the one loaded
    before: its [next_id], [expenses] and [budgets] are those of the file. *)
Theorem save_load_round_trip (env env' env'' : Env) (w : World) (o : JsonObject) :
  holds w o -> well_formed o ->
  exists d w1 w2,
    load_data env w = (Ok d, w1)
    /\ save_data d env' w1 = (Ok tt, w2)
    /\ holds w2 o
    /\ load_data env'' w2 = (Ok d, w2)
    /\ o_next_id o = Some (next_id d)
    /\ o_expenses o = Some (expenses d)
    /\ o_budgets o = Some (budgets d).
Proof.
  intros Hh ([n Hn] & [l Hl] & [b Hb]).
  destruct (holds_the_dir w o Hh) as [Hdir Hjson].
  assert (dump (ensure_keys o) = JsonObj o) as Hdump.
  { destruct o as [on oe ob]. simpl in *. subst. reflexivity. }
  exists (ensure_keys o), w.
  eexists. split; [|split; [|split; [|split]]].
  - rewrite load_data_eq, Hjson, with_dir_same by exact Hdir. reflexivity.
  - apply save_data_eq.
  - eexists. split; [reflexivity|]. simpl. rewrite Hdump. reflexivity.
  - rewrite load_data_eq. unfold the_dir, with_dir. simpl. rewrite Hdump. reflexivity.
  - unfold ensure_keys. simpl. rewrite Hn, Hl, Hb. auto.
Qed.

End StoreFacts.

(** ** The handlers, step by step *)

Section HandlerFacts.
Context `{PF : PyFloat} `{PT : PyText}.

Lemma load_data_world (env : Env) (w : World) :
  stdout (snd (load_data env w)) = stdout w
  /\ saves (snd (load_data env w)) = saves w
  /\ csv_files (snd (load_data env w)) = csv_files w.
Proof.
  rewrite load_data_eq.
  destruct (data_json (the_dir w)) as [[| text | rows | o | t]|]; simpl; auto;
    destruct (replace_ok env); simpl; auto.
Qed.

Lemma printed_after_load (env : Env) (w : World) (line : string) :
  printed (snd (load_data env w)) [line] = only_printed env w line.
Proof.
  unfold printed, only_printed.
  destruct (load_data_world env w) as (-> & -> & ->). reflexivity.
Qed.

Lemma print_eq (line : string) (env : Env) (w : World) :
  print line env w = (Ok tt, printed w [line]).
Proof. reflexivity. Qed.

Lemma printed_printed (w : World) (a b : list string) :
  printed (printed w a) b = printed w (a ++ b).
Proof. unfold printed. simpl. rewrite <- app_assoc. reflexivity. Qed.

Lemma print_all_eq (lines : list string) (env : Env) (w : World) :
  print_all lines env w = (Ok tt, printed w lines).
Proof.
  revert w. induction lines as [|l lines IH]; intros w.
  - unfold printed. simpl. rewrite app_nil_r. destruct w. reflexivity.
  - simpl. unfold bind. rewrite print_eq, IH, printed_printed. reflexivity.
Qed.

Lemma print_table_eq (headers : list string) (rows : list (list string))
      (env : Env) (w : World) :
  exists lines, print_table headers rows env w = (Ok tt, printed w lines).
Proof.
  unfold print_table, bind. rewrite print_eq, print_all_eq, printed_printed.
  eexists. reflexivity.
Qed.

Lemma add_expense_eq (description : string) (amount : float)
      (date category : option string) (env : Env) (w : World) :
  add_expense description amount date category env w =
  match load_data env w with
  | (Raise e, w1) => (Raise e, w1)
  | (Ok data, w1) =>
      match parse_date (today env) date with
      | Raise e => (Raise e, w1)
      | Ok date' =>
          match validate_amount amount with
          | Raise e => (Raise e, w1)
          | Ok amount' =>
              (Ok tt,
               saved_and_printed w1
                 (added data date' (str_strip description) amount'
                        (clean_category category))
                 ("Expense added successfully (ID: " ++ Text.str_int (next_id data) ++ ")"))
          end
      end
  end.
Proof.
  unfold add_expense, bind, lift, ask.
  destruct (load_data env w) as [[data|e] w1]; [|reflexivity].
  destruct (parse_date (today env) date) as [date'|e]; [|reflexivity].
  destruct (validate_amount amount) as [amount'|e]; reflexivity.
Qed.

Lemma update_expense_eq (id : Z) (description : option string) (amount : option float)
      (date category : option string) (env : Env) (w : World) :
  update_expense id description amount date category env w =
  match load_data env w with
  | (Raise e, w1) => (Raise e, w1)
  | (Ok data, w1) =>
      match find_expense id (expenses data) with
      | None => (Ok tt, printed w1 ["Error: Expense ID not found."])
      | Some i =>
          match update_fields (today env) i description amount date category data with
          | Raise e => (Raise e, w1)
          | Ok data4 => (Ok tt, saved_and_printed w1 data4 "Expense updated successfully")
          end
      end
  end.
Proof.
  unfold update_expense, update_fields, bind, lift, ask, ret.
  destruct (load_data env w) as [[data|e] w1]; [|reflexivity].
  destruct (find_expense id (expenses data)) as [i|]; [|reflexivity].
  destruct amount as [a|].
  - destruct (validate_amount a) as [a'|e]; [|reflexivity].
    destruct date as [s|]; [|reflexivity].
    destruct (parse_date (today env) (Some s)) as [s'|e]; reflexivity.
  - destruct date as [s|]; [|reflexivity].
    destruct (parse_date (today env) (Some s)) as [s'|e]; reflexivity.
Qed.

Lemma delete_expense_eq (id : Z) (env : Env) (w : World) :
  delete_expense id env w =
  match load_data env w with
  | (Raise e, w1) => (Raise e, w1)
  | (Ok data, w1) =>
      let kept := List.filter (fun e => negb (e_id e =? id)) (expenses data) in
      if Nat.eqb (length (expenses data)) (length kept)
      then (Ok tt, printed w1 ["Error: Expense ID not found."])
      else (Ok tt, saved_and_printed w1 (set_expenses data kept) "Expense deleted successfully")
  end.
Proof.
  unfold delete_expense, bind.
  destruct (load_data env w) as [[data|e] w1]; [|reflexivity].
  simpl.
  destruct (Nat.eqb (length (expenses data))
              (length (List.filter (fun e => negb (e_id e =? id)) (expenses data))));
    reflexivity.
Qed.

Lemma budget_set_eq (month : Z) (amount : float) (env : Env) (w : World) :
  budget_set month amount env w =
  match load_data env w with
  | (Raise e, w1) => (Raise e, w1)
  | (Ok data, w1) =>
      match month_to_ym (today env) month (Some (year (today env))) with
      | Raise e => (Raise e, w1)
      | Ok (y, m) =>
          match validate_amount amount with
          | Raise e => (Raise e, w1)
          | Ok amount' =>
              (Ok tt,
               saved_and_printed w1
                 (set_budgets data (<[ym_key y m := amount']> (budgets data)))
                 ("Budget set for " ++ ym_key y m ++ ": $" ++ format_2f amount'))
          end
      end
  end.
Proof.
  unfold budget_set, bind, lift, ask.
  destruct (load_data env w) as [[data|e] w1]; [|reflexivity].
  destruct (month_to_ym (today env) month (Some (year (today env)))) as [[y m]|e];
    [|reflexivity].
  destruct (validate_amount amount) as [amount'|e]; reflexivity.
Qed.

Lemma load_data_not_validation (env : Env) (w : World) (msg : string) :
  fst (load_data env w) <> Raise (ArgumentTypeError msg).
Proof.
  rewrite load_data_eq.
  destruct (data_json (the_dir w)) as [[| text | rows | o | t]|]; simpl; discriminate.
Qed.

Lemma list_expenses_reads_only (category : option string) (month : option Z) :
  reads_only (list_expenses category month).
Proof.
  intros env w. cbv zeta. unfold list_expenses, bind, lift, ask.
  pose proof (load_data_not_validation env w) as Hnv.
  destruct (load_data_world env w) as (Hout & Hsaves & Hcsv).
  destruct (load_data env w) as [[data|e] w1]; simpl in *.
  - destruct (filter_expenses (today env) (expenses data) category month) as [[|x exps]|e].
    + simpl. repeat split; try assumption. discriminate.
    + destruct (print_table_eq table_headers
        (List.map (fun e =>
          [ Text.str_int (e_id e); e_date e; e_description e;
            "$" ++ format_2f (e_amount e);
            match e_category e with
            | Some (String c r) => String c r
            | _ => "-"
            end ]) (x :: exps)) env w1) as [lines ->].
      simpl. repeat split; try assumption. discriminate.
    + simpl. repeat split; auto.
  - repeat split; auto.
Qed.

Lemma export_csv_eq (csv : string) (category : option string) (month : option Z)
      (env : Env) (w : World) :
  export_csv csv category month env w =
  match load_data env w with
  | (Raise e, w1) => (Raise e, w1)
  | (Ok data, w1) =>
      match filter_expenses (today env) (expenses data) category month with
      | Raise e => (Raise e, w1)
      | Ok [] => (Ok tt, printed w1 ["No expenses to export."])
      | Ok exps =>
          (Ok tt, exported env w1 csv (csv_header :: List.map export_row exps)
                    (exported_line (length exps) (path_str env csv)))
      end
  end.
Proof.
  unfold export_csv, bind, lift, ask.
  destruct (load_data env w) as [[data|e] w1]; [|reflexivity].
  destruct (filter_expenses (today env) (expenses data) category month) as [[|x exps]|e];
    reflexivity.
Qed.

(** What an export leaves: the rows in the file the path leads to, one more
    line, one more CSV file in the log, no document saved. *)
Lemma exported_world (env : Env) (w : World) (path : string) (rows : list csv_row)
      (line : string) :
  data_dir (exported env w path rows line)
  = match csv_target env path with
    | OtherFile => data_dir w
    | place => Some (put_file place (CsvText rows) (the_dir w))
    end
  /\ stdout (exported env w path rows line) = (stdout w ++ [line])%list
  /\ saves (exported env w path rows line) = saves w
  /\ csv_files (exported env w path rows line) = (csv_files w ++ [(path, rows)])%list.
Proof.
  unfold exported, printed, write_csv, the_dir. simpl.
  destruct (csv_target env path); auto.
Qed.

(** After an export onto the data file the fresh document is read; after any
    other export, what was read before. *)
Lemma exported_reads (env env' : Env) (w : World) (path : string) (rows : list csv_row)
      (line : string) :
  (csv_target env path = DataFile ->
     fst (load_data env' (exported env w path rows line)) = Ok fresh_document)
  /\ (csv_target env path <> DataFile -> data_dir w = Some (the_dir w) ->
        fst (load_data env' (exported env w path rows line)) = fst (load_data env' w)).
Proof.
  destruct (exported_world env w path rows line) as (Hd & _). split.
  - intros Ht. rewrite Ht in Hd. rewrite load_data_eq. unfold the_dir. rewrite Hd.
    reflexivity.
  - intros Ht Hdir. apply load_data_same_json. unfold the_dir at 1. rewrite Hd.
    destruct (csv_target env path); [rewrite Hdir| congruence | |]; reflexivity.
Qed.

(** After [load_data] the data directory is there. *)
Lemma load_data_dir (env : Env) (w : World) :
  data_dir (snd (load_data env w)) = Some (the_dir (snd (load_data env w))).
Proof.
  rewrite load_data_eq.
  destruct (data_json (the_dir w)) as [[| text | rows | o | t]|]; try reflexivity;
    destruct (replace_ok env); reflexivity.
Qed.

Lemma filter_expenses_month_ok (today : Date) (exps r : list Expense)
      (category : option string) (mo : Z) :
  filter_expenses today exps category (Some mo) = Ok r ->
  month_to_ym today mo (Some (year today)) = Ok (year today, mo).
Proof.
  unfold filter_expenses, month_to_ym.
  destruct ((mo <? 1) || (mo >? 12)); [discriminate | reflexivity].
Qed.

Lemma summary_reads_only (month : option Z) : reads_only (summary month).
Proof.
  intros env w. cbv zeta. unfold summary, bind, lift, ask.
  pose proof (load_data_not_validation env w) as Hnv.
  destruct (load_data_world env w) as (Hout & Hsaves & Hcsv).
  destruct (load_data env w) as [[data|e] w1]; simpl in *; [|repeat split; auto].
  destruct (filter_expenses (today env) (expenses data) None month) as [exps|e] eqn:Hf;
    [|simpl; repeat split; auto].
  destruct month as [mo|]; [|simpl; repeat split; auto; discriminate].
  rewrite (filter_expenses_month_ok _ _ _ _ _ Hf).
  destruct (month_name mo) as [mname|e]; [|simpl; repeat split; auto].
  destruct (budgets data !! ym_key (year (today env)) mo) as [b|];
    [destruct (fgt _ b)|]; simpl; repeat split; auto; discriminate.
Qed.

Lemma budget_show_reads_only (month : option Z) : reads_only (budget_show month).
Proof.
  intros env w. cbv zeta. unfold budget_show, bind, lift, ask.
  pose proof (load_data_not_validation env w) as Hnv.
  destruct (load_data_world env w) as (Hout & Hsaves & Hcsv).
  destruct (load_data env w) as [[data|e] w1]; cbn [fst snd] in *; [|repeat split; auto].
  destruct month as [mo|].
  - destruct (month_to_ym (today env) mo (Some (year (today env)))) as [[y m]|e];
      [|simpl; repeat split; auto].
    destruct (budgets data !! ym_key y m); simpl; repeat split; auto; discriminate.
  - destruct (sorted _ (map_to_list (budgets data))) as [|kv items].
    + simpl. repeat split; auto; discriminate.
    + destruct (print_table_eq ["Month"; "Budget"]
        (List.map (fun kv => [fst kv; "$" ++ format_2f (snd kv)]) (kv :: items)) env w1)
        as [lines ->].
      simpl. repeat split; auto; discriminate.
Qed.

End HandlerFacts.

(** ** C3: validation errors *)

Section MainFacts.
Context `{PF : PyFloat} `{PT : PyText}.

(** Every command either leaves the store as loading left it, having raised
    the validation error (if it did) before any effect, or saves one
    document and prints one line, or is an export that writes its file. *)
Lemma func_outcome (c : Command) (env : Env) (w : World) :
  (data_dir (snd (func c env w)) = data_dir (snd (load_data env w))
   /\ saves (snd (func c env w)) = saves w
   /\ (forall msg, fst (func c env w) = Raise (ArgumentTypeError msg) ->
         snd (func c env w) = snd (load_data env w)))
  \/ (exists d d' line,
        fst (load_data env w) = Ok d
        /\ step_doc env c d d'
        /\ func c env w = (Ok tt, saved_and_printed (snd (load_data env w)) d' line))
  \/ (exists csv category month rows line,
        c = Export csv category month
        /\ func c env w = (Ok tt, exported env (snd (load_data env w)) csv rows line)).
Proof.
  pose proof (load_data_not_validation env w) as Hnv.
  destruct (load_data_world env w) as (Hout & Hsaves & Hcsv).
  destruct c as [description amount date category
                | id description amount date category
                | id | category month | month | month amount | month
                | csv category month]; simpl.
  - rewrite add_expense_eq.
    destruct (load_data env w) as [[data|e] w1]; cbn [fst snd] in *; [|left; auto].
    destruct (parse_date (today env) date) as [date'|e] eqn:Hd; [|left; auto].
    destruct (validate_amount amount) as [amount'|e] eqn:Ha; [|left; auto].
    right. left. exists data. do 2 eexists. split; [reflexivity|]. split; [|reflexivity].
    exists date', amount'. auto.
  - rewrite update_expense_eq.
    destruct (load_data env w) as [[data|e] w1]; cbn [fst snd] in *; [|left; auto].
    destruct (find_expense id (expenses data)) as [i|] eqn:Hi.
    + destruct (update_fields (today env) i description amount date category data)
        as [data4|e] eqn:Hu; [|left; auto].
      right. left. exists data. do 2 eexists. split; [reflexivity|]. split; [|reflexivity].
      exists i. auto.
    + left. simpl. repeat split; auto. discriminate.
  - rewrite delete_expense_eq.
    destruct (load_data env w) as [[data|e] w1]; cbn [fst snd] in *; [|left; auto].
    cbv zeta.
    destruct (Nat.eqb (length (expenses data)) _) eqn:Hlen.
    + left. simpl. repeat split; auto. discriminate.
    + right. left. exists data. do 2 eexists. split; [reflexivity|]. split; [|reflexivity].
      split; [reflexivity|]. apply Nat.eqb_neq in Hlen. simpl. congruence.
  - left. apply list_expenses_reads_only.
  - left. apply summary_reads_only.
  - rewrite budget_set_eq.
    destruct (load_data env w) as [[data|e] w1]; cbn [fst snd] in *; [|left; auto].
    destruct (Z_le_dec 1 month) as [H1|H1]; [destruct (Z_le_dec month 12) as [H2|H2]|].
    + rewrite month_to_ym_ok by lia.
      destruct (validate_amount amount) as [amount'|e] eqn:Ha; [|left; auto].
      right. left. exists data. do 2 eexists. split; [reflexivity|]. split; [|reflexivity].
      exists amount'. auto.
    + rewrite month_to_ym_raises by lia. left. auto.
    + rewrite month_to_ym_raises by lia. left. auto.
  - left. apply budget_show_reads_only.
  - rewrite export_csv_eq.
    destruct (load_data env w) as [[data|e] w1]; cbn [fst snd] in *; [|left; auto].
    destruct (filter_expenses (today env) (expenses data) category month)
      as [[|x exps]|e]; [left | right; right | left].
    + simpl. repeat split; auto. discriminate.
    + exists csv, category, month. do 2 eexists. split; reflexivity.
    + auto.
Qed.

Lemma saved_and_printed_store (w : World) (d : Document) (line : string) (env : Env) :
  fst (load_data env (saved_and_printed w d line)) = Ok d
  /\ saves (saved_and_printed w d line) = (saves w ++ [d])%list.
Proof.
  split; [|reflexivity].
  rewrite load_data_eq. unfold the_dir, saved_and_printed. simpl.
  destruct d. reflexivity.
Qed.

(** [main] touches the store as the handler does. *)
Lemma main_store (c : Command) (env : Env) (w : World) :
  data_dir (snd (main c env w)) = data_dir (snd (func c env w))
  /\ saves (snd (main c env w)) = saves (snd (func c env w)).
Proof.
  unfold main. destruct (func c env w) as [[[]|e] w'].
  - auto.
  - destruct e; auto.
Qed.

Lemma main_ok (c : Command) (env : Env) (w w' : World) :
  func c env w = (Ok tt, w') -> main c env w = (Ok tt, w').
Proof. intros H. unfold main. rewrite H. reflexivity. Qed.

(** C3.  When the handler of a command raises the validation error, it has
    done nothing but load the document; [main] catches the error, prints the
    one line [Error: <message>] and ends normally.  Nothing was saved, and the
    next invocation reads what this one read; a data file that held a JSON
    object is as it was. *)
Theorem invalid_input_is_reported (c : Command) (env : Env) (w w' : World) (msg : string) :
  func c env w = (Raise (ArgumentTypeError msg), w') ->
  w' = snd (load_data env w)
  /\ main c env w = (Ok tt, only_printed env w (error_line msg))
  /\ stdout (only_printed env w (error_line msg)) = (stdout w ++ [error_line msg])%list
  /\ saves (only_printed env w (error_line msg)) = saves w
  /\ (forall env', fst (load_data env' (only_printed env w (error_line msg)))
                   = fst (load_data env w))
  /\ (forall o, holds w o -> data_dir (only_printed env w (error_line msg)) = data_dir w).
Proof.
  intros Hraise.
  assert (w' = snd (load_data env w)) as ->.
  { destruct (func_outcome c env w)
      as [(_ & _ & Hclean) | [(d & d' & line & _ & _ & Hok)
                             | (csv & cat & mo & rows & line & _ & Hok)]].
    - specialize (Hclean msg). rewrite Hraise in Hclean. apply Hclean. reflexivity.
    - rewrite Hraise in Hok. discriminate.
    - rewrite Hraise in Hok. discriminate. }
  split; [reflexivity|]. split.
  { unfold main. rewrite Hraise, print_eq, printed_after_load. reflexivity. }
  split; [reflexivity|]. split; [reflexivity|]. split.
  - intros env'. rewrite <- (load_data_again env env' w).
    apply load_data_same_dir. reflexivity.
  - intros o Hh. destruct (holds_the_dir w o Hh) as [Hdir Hjson].
    unfold only_printed. simpl. rewrite load_data_eq, Hjson. simpl. symmetry. exact Hdir.
Qed.

(** ** C4: ids that are not there *)

Lemma find_expense_none (id : Z) (l : list Expense) :
  (forall e, In e l -> e_id e <> id) -> find_expense id l = None.
Proof.
  induction l as [|e l IH]; intros Hno; simpl; [reflexivity|].
  destruct (e_id e =? id) eqn:He.
  - exfalso. apply (Hno e); [left; reflexivity | lia].
  - rewrite IH; [reflexivity|]. intros x Hx. apply Hno. right. exact Hx.
Qed.

Lemma find_expense_some (id : Z) (l : list Expense) (i : nat) :
  find_expense id l = Some i ->
  exists e, nth_error l i = Some e /\ e_id e = id.
Proof.
  revert i. induction l as [|e l IH]; intros i; simpl; [discriminate|].
  destruct (e_id e =? id) eqn:He.
  - intros [= <-]. exists e. split; [reflexivity | lia].
  - destruct (find_expense id l) as [j|]; [|discriminate].
    intros [= <-]. exact (IH j eq_refl).
Qed.

Lemma filter_keeps_all (id : Z) (l : list Expense) :
  (forall e, In e l -> e_id e <> id) ->
  List.filter (fun e => negb (e_id e =? id)) l = l.
Proof.
  induction l as [|e l IH]; intros Hno; simpl; [reflexivity|].
  replace (e_id e =? id) with false.
  - simpl. rewrite IH; [reflexivity|]. intros x Hx. apply Hno. right. exact Hx.
  - symmetry. apply Z.eqb_neq, Hno. left. reflexivity.
Qed.

(** C4.  When the document read holds no record with the given id, [update]
    and [delete] end normally after printing the not-found line and nothing
    else: nothing is saved, the next invocation reads the same document, with
    the same records, and a data file that held a JSON object is as it was. *)
Theorem not_found_changes_nothing (env : Env) (w : World) (d : Document) (id : Z)
        (description : option string) (amount : option float)
        (date category : option string) :
  fst (load_data env w) = Ok d ->
  (forall e, In e (expenses d) -> e_id e <> id) ->
  main (Update id description amount date category) env w
    = (Ok tt, only_printed env w not_found_line)
  /\ main (Delete id) env w = (Ok tt, only_printed env w not_found_line)
  /\ stdout (only_printed env w not_found_line) = (stdout w ++ [not_found_line])%list
  /\ saves (only_printed env w not_found_line) = saves w
  /\ (forall env', fst (load_data env' (only_printed env w not_found_line)) = Ok d)
  /\ (forall o, holds w o -> data_dir (only_printed env w not_found_line) = data_dir w).
Proof.
  intros Hload Hno. split; [|split; [|split; [|split; [|split]]]].
  - apply main_ok. simpl. rewrite update_expense_eq.
    destruct (load_data env w) as [[data|e] w1] eqn:Hl; simpl in Hload; [|discriminate].
    injection Hload as ->. rewrite find_expense_none by exact Hno.
    rewrite <- printed_after_load, Hl. reflexivity.
  - apply main_ok. simpl. rewrite delete_expense_eq.
    destruct (load_data env w) as [[data|e] w1] eqn:Hl; simpl in Hload; [|discriminate].
    injection Hload as ->. cbv zeta. rewrite filter_keeps_all by exact Hno.
    rewrite Nat.eqb_refl, <- printed_after_load, Hl. reflexivity.
  - reflexivity.
  - reflexivity.
  - intros env'. rewrite <- Hload, <- (load_data_again env env' w).
    apply load_data_same_dir. reflexivity.
  - intros o Hh. destruct (holds_the_dir w o Hh) as [Hdir Hjson].
    unfold only_printed. simpl. rewrite load_data_eq, Hjson. simpl. symmetry. exact Hdir.
Qed.

End MainFacts.

(** ** C8: setting a budget *)

Section BudgetFacts.
Context `{PF : PyFloat} `{PT : PyText}.

Lemma validate_amount_ok (amount : float) :
  fle amount fzero = false -> validate_amount amount = Ok (round2 amount).
Proof. intros H. unfold validate_amount. rewrite H. reflexivity. Qed.

Lemma validate_amount_raises (amount : float) :
  fle amount fzero = true ->
  validate_amount amount = Raise (ArgumentTypeError "Amount must be positive.").
Proof. intros H. unfold validate_amount. rewrite H. reflexivity. Qed.

(** One successful [budget set]. *)
Lemma budget_set_once (env : Env) (w : World) (d : Document) (mo : Z) (amount : float) :
  reads w d -> 1 <= mo <= 12 -> fle amount fzero = false ->
  reads (invoke w (env, BudgetSet mo amount))
        (set_budgets d (<[ym_key (year (today env)) mo := round2 amount]> (budgets d)))
  /\ fst (main (BudgetSet mo amount) env w) = Ok tt.
Proof.
  intros Hr Hmo Ha. unfold invoke. cbn [fst snd].
  assert (exists w', main (BudgetSet mo amount) env w
            = (Ok tt, saved_and_printed w'
                 (set_budgets d (<[ym_key (year (today env)) mo := round2 amount]> (budgets d)))
                 ("Budget set for " ++ ym_key (year (today env)) mo ++ ": $"
                  ++ format_2f (round2 amount)))) as [w' Hm].
  { exists (snd (load_data env w)). apply main_ok. simpl. rewrite budget_set_eq.
    specialize (Hr env). destruct (load_data env w) as [[data|e] w1]; simpl in Hr;
      [|discriminate].
    injection Hr as ->. rewrite month_to_ym_ok by lia.
    rewrite validate_amount_ok by exact Ha. reflexivity. }
  rewrite Hm. split; [|reflexivity].
  intros env'. apply saved_and_printed_store.
Qed.

(** C8.  Take a document and a [budget set] whose month is one of 1..12 and
    whose amount is not [<= 0], run twice in the same year.  After the first
    run the budgets are those before with the key of that month mapped to the
    rounded amount; the second run leaves exactly that document.  The key has
    that one entry (no key occurs twice among the entries); over an existing
    entry the number of entries and the set of keys are unchanged, otherwise
    one entry is added; the other entries are untouched. *)
Theorem budget_set_twice (env1 env2 : Env) (w : World) (d : Document) (mo : Z)
        (amount : float) :
  reads w d -> 1 <= mo <= 12 -> fle amount fzero = false ->
  year (today env1) = year (today env2) ->
  let key := ym_key (year (today env1)) mo in
  let w1 := invoke w (env1, BudgetSet mo amount) in
  let w2 := invoke w1 (env2, BudgetSet mo amount) in
  let d1 := set_budgets d (<[key := round2 amount]> (budgets d)) in
  reads w1 d1 /\ reads w2 d1
  /\ budgets d1 !! key = Some (round2 amount)
  /\ (forall v, (key, v) ∈ map_to_list (budgets d1) <-> v = round2 amount)
  /\ base.NoDup (fst <$> map_to_list (budgets d1))
  /\ (forall old, budgets d !! key = Some old ->
        size (budgets d1) = size (budgets d) /\ dom (budgets d1) = dom (budgets d))
  /\ (budgets d !! key = None -> size (budgets d1) = S (size (budgets d)))
  /\ (forall k, k <> key -> budgets d1 !! k = budgets d !! k).
Proof.
  intros Hr Hmo Ha Hyear key w1 w2 d1.
  destruct (budget_set_once env1 w d mo amount Hr Hmo Ha) as [Hr1 _].
  fold key in Hr1. fold d1 in Hr1. fold w1 in Hr1.
  destruct (budget_set_once env2 w1 d1 mo amount Hr1 Hmo Ha) as [Hr2 _].
  fold w2 in Hr2. rewrite <- Hyear in Hr2. fold key in Hr2.
  assert (set_budgets d1 (<[key := round2 amount]> (budgets d1)) = d1) as Hsame.
  { unfold d1, set_budgets. simpl. rewrite insert_insert_eq. reflexivity. }
  rewrite Hsame in Hr2.
  split; [exact Hr1|]. split; [exact Hr2|].
  unfold d1. simpl. split; [apply lookup_insert_eq|]. split.
  { intros v. rewrite elem_of_map_to_list, lookup_insert_eq.
    split; [intros [= <-]; reflexivity | intros ->; reflexivity]. }
  split; [apply (NoDup_fst_map_to_list (<[key:=round2 amount]> (budgets d)))|].
  split.
  { intros old Hold. split.
    - apply (map_size_insert_Some key (round2 amount) (budgets d)). eauto.
    - apply dom_insert_lookup_L. eauto. }
  split.
  { intros Hnone. apply map_size_insert_None, Hnone. }
  intros k Hk. apply lookup_insert_ne. congruence.
Qed.

End BudgetFacts.

(** ** C5: amounts *)

Lemma div_half_even_nearest (n d : Z) :
  0 < d -> nearest_even n d (Binary64.div_half_even n d).
Proof.
  intros Hd. unfold nearest_even, Binary64.div_half_even. cbv zeta.
  pose proof (Z.div_mod n d ltac:(lia)) as E.
  pose proof (Z.mod_pos_bound n d Hd) as Hr.
  destruct (Z.compare_spec (2 * (n mod d)) d) as [Heq | Hlt | Hgt].
  - destruct (Z.even (n / d)) eqn:Hev.
    + split; [|intros _; exact Hev]. nia.
    + split; [nia|]. intros _. rewrite Z.even_add, Hev. reflexivity.
  - split; [nia|]. intros H. nia.
  - split; [nia|]. intros H. nia.
Qed.

Lemma scaled_positive (m : positive) (e : Z) :
  0 < fst (Binary64.scaled m e) /\ 0 < snd (Binary64.scaled m e).
Proof.
  unfold Binary64.scaled. destruct (0 <=? e) eqn:He; simpl.
  - split; [|lia]. assert (0 < 2 ^ e) by (apply Z.pow_pos_nonneg; lia). nia.
  - split; [lia|]. apply Z.pow_pos_nonneg; lia.
Qed.

Lemma hundredths_nearest (m : positive) (e : Z) :
  nearest_even (fst (Binary64.scaled m e)) (snd (Binary64.scaled m e))
               (Binary64.hundredths m e)
  /\ 0 <= Binary64.hundredths m e
  /\ (Binary64.hundredths m e = 0
      <-> 2 * fst (Binary64.scaled m e) <= snd (Binary64.scaled m e)).
Proof.
  destruct (scaled_positive m e) as [Hn Hd].
  pose proof (div_half_even_nearest (fst (Binary64.scaled m e))
                (snd (Binary64.scaled m e)) Hd) as Hnear.
  unfold Binary64.hundredths.
  set (n := fst (Binary64.scaled m e)) in *. set (d := snd (Binary64.scaled m e)) in *.
  set (k := Binary64.div_half_even n d) in *.
  split; [exact Hnear|]. destruct Hnear as [H1 H2].
  split; [nia|]. split.
  - intros E. rewrite E in H1. lia.
  - intros Hle. destruct (Z.eq_dec k 0) as [E | Hne]; [exact E|]. exfalso.
    assert (k = 1 \/ k < 0 \/ 2 <= k) as [E | [E | E]] by lia; [|nia|nia].
    rewrite E in H1, H2. assert (2 * Z.abs (n - 1 * d) = d) as Htie by lia.
    specialize (H2 Htie). discriminate H2.
Qed.

(** C5, as the program behaves, on IEEE 754 double precision.  The error is
    raised exactly when [raw <= 0] holds: for a zero, a negative number and
    minus infinity, and not for NaN.  Every other amount is returned as
    [round(raw, 2)] makes it: a finite [raw > 0] becomes the float nearest to
    [k / 100], where [k] is the integer nearest to the hundredfold of its
    exact value, the even one of two; this is zero exactly when [raw] is at
    most half a hundredth.  Plus infinity and NaN come back as they are. *)
Theorem validate_amount_rounds (repr : spec_float -> string) (raw : spec_float) :
  (@validate_amount (Binary64.binary64 repr) raw
     = Raise (ArgumentTypeError "Amount must be positive.")
   <-> @fle (Binary64.binary64 repr) raw fzero = true)
  /\ @fle (Binary64.binary64 repr) raw fzero = not_positive raw
  /\ (not_positive raw = false ->
        @validate_amount (Binary64.binary64 repr) raw = Ok (Binary64.round_2 raw))
  /\ (forall m e, raw = S754_finite false m e ->
        exists k,
          @validate_amount (Binary64.binary64 repr) raw = Ok (Binary64.of_hundredths false k)
          /\ nearest_even (fst (Binary64.scaled m e)) (snd (Binary64.scaled m e)) k
          /\ 0 <= k
          /\ (k = 0 <-> 2 * fst (Binary64.scaled m e) <= snd (Binary64.scaled m e))
          /\ (k = 0 -> Binary64.of_hundredths false k = S754_zero false)
          /\ (forall p, k = Zpos p ->
                Binary64.of_hundredths false k
                = SFdiv Binary64.prec Binary64.emax (S754_finite false p 0)
                        (S754_finite false 100 0)))
  /\ (raw = S754_infinity false ->
        @validate_amount (Binary64.binary64 repr) raw = Ok raw)
  /\ (raw = S754_nan -> @validate_amount (Binary64.binary64 repr) raw = Ok raw).
Proof.
  assert (@fle (Binary64.binary64 repr) raw fzero = not_positive raw) as Hle.
  { destruct raw as [s | s | | s m e]; try destruct s; reflexivity. }
  split; [|split; [exact Hle|split; [|split; [|split]]]].
  - unfold validate_amount.
    destruct (@fle (Binary64.binary64 repr) raw fzero); split; congruence.
  - intros Hpos. apply (@validate_amount_ok (Binary64.binary64 repr)).
    rewrite Hle. exact Hpos.
  - intros m e ->. exists (Binary64.hundredths m e).
    destruct (hundredths_nearest m e) as (H1 & H2 & H3).
    split; [reflexivity|]. split; [exact H1|]. split; [exact H2|]. split; [exact H3|].
    split; [intros ->; reflexivity | intros p ->; reflexivity].
  - intros ->. reflexivity.
  - intros ->. reflexivity.
Qed.

(** C5, as stated, fails.  Plus infinity is greater than zero and is
    returned as it is, which is no number of two decimals; NaN is neither
    [<= 0] nor [> 0] and is returned too; four thousandths are greater than
    zero and become zero; and a tenth comes back as the float nearest to a
    tenth, whose exact value is not a whole number of hundredths. *)
Lemma validate_amount_accepts_infinity :
  two_decimals (S754_infinity false) = false
  /\ two_decimals (Binary64.ratio 1 10) = false
  /\ forall repr : spec_float -> string,
       @fgt (Binary64.binary64 repr) (S754_infinity false) fzero = true
       /\ @validate_amount (Binary64.binary64 repr) (S754_infinity false)
          = Ok (S754_infinity false)
       /\ @fle (Binary64.binary64 repr) S754_nan fzero = false
       /\ @fgt (Binary64.binary64 repr) S754_nan fzero = false
       /\ @validate_amount (Binary64.binary64 repr) S754_nan = Ok S754_nan
       /\ @fgt (Binary64.binary64 repr) (Binary64.ratio 4 1000) fzero = true
       /\ @validate_amount (Binary64.binary64 repr) (Binary64.ratio 4 1000)
          = Ok (S754_zero false)
       /\ @fgt (Binary64.binary64 repr) (Binary64.ratio 1 10) fzero = true
       /\ @validate_amount (Binary64.binary64 repr) (Binary64.ratio 1 10)
          = Ok (Binary64.ratio 1 10).
Proof.
  split; [reflexivity|]. split; [vm_compute; reflexivity|].
  intros repr. repeat split; vm_compute; reflexivity.
Qed.

(** [round(x, 2)] on floats: a tie goes to the even hundredth, and what looks
    like a tie in decimal is none in binary. *)
Example round_2_ties :
  Binary64.round_2 (Binary64.ratio 125 1000) = Binary64.ratio 12 100
  /\ Binary64.round_2 (Binary64.ratio 375 1000) = Binary64.ratio 38 100
  /\ Binary64.round_2 (Binary64.ratio 2675 1000) = Binary64.ratio 267 100
  /\ Binary64.show_2f (Binary64.ratio 2675 1000) = "2.67"
  /\ Binary64.ratio 1 10 = S754_finite false 7205759403792794 (-56).
Proof. repeat split; vm_compute; reflexivity. Qed.

(** ** C1: the id counter *)

Section CounterFacts.
Context `{PF : PyFloat} `{PT : PyText}.

Lemma alter_ids (f : Expense -> Expense) (i : nat) (l : list Expense) :
  (forall e, e_id (f e) = e_id e) ->
  List.map e_id (alter f i l) = List.map e_id l.
Proof.
  intros Hf. revert i. induction l as [|e l IH]; intros i; [reflexivity|].
  destruct i as [|i]; simpl.
  - rewrite Hf. reflexivity.
  - f_equal. apply IH.
Qed.

Lemma assign_keeps (f : Expense -> Expense) (i : nat) (d : Document) :
  (forall e, e_id (f e) = e_id e) ->
  next_id (assign i f d) = next_id d
  /\ ids (assign i f d) = ids d
  /\ budgets (assign i f d) = budgets d.
Proof.
  intros Hf. unfold assign, ids. simpl. rewrite alter_ids by exact Hf. auto.
Qed.

(** [update] changes neither the counter, nor the ids, nor the budgets. *)
Lemma update_fields_keeps (today : Date) (i : nat) (description : option string)
      (amount : option float) (date category : option string) (d d' : Document) :
  update_fields today i description amount date category d = Ok d' ->
  next_id d' = next_id d /\ ids d' = ids d /\ budgets d' = budgets d.
Proof.
  unfold update_fields.
  set (d1 := match description with
             | Some s => assign i (with_description (str_strip s)) d
             | None => d
             end).
  assert (next_id d1 = next_id d /\ ids d1 = ids d /\ budgets d1 = budgets d) as H1.
  { unfold d1. destruct description; [apply assign_keeps; reflexivity | auto]. }
  assert (forall d2,
            match amount with
            | Some a => match validate_amount a with
                        | Ok a' => Ok (assign i (with_amount a') d1)
                        | Raise e => Raise e
                        end
            | None => Ok d1
            end = Ok d2 ->
            next_id d2 = next_id d /\ ids d2 = ids d /\ budgets d2 = budgets d) as H2.
  { intros d2. destruct amount as [a|].
    - destruct (validate_amount a) as [a'|e]; [|discriminate]. intros [= <-].
      destruct (assign_keeps (with_amount a') i d1 ltac:(reflexivity)) as (-> & -> & ->).
      exact H1.
    - intros [= <-]. exact H1. }
  destruct (match amount with Some a => _ | None => _ end) as [d2|e]; [|discriminate].
  specialize (H2 d2 eq_refl).
  assert (forall d3,
            match date with
            | Some s => match parse_date today (Some s) with
                        | Ok s' => Ok (assign i (with_date s') d2)
                        | Raise e => Raise e
                        end
            | None => Ok d2
            end = Ok d3 ->
            next_id d3 = next_id d /\ ids d3 = ids d /\ budgets d3 = budgets d) as H3.
  { intros d3. destruct date as [s|].
    - destruct (parse_date today (Some s)) as [s'|e]; [|discriminate]. intros [= <-].
      destruct (assign_keeps (with_date s') i d2 ltac:(reflexivity)) as (-> & -> & ->).
      exact H2.
    - intros [= <-]. exact H2. }
  destruct (match date with Some s => _ | None => _ end) as [d3|e]; [|discriminate].
  specialize (H3 d3 eq_refl). intros [= <-].
  destruct category as [c|]; [|exact H3].
  destruct (assign_keeps (with_category (clean_category (Some c))) i d3 ltac:(reflexivity))
    as (E1 & E2 & E3).
  destruct H3 as (G1 & G2 & G3).
  split; [exact (eq_trans E1 G1) | split; [exact (eq_trans E2 G2) | exact (eq_trans E3 G3)]].
Qed.

Lemma ids_below_next_iff (d : Document) :
  ids_below_next d <-> (forall x, In x (ids d) -> x < next_id d).
Proof.
  unfold ids_below_next, ids. rewrite List.Forall_forall. split.
  - intros H x Hx. apply in_map_iff in Hx as (e & <- & He). apply H, He.
  - intros H e He. apply H, in_map, He.
Qed.

Lemma reads_unique (w : World) (d d' : Document) : reads w d -> reads w d' -> d = d'.
Proof.
  intros H H'.
  specialize (H (mkEnv (mkDate 1 1 1) true (fun _ => OtherFile) (fun p => p))).
  specialize (H' (mkEnv (mkDate 1 1 1) true (fun _ => OtherFile) (fun p => p))).
  congruence.
Qed.

(** What one invocation makes of the document: nothing, what the command
    saves, or, for an export onto the data file that writes, the fresh
    document. *)
Lemma invoke_document (w : World) (d : Document) (i : Env * Command) :
  reads w d ->
  (reads (invoke w i) d /\ saves (invoke w i) = saves w)
  \/ (exists d', step_doc (fst i) (snd i) d d' /\ reads (invoke w i) d'
                 /\ saves (invoke w i) = (saves w ++ [d'])%list)
  \/ (overwrites_store i /\ reads (invoke w i) fresh_document
      /\ saves (invoke w i) = saves w).
Proof.
  intros Hr. destruct i as [env c]. unfold invoke, overwrites_store. cbn [fst snd].
  destruct (main_store c env w) as [Hdir Hsaves].
  destruct (func_outcome c env w)
    as [(Hd & Hs & _) | [(d0 & d' & line & Hl & Hstep & Hf)
                        | (csv & cat & mo & rows & line & -> & Hf)]].
  - left. split; [|congruence].
    intros env'. rewrite <- (Hr env), <- (load_data_again env env' w).
    apply load_data_same_dir. congruence.
  - right. left. rewrite (Hr env) in Hl. injection Hl as <-.
    exists d'. split; [exact Hstep|].
    rewrite Hf in Hdir, Hsaves. cbn [snd] in Hdir, Hsaves. split.
    + intros env'.
      rewrite <- (proj1 (saved_and_printed_store (snd (load_data env w)) d' line env')).
      apply load_data_same_dir. exact Hdir.
    + rewrite Hsaves. simpl. destruct (load_data_world env w) as (_ & -> & _). reflexivity.
  - rewrite Hf in Hdir, Hsaves. cbn [snd] in Hdir, Hsaves.
    destruct (exported_world env (snd (load_data env w)) csv rows line)
      as (_ & _ & Hs & _).
    rewrite Hs in Hsaves. destruct (load_data_world env w) as (_ & Hs' & _).
    rewrite Hs' in Hsaves.
    destruct (Place_eq_dec (csv_target env csv) DataFile) as [Ht | Ht].
    + right. right. split; [exact Ht|]. split; [|exact Hsaves].
      intros env'.
      rewrite <- (proj1 (exported_reads env env' (snd (load_data env w)) csv rows line) Ht).
      apply load_data_same_dir. exact Hdir.
    + left. split; [|exact Hsaves].
      intros env'. rewrite <- (Hr env), <- (load_data_again env env' w).
      rewrite <- (proj2 (exported_reads env env' (snd (load_data env w)) csv rows line)
                    Ht (load_data_dir env w)).
      apply load_data_same_dir. exact Hdir.
Qed.

Lemma step_doc_counter (env : Env) (c : Command) (d d' : Document) :
  step_doc env c d d' -> ids_below_next d ->
  ids_below_next d' /\ next_id d <= next_id d'
  /\ (forall x, In x (ids d') -> In x (ids d) \/ x = next_id d).
Proof.
  intros Hstep Hinv. rewrite ids_below_next_iff in Hinv. rewrite ids_below_next_iff.
  destruct c as [description amount date category
                | id description amount date category
                | id | category month | month | month amount | month
                | csv category month]; simpl in Hstep; try contradiction.
  - destruct Hstep as (date' & amount' & _ & _ & ->).
    unfold added, ids. simpl. rewrite List.map_app. simpl.
    assert (forall x, In x (List.map e_id (expenses d) ++ [next_id d])%list ->
                      In x (ids d) \/ x = next_id d) as Hin.
    { intros x Hx. apply in_app_or in Hx as [Hx | [<- | []]]; auto. }
    split; [|split; [lia | exact Hin]].
    intros x Hx. destruct (Hin x Hx) as [Hold | ->]; [|lia].
    specialize (Hinv x Hold). lia.
  - destruct Hstep as (i & _ & Hu).
    apply update_fields_keeps in Hu as (Hn & Hi & _). rewrite Hn, Hi.
    split; [exact Hinv|]. split; [lia | auto].
  - destruct Hstep as [-> _]. unfold set_expenses, ids. simpl.
    assert (forall x, In x (List.map e_id
                (List.filter (fun e => negb (e_id e =? id)) (expenses d))) ->
              In x (ids d)) as Hsub.
    { intros x Hx. apply in_map_iff in Hx as (e & <- & He).
      apply filter_In in He as [He _]. apply in_map, He. }
    split; [intros x Hx; apply Hinv, Hsub, Hx|]. split; [lia | auto].
  - destruct Hstep as (amount' & _ & _ & ->). unfold set_budgets, ids. simpl.
    split; [exact Hinv|]. split; [lia | auto].
Qed.

Lemma fresh_ids_below_next : ids_below_next fresh_document.
Proof. constructor. Qed.

(** Every invocation keeps the counter above the ids. *)
Lemma invoke_keeps (w : World) (d : Document) (i : Env * Command) :
  reads w d -> ids_below_next d ->
  exists d', reads (invoke w i) d' /\ ids_below_next d'.
Proof.
  intros Hr Hinv.
  destruct (invoke_document w d i Hr)
    as [[Hr' _] | [(d' & Hstep & Hr' & _) | (_ & Hr' & _)]].
  - exists d. auto.
  - exists d'. split; [exact Hr'|]. apply (step_doc_counter _ _ _ _ Hstep Hinv).
  - exists fresh_document. split; [exact Hr' | apply fresh_ids_below_next].
Qed.

(** Unless it is an export onto the data file, it never decreases the
    counter and brings in no id but the counter's value. *)
Lemma invoke_counter (w : World) (d : Document) (i : Env * Command) :
  reads w d -> ids_below_next d -> ~ overwrites_store i ->
  exists d', reads (invoke w i) d' /\ ids_below_next d' /\ next_id d <= next_id d'
             /\ (forall x, In x (ids d') -> In x (ids d) \/ x = next_id d).
Proof.
  intros Hr Hinv Hno.
  destruct (invoke_document w d i Hr)
    as [[Hr' _] | [(d' & Hstep & Hr' & _) | (Hover & _)]].
  - exists d. split; [exact Hr'|]. split; [exact Hinv|]. split; [lia | auto].
  - exists d'. split; [exact Hr'|]. apply (step_doc_counter _ _ _ _ Hstep Hinv).
  - contradiction.
Qed.

Lemma session_counter (session : list (Env * Command)) (w : World) (d : Document) :
  reads w d -> ids_below_next d ->
  Forall (fun i => ~ overwrites_store i) session ->
  exists dn, reads (final w session) dn /\ ids_below_next dn /\ next_id d <= next_id dn
             /\ (forall wk dk, In wk (worlds w session) -> reads wk dk ->
                   Forall (fun e => e_id e < next_id dn) (expenses dk)).
Proof.
  revert w d. induction session as [|i rest IH]; intros w d Hr Hinv Hno.
  - exists d. simpl. split; [exact Hr|]. split; [exact Hinv|]. split; [lia|].
    intros wk dk [<- | []] Hk. rewrite <- (reads_unique _ _ _ Hr Hk). exact Hinv.
  - apply List.Forall_cons_iff in Hno as [Hi Hno].
    destruct (invoke_counter w d i Hr Hinv Hi) as (d' & Hr' & Hinv' & Hle & _).
    destruct (IH (invoke w i) d' Hr' Hinv' Hno) as (dn & Hrn & Hinvn & Hlen & Hall).
    exists dn. simpl. split; [exact Hrn|]. split; [exact Hinvn|]. split; [lia|].
    intros wk dk [<- | Hk] Hrk.
    + rewrite <- (reads_unique _ _ _ Hr Hrk).
      apply List.Forall_forall. intros e He.
      unfold ids_below_next in Hinv. rewrite List.Forall_forall in Hinv.
      specialize (Hinv e He). lia.
    + exact (Hall wk dk Hk Hrk).
Qed.

Lemma filter_same_length (f : Expense -> bool) (l : list Expense) :
  length (List.filter f l) = length l -> List.filter f l = l.
Proof.
  induction l as [|e l IH]; simpl; [reflexivity|].
  destruct (f e); simpl; intros H.
  - f_equal. apply IH. lia.
  - pose proof (List.filter_length_le f l). lia.
Qed.

(** An [add] that passes validation. *)
Lemma add_once (env : Env) (w : World) (d : Document) (description : string)
      (amount : float) (date category : option string) (date' : string) (amount' : float) :
  reads w d ->
  parse_date (today env) date = Ok date' -> validate_amount amount = Ok amount' ->
  reads (invoke w (env, Add description amount date category))
        (added d date' (str_strip description) amount' (clean_category category)).
Proof.
  intros Hr Hd Ha. unfold invoke. cbn [fst snd].
  assert (exists w' line, main (Add description amount date category) env w
            = (Ok tt, saved_and_printed w'
                 (added d date' (str_strip description) amount' (clean_category category))
                 line)) as (w' & line & Hm).
  { exists (snd (load_data env w)). eexists. apply main_ok. simpl. rewrite add_expense_eq.
    specialize (Hr env). destruct (load_data env w) as [[data|e] w1]; simpl in Hr;
      [|discriminate].
    injection Hr as ->. rewrite Hd, Ha. reflexivity. }
  rewrite Hm. intros env'. apply saved_and_printed_store.
Qed.

(** A [delete], whether the id is there or not. *)
Lemma delete_once (env : Env) (w : World) (d : Document) (id : Z) :
  reads w d ->
  reads (invoke w (env, Delete id))
        (set_expenses d (List.filter (fun e => negb (e_id e =? id)) (expenses d))).
Proof.
  intros Hr.
  destruct (invoke_document w d (env, Delete id) Hr)
    as [[Hr' _] | [(d' & Hstep & Hr' & _) | ([] & _)]].
  - destruct (Nat.eq_dec
      (length (List.filter (fun e => negb (e_id e =? id)) (expenses d)))
      (length (expenses d))) as [Hlen | Hlen].
    + rewrite (filter_same_length _ _ Hlen). destruct d. exact Hr'.
    + exfalso. unfold invoke in Hr'. cbn [fst snd] in Hr'.
      specialize (Hr' env). specialize (Hr env).
      pose proof (main_ok (Delete id) env w) as Hm. simpl in Hm.
      rewrite delete_expense_eq in Hm.
      destruct (load_data env w) as [[data|e] w1]; simpl in Hr; [|discriminate].
      injection Hr as ->. cbv zeta in Hm.
      replace (Nat.eqb (length (expenses d))
                 (length (List.filter (fun e => negb (e_id e =? id)) (expenses d))))
        with false in Hm by (symmetry; apply Nat.eqb_neq; lia).
      rewrite (Hm _ eq_refl) in Hr'. cbn [snd] in Hr'.
      rewrite (proj1 (saved_and_printed_store _ _ _ _)) in Hr'.
      injection Hr' as Hd. apply Hlen. rewrite <- Hd at 2. reflexivity.
  - simpl in Hstep. destruct Hstep as [-> _]. exact Hr'.
Qed.

(** C1, as the program behaves.  Start from a document whose [next_id] is
    above every id in [expenses].  An [add] that passes validation stores a
    new record whose id is [next_id] and increases [next_id] by one; a
    [delete] leaves [next_id] as it is and only removes records; after every
    invocation [next_id] is still above every id.  Unless the invocation is an
    export whose path leads to the data file, [next_id] is not smaller than
    before and the only id that was not there before is the former [next_id];
    and at the end of every session without such an export [next_id] is above
    every id of every document the session went through, so that an id, once
    given, is never given again.  An export onto the data file leaves the
    document as it was (when it writes nothing) or the fresh document. *)
Theorem next_id_stays_above (w : World) (d : Document) :
  reads w d -> ids_below_next d ->
  (forall env description amount date category date' amount',
      parse_date (today env) date = Ok date' ->
      validate_amount amount = Ok amount' ->
      exists e d',
        reads (invoke w (env, Add description amount date category)) d'
        /\ e_id e = next_id d
        /\ expenses d' = (expenses d ++ [e])%list
        /\ next_id d' = next_id d + 1
        /\ ids_below_next d')
  /\ (forall env id,
        exists d',
          reads (invoke w (env, Delete id)) d'
          /\ next_id d' = next_id d
          /\ expenses d' = List.filter (fun e => negb (e_id e =? id)) (expenses d)
          /\ ids_below_next d')
  /\ (forall i, exists d', reads (invoke w i) d' /\ ids_below_next d')
  /\ (forall i, ~ overwrites_store i ->
        exists d',
          reads (invoke w i) d' /\ ids_below_next d' /\ next_id d <= next_id d'
          /\ (forall x, In x (ids d') -> In x (ids d) \/ x = next_id d))
  /\ (forall session, Forall (fun i => ~ overwrites_store i) session ->
        exists dn,
          reads (final w session) dn /\ ids_below_next dn /\ next_id d <= next_id dn
          /\ (forall wk dk, In wk (worlds w session) -> reads wk dk ->
                Forall (fun e => e_id e < next_id dn) (expenses dk)))
  /\ (forall i, overwrites_store i ->
        reads (invoke w i) d \/ reads (invoke w i) fresh_document).
Proof.
  intros Hr Hinv. split; [|split; [|split; [|split; [|split]]]].
  - intros env description amount date category date' amount' Hd Ha.
    pose proof (add_once env w d description amount date category date' amount' Hr Hd Ha)
      as Hr'.
    destruct (invoke_keeps w d (env, Add description amount date category) Hr Hinv)
      as (d' & Hr2 & Hinv').
    rewrite <- (reads_unique _ _ _ Hr' Hr2) in Hinv'.
    eexists. eexists. split; [exact Hr'|].
    split; [|split; [reflexivity | split; [reflexivity | exact Hinv']]].
    reflexivity.
  - intros env id. pose proof (delete_once env w d id Hr) as Hr'.
    destruct (invoke_keeps w d (env, Delete id) Hr Hinv) as (d' & Hr2 & Hinv').
    rewrite <- (reads_unique _ _ _ Hr' Hr2) in Hinv'.
    eexists. split; [exact Hr'|].
    split; [reflexivity | split; [reflexivity | exact Hinv']].
  - intros i. apply (invoke_keeps w d); assumption.
  - intros i Hno. apply invoke_counter; assumption.
  - intros session Hno. apply session_counter; assumption.
  - intros i Hover.
    destruct (invoke_document w d i Hr)
      as [[Hr' _] | [(d' & Hstep & _) | (_ & Hr' & _)]]; [left; exact Hr' | | right; exact Hr'].
    destruct i as [env c]. destruct c; simpl in Hstep, Hover; contradiction.
Qed.

End CounterFacts.

(** ** The theorems on the sample data *)

Import Cents AsciiText.

Lemma world0_reads_doc0 : reads Sample.world0 Sample.doc0.
Proof. intros env. reflexivity. Qed.

Lemma world0_holds_object0 : holds Sample.world0 Sample.object0.
Proof. eexists. split; reflexivity. Qed.

Lemma doc0_ids_below_next : ids_below_next Sample.doc0.
Proof. unfold ids_below_next, Sample.doc0. simpl. repeat constructor. Qed.

Lemma session0_spares_store :
  Forall (fun i => ~ overwrites_store i) Sample.session0.
Proof. unfold Sample.session0. repeat (constructor; [intros H; exact H|]). constructor. Qed.

Lemma next_id_stays_above_witness :
  reads Sample.world0 Sample.doc0 /\ ids_below_next Sample.doc0
  /\ exists dn, reads (final Sample.world0 Sample.session0) dn
                /\ ids_below_next dn /\ next_id Sample.doc0 <= next_id dn.
Proof.
  split; [exact world0_reads_doc0|]. split; [exact doc0_ids_below_next|].
  destruct (next_id_stays_above Sample.world0 Sample.doc0
              world0_reads_doc0 doc0_ids_below_next) as (_ & _ & _ & _ & Hs & _).
  destruct (Hs Sample.session0 session0_spares_store) as (dn & H1 & H2 & H3 & _).
  exists dn. auto.
Defined.

Lemma reads_data_json (w : World) (o : JsonObject) :
  data_json (the_dir w) = Some (JsonObj o) -> reads w (ensure_keys o).
Proof. intros H env. rewrite load_data_eq, H. reflexivity. Qed.

(** C1, as stated, fails: an export whose path is the data file replaces the
    document by the CSV text; the next [add] starts from the fresh document
    and gives the id 1, which the record [lunch] had, and [next_id] is 2,
    below the ids 2, 3 and 4 that were there. *)
Lemma next_id_restarts_after_export :
  reads Sample.world0 Sample.doc0 /\ ids_below_next Sample.doc0
  /\ ids Sample.doc0 = [1; 3; 4; 2] /\ next_id Sample.doc0 = 5
  /\ reads (invoke Sample.world0 (Sample.env0, Export Sample.data_path None None))
           fresh_document
  /\ stdout (final Sample.world0 Sample.session1)
     = ["Exported 4 expenses to /home/ann/.expense_tracker/data.json";
        "Expense added successfully (ID: 1)"]
  /\ exists d, reads (final Sample.world0 Sample.session1) d
               /\ ids d = [1] /\ next_id d = 2.
Proof.
  split; [exact world0_reads_doc0|]. split; [exact doc0_ids_below_next|].
  split; [reflexivity|]. split; [reflexivity|].
  split; [intros env; rewrite load_data_eq; reflexivity|].
  split; [reflexivity|].
  exists (mkDocument 2 [mkExpense (PF := cents) 1 "2024-06-07" "Tea" 450 None] ∅).
  split; [|split; reflexivity].
  apply (reads_data_json _
    (mkJsonObject (Some 2) (Some [mkExpense (PF := cents) 1 "2024-06-07" "Tea" 450 None])
       (Some ∅))).
  reflexivity.
Qed.

(** The session reuses no id: the two records it adds get the ids 5 and 6,
    although the records 4 and 5 were deleted on the way. *)
Example session0_ids :
  forall d, reads (final Sample.world0 Sample.session0) d ->
            ids d = [1; 3; 2; 6] /\ next_id d = 7.
Proof.
  intros d Hd. specialize (Hd Sample.env0).
  assert (match fst (load_data Sample.env0 (final Sample.world0 Sample.session0)) with
          | Ok x => (ids x, next_id x)
          | Raise _ => ([], 0)
          end = ([1; 3; 2; 6], 7)) as E by (vm_compute; reflexivity).
  rewrite Hd in E. injection E as E1 E2. auto.
Qed.

(** C2 fails on the program: a data file that holds JSON other than an
    object, here the text [[]], makes [load_data] raise [AttributeError] at
    the first [setdefault]; a data file that is not UTF-8 text makes it raise
    [UnicodeDecodeError].  Neither is caught by [main]. *)
Theorem load_data_raises_on_json_list :
  load_data Sample.env0 Sample.world_list
  = (Raise (AttributeError "'list' object has no attribute 'setdefault'"), Sample.world_list)
  /\ fst (main (ListCmd None None) Sample.env0 Sample.world_list)
     = Raise (AttributeError "'list' object has no attribute 'setdefault'")
  /\ fst (load_data Sample.env0 Sample.world_bytes) = Raise UnicodeDecodeError
  /\ fst (main (ListCmd None None) Sample.env0 Sample.world_bytes) = Raise UnicodeDecodeError.
Proof. repeat split; reflexivity. Qed.

Lemma invalid_input_is_reported_witness :
  func (Add "Bad" 0 None None) Sample.env0 Sample.world0
  = (Raise (ArgumentTypeError "Amount must be positive."), Sample.world0)
  /\ main (Add "Bad" 0 None None) Sample.env0 Sample.world0
     = (Ok tt, mkWorld (data_dir Sample.world0) ["Error: Amount must be positive."] [] []).
Proof.
  assert (func (Add "Bad" 0 None None) Sample.env0 Sample.world0
          = (Raise (ArgumentTypeError "Amount must be positive."), Sample.world0)) as H
    by reflexivity.
  split; [exact H|].
  exact (proj1 (proj2 (invalid_input_is_reported _ _ _ _ _ H))).
Defined.

(** [update] assigns the description before it validates the amount; the
    record in memory is changed when the validation fails, the one in the
    data file is not. *)
Example update_fails_after_assignment :
  update_fields (today Sample.env1) 0 (Some "Dinner") (Some (-5)) None None Sample.doc0
  = Raise (ArgumentTypeError "Amount must be positive.")
  /\ main (Update 1 (Some "Dinner") (Some (-5)) None None) Sample.env1 Sample.world0
     = (Ok tt, mkWorld (data_dir Sample.world0) ["Error: Amount must be positive."] [] []).
Proof. split; reflexivity. Qed.

Lemma not_found_changes_nothing_witness :
  fst (load_data Sample.env0 Sample.world0) = Ok Sample.doc0
  /\ (forall e, In e (expenses Sample.doc0) -> e_id e <> 7)
  /\ main (Delete 7) Sample.env0 Sample.world0
     = (Ok tt, mkWorld (data_dir Sample.world0) ["Error: Expense ID not found."] [] []).
Proof.
  assert (forall e, In e (expenses Sample.doc0) -> e_id e <> 7) as Hno.
  { intros e He. simpl in He.
    destruct He as [<- | [<- | [<- | [<- | []]]]]; simpl; lia. }
  split; [reflexivity|]. split; [exact Hno|].
  exact (proj1 (proj2 (not_found_changes_nothing Sample.env0 Sample.world0 Sample.doc0 7
                         None None None None eq_refl Hno))).
Defined.


(** By category, up to case; by month, of the current year only; sorted by
    date and then id. *)
Example filter_by_category :
  filter_expenses (mkDate 2024 6 7) (expenses Sample.doc0) (Some "FOOD") None
  = Ok [Sample.lunch; Sample.tea].
Proof. reflexivity. Qed.

Example filter_by_month :
  filter_expenses (mkDate 2024 6 7) (expenses Sample.doc0) None (Some 3)
  = Ok [Sample.lunch; Sample.bus].
Proof. reflexivity. Qed.

Example filter_sorts :
  filter_expenses (mkDate 2024 6 7) (expenses Sample.doc0) None None
  = Ok [Sample.rent; Sample.lunch; Sample.bus; Sample.tea].
Proof. reflexivity. Qed.

Example filter_month_out_of_range :
  filter_expenses (mkDate 2024 6 7) (expenses Sample.doc0) None (Some 13)
  = Raise (ArgumentTypeError "Month must be between 1 and 12.").
Proof. reflexivity. Qed.

(** The empty category does not select the records without category. *)
Example filter_empty_category :
  filter_expenses (mkDate 2024 6 7) (expenses Sample.doc0) (Some EmptyString) None
  = Ok [Sample.rent; Sample.lunch; Sample.bus; Sample.tea].
Proof. reflexivity. Qed.

Lemma budget_set_twice_witness :
  reads Sample.world0 Sample.doc0 /\ 1 <= 5 <= 12 /\ fle 10000 fzero = false
  /\ year (today Sample.env0) = year (today Sample.env1)
  /\ reads (invoke (invoke Sample.world0 (Sample.env0, BudgetSet 5 10000))
                   (Sample.env1, BudgetSet 5 10000))
           (set_budgets Sample.doc0 (<["2024-05" := 10000]> (budgets Sample.doc0))).
Proof.
  split; [exact world0_reads_doc0|]. split; [lia|]. split; [reflexivity|].
  split; [reflexivity|].
  exact (proj1 (proj2 (budget_set_twice Sample.env0 Sample.env1 Sample.world0 Sample.doc0
                         5 10000 world0_reads_doc0 ltac:(lia) eq_refl eq_refl))).
Defined.

Lemma save_load_round_trip_witness :
  holds Sample.world0 Sample.object0 /\ well_formed Sample.object0
  /\ exists d w1 w2,
       load_data Sample.env0 Sample.world0 = (Ok d, w1)
       /\ save_data d Sample.env0 w1 = (Ok tt, w2)
       /\ holds w2 Sample.object0
       /\ load_data Sample.env1 w2 = (Ok d, w2).
Proof.
  assert (well_formed Sample.object0) as Hwf by (repeat split; eexists; reflexivity).
  split; [exact world0_holds_object0|]. split; [exact Hwf|].
  destruct (save_load_round_trip Sample.env0 Sample.env0 Sample.env1 Sample.world0
              Sample.object0 world0_holds_object0 Hwf)
    as (d & w1 & w2 & H1 & H2 & H3 & H4 & _).
  exists d, w1, w2. auto.
Defined.

(** * Further properties of the program *)

(** ** What the validations raise *)

Section RaiseFacts.
Context `{PF : PyFloat} `{PT : PyText}.

Lemma parse_date_raise_kind (today : Date) (v : option string) (e : exn) :
  parse_date today v = Raise e -> exists msg, e = ArgumentTypeError msg.
Proof.
  unfold parse_date. destruct v as [[|c s]|]; try discriminate.
  destruct (Strptime.strptime (String c s)); [discriminate|].
  intros [= <-]. eexists. reflexivity.
Qed.

Lemma validate_amount_raise_kind (a : float) (e : exn) :
  validate_amount a = Raise e -> exists msg, e = ArgumentTypeError msg.
Proof.
  unfold validate_amount. destruct (fle a fzero); [|discriminate].
  intros [= <-]. eexists. reflexivity.
Qed.

Lemma month_to_ym_raise_kind (today : Date) (mo : Z) (yr : option Z) (e : exn) :
  month_to_ym today mo yr = Raise e -> exists msg, e = ArgumentTypeError msg.
Proof.
  unfold month_to_ym. destruct ((mo <? 1) || (mo >? 12)); [|discriminate].
  intros [= <-]. eexists. reflexivity.
Qed.

Lemma filter_expenses_raise_kind (today : Date) (exps : list Expense)
      (category : option string) (month : option Z) (e : exn) :
  filter_expenses today exps category month = Raise e ->
  exists msg, e = ArgumentTypeError msg.
Proof.
  unfold filter_expenses. destruct month as [mo|]; [|discriminate].
  destruct (month_to_ym today mo (Some (year today))) as [[y m]|e'] eqn:Hm; [discriminate|].
  intros [= <-]. eapply month_to_ym_raise_kind, Hm.
Qed.

Lemma update_fields_raise_kind (today : Date) (i : nat) (description : option string)
      (amount : option float) (date category : option string) (d : Document) (e : exn) :
  update_fields today i description amount date category d = Raise e ->
  exists msg, e = ArgumentTypeError msg.
Proof.
  unfold update_fields.
  destruct amount as [a|].
  - destruct (validate_amount a) as [a'|e'] eqn:Ha.
    + destruct date as [s|]; [|discriminate].
      destruct (parse_date today (Some s)) as [s'|e''] eqn:Hd; [discriminate|].
      intros [= <-]. eapply parse_date_raise_kind, Hd.
    + intros [= <-]. eapply validate_amount_raise_kind, Ha.
  - destruct date as [s|]; [|discriminate].
    destruct (parse_date today (Some s)) as [s'|e''] eqn:Hd; [discriminate|].
    intros [= <-]. eapply parse_date_raise_kind, Hd.
Qed.

Lemma month_name_ok (mo : Z) : 1 <= mo <= 12 -> exists s, month_name mo = Ok s.
Proof.
  intros H.
  assert (mo = 1 \/ mo = 2 \/ mo = 3 \/ mo = 4 \/ mo = 5 \/ mo = 6 \/ mo = 7 \/ mo = 8
          \/ mo = 9 \/ mo = 10 \/ mo = 11 \/ mo = 12) as Hc by lia.
  repeat (destruct Hc as [-> | Hc]; [eexists; reflexivity|]).
  subst. eexists. reflexivity.
Qed.

Lemma filter_expenses_month_range (today : Date) (exps r : list Expense)
      (category : option string) (mo : Z) :
  filter_expenses today exps category (Some mo) = Ok r -> 1 <= mo <= 12.
Proof.
  unfold filter_expenses, month_to_ym.
  destruct (mo <? 1) eqn:H1; [discriminate|].
  destruct (mo >? 12) eqn:H2; [discriminate|]. lia.
Qed.

(** With a document loaded, a handler returns or raises the validation
    error. *)
Lemma func_returns_or_rejects (c : Command) (env : Env) (w : World) (d : Document) :
  fst (load_data env w) = Ok d ->
  fst (func c env w) = Ok tt
  \/ exists msg, fst (func c env w) = Raise (ArgumentTypeError msg).
Proof.
  intros Hl.
  destruct c as [description amount date category
                | id description amount date category
                | id | category month | month | month amount | month
                | csv category month]; simpl.
  - rewrite add_expense_eq.
    destruct (load_data env w) as [[data|e] w1]; simpl in Hl; [|discriminate].
    destruct (parse_date (today env) date) as [date'|e] eqn:Hd.
    + destruct (validate_amount amount) as [amount'|e] eqn:Ha; [left; reflexivity|].
      right. destruct (validate_amount_raise_kind _ _ Ha) as [msg ->]. eauto.
    + right. destruct (parse_date_raise_kind _ _ _ Hd) as [msg ->]. eauto.
  - rewrite update_expense_eq.
    destruct (load_data env w) as [[data|e] w1]; simpl in Hl; [|discriminate].
    destruct (find_expense id (expenses data)) as [i|]; [|left; reflexivity].
    destruct (update_fields (today env) i description amount date category data)
      as [data4|e] eqn:Hu; [left; reflexivity|].
    right. destruct (update_fields_raise_kind _ _ _ _ _ _ _ _ Hu) as [msg ->]. eauto.
  - rewrite delete_expense_eq.
    destruct (load_data env w) as [[data|e] w1]; simpl in Hl; [|discriminate].
    cbv zeta. destruct (Nat.eqb _ _); left; reflexivity.
  - unfold list_expenses, bind, lift, ask.
    destruct (load_data env w) as [[data|e] w1]; simpl in Hl; [|discriminate].
    destruct (filter_expenses (today env) (expenses data) category month)
      as [[|x exps]|e] eqn:Hf.
    + left. reflexivity.
    + left. destruct (print_table_eq table_headers
        (List.map (fun e =>
          [ Text.str_int (e_id e); e_date e; e_description e;
            "$" ++ format_2f (e_amount e);
            match e_category e with
            | Some (String c r) => String c r
            | _ => "-"
            end ]) (x :: exps)) env w1) as [lines ->].
      reflexivity.
    + right. destruct (filter_expenses_raise_kind _ _ _ _ _ Hf) as [msg ->]. eauto.
  - unfold summary, bind, lift, ask.
    destruct (load_data env w) as [[data|e] w1]; simpl in Hl; [|discriminate].
    destruct (filter_expenses (today env) (expenses data) None month) as [exps|e] eqn:Hf.
    + destruct month as [mo|]; [|left; reflexivity].
      rewrite (filter_expenses_month_ok _ _ _ _ _ Hf).
      destruct (month_name_ok mo (filter_expenses_month_range _ _ _ _ _ Hf)) as [mname ->].
      left.
      destruct (budgets data !! ym_key (year (today env)) mo) as [b|];
        [destruct (fgt _ b)|]; reflexivity.
    + right. destruct (filter_expenses_raise_kind _ _ _ _ _ Hf) as [msg ->]. eauto.
  - rewrite budget_set_eq.
    destruct (load_data env w) as [[data|e] w1]; simpl in Hl; [|discriminate].
    destruct (month_to_ym (today env) month (Some (year (today env)))) as [[y m]|e] eqn:Hm.
    + destruct (validate_amount amount) as [amount'|e] eqn:Ha; [left; reflexivity|].
      right. destruct (validate_amount_raise_kind _ _ Ha) as [msg ->]. eauto.
    + right. destruct (month_to_ym_raise_kind _ _ _ _ Hm) as [msg ->]. eauto.
  - unfold budget_show, bind, lift, ask.
    destruct (load_data env w) as [[data|e] w1]; simpl in Hl; [|discriminate].
    destruct month as [mo|].
    + destruct (month_to_ym (today env) mo (Some (year (today env)))) as [[y m]|e] eqn:Hm.
      * left. destruct (budgets data !! ym_key y m); reflexivity.
      * right. destruct (month_to_ym_raise_kind _ _ _ _ Hm) as [msg ->]. eauto.
    + left. destruct (sorted _ (map_to_list (budgets data))) as [|kv items]; [reflexivity|].
      destruct (print_table_eq ["Month"; "Budget"]
        (List.map (fun kv => [fst kv; "$" ++ format_2f (snd kv)]) (kv :: items)) env w1)
        as [lines ->].
      reflexivity.
  - unfold export_csv, bind, lift, ask.
    destruct (load_data env w) as [[data|e] w1]; simpl in Hl; [|discriminate].
    destruct (filter_expenses (today env) (expenses data) category month)
      as [[|x exps]|e] eqn:Hf; [left; reflexivity | left; reflexivity |].
    right. destruct (filter_expenses_raise_kind _ _ _ _ _ Hf) as [msg ->]. eauto.
Qed.

(** When loading raises, so does every handler. *)
Lemma func_load_raises (c : Command) (env : Env) (w : World) (e : exn) :
  fst (load_data env w) = Raise e -> fst (func c env w) = Raise e.
Proof.
  intros Hl.
  destruct c; simpl;
    [ rewrite add_expense_eq | rewrite update_expense_eq | rewrite delete_expense_eq
    | unfold list_expenses, bind | unfold summary, bind | rewrite budget_set_eq
    | unfold budget_show, bind | unfold export_csv, bind ];
    destruct (load_data env w) as [[data|e'] w1]; cbn [fst] in *; try discriminate;
    injection Hl as ->; reflexivity.
Qed.

(** X1.  A command ends with an exception exactly when loading the document
    does: once the document is loaded, [main] returns normally, whatever the
    command and its options; when loading raises, the same exception leaves
    [main].  The validation error never leaves [main].  (Writing the data
    file or a CSV file does not fail in this model.) *)
Theorem main_fails_only_with_the_store (c : Command) (env : Env) (w : World) :
  (forall d, fst (load_data env w) = Ok d -> fst (main c env w) = Ok tt)
  /\ (forall e, fst (load_data env w) = Raise e -> fst (main c env w) = Raise e)
  /\ (forall msg, fst (main c env w) <> Raise (ArgumentTypeError msg)).
Proof.
  split; [|split].
  - intros d Hl. unfold main.
    destruct (func_returns_or_rejects c env w d Hl) as [Hok | [msg Hr]].
    + destruct (func c env w) as [[[]|e] w']; simpl in Hok; [reflexivity | discriminate].
    + destruct (func c env w) as [[[]|e] w']; simpl in Hr; [discriminate|].
      injection Hr as ->. reflexivity.
  - intros e Hl. pose proof (func_load_raises c env w e Hl) as Hf.
    pose proof (load_data_not_validation env w) as Hnv. rewrite Hl in Hnv.
    unfold main. destruct (func c env w) as [[[]|e'] w']; simpl in Hf; [discriminate|].
    injection Hf as ->. destruct e; try reflexivity. destruct (Hnv msg eq_refl).
  - intros msg. unfold main.
    destruct (func c env w) as [[[]|e] w']; [discriminate|].
    destruct e; discriminate.
Qed.

(** X2.  The commands that query ([list], [summary], [budget show],
    [export]) leave the document alone, unless the path of an [export] leads
    to the data file: nothing is saved, and the next invocation reads the
    document this one read. *)
Theorem queries_keep_the_document (c : Command) (env : Env) (w : World) (d : Document) :
  is_query c = true -> reads w d -> ~ overwrites_store (env, c) ->
  reads (invoke w (env, c)) d /\ saves (invoke w (env, c)) = saves w.
Proof.
  intros Hq Hr Hno.
  destruct (invoke_document w d (env, c) Hr)
    as [H | [(d' & Hstep & _) | (Hover & _)]]; [exact H | | contradiction].
  destruct c; simpl in Hq; try discriminate; simpl in Hstep; contradiction.
Qed.

End RaiseFacts.

(** ** Updating and deleting records *)

Section RecordFacts.
Context `{PF : PyFloat} `{PT : PyText}.

Lemma alter_alter (f g : Expense -> Expense) (i : nat) (l : list Expense) :
  alter f i (alter g i l) = alter (fun e => f (g e)) i l.
Proof.
  revert i. induction l as [|e l IH]; intros i; [reflexivity|].
  destruct i as [|i]; simpl; [reflexivity|]. f_equal. apply IH.
Qed.

Lemma alter_ext (f g : Expense -> Expense) (i : nat) (l : list Expense) :
  (forall e, f e = g e) -> alter f i l = alter g i l.
Proof.
  intros H. revert i. induction l as [|e l IH]; intros i; [reflexivity|].
  destruct i as [|i]; simpl; [rewrite H; reflexivity|]. f_equal. apply IH.
Qed.

Lemma alter_same (f : Expense -> Expense) (i : nat) (l : list Expense) :
  (forall e, f e = e) -> alter f i l = l.
Proof.
  intros H. revert i. induction l as [|e l IH]; intros i; [reflexivity|].
  destruct i as [|i]; simpl; [rewrite H; reflexivity|]. f_equal. apply IH.
Qed.

Lemma alter_nth_error (f : Expense -> Expense) (i : nat) (l : list Expense) :
  nth_error (alter f i l) i = option_map f (nth_error l i)
  /\ (forall j, j <> i -> nth_error (alter f i l) j = nth_error l j)
  /\ length (alter f i l) = length l.
Proof.
  revert i. induction l as [|e l IH]; intros i.
  - repeat split; destruct i; reflexivity.
  - destruct i as [|i]; simpl.
    + repeat split. intros [|j] Hj; [congruence | reflexivity].
    + destruct (IH i) as (H1 & H2 & H3). repeat split.
      * exact H1.
      * intros [|j] Hj; [reflexivity|]. simpl. apply H2. congruence.
      * simpl. f_equal. exact H3.
Qed.

Lemma find_expense_first (id : Z) (l : list Expense) (i : nat) :
  find_expense id l = Some i ->
  forall j x, (j < i)%nat -> nth_error l j = Some x -> e_id x <> id.
Proof.
  revert i. induction l as [|e l IH]; intros i; simpl; [discriminate|].
  destruct (e_id e =? id) eqn:He.
  - intros [= <-] j x Hj. lia.
  - destruct (find_expense id l) as [k|]; [|discriminate].
    intros [= <-] [|j] x Hj; simpl.
    + intros [= <-]. lia.
    + apply (IH k eq_refl). lia.
Qed.

Lemma validate_amount_value (a a' : float) :
  validate_amount a = Ok a' -> a' = round2 a /\ fle a fzero = false.
Proof.
  unfold validate_amount. destruct (fle a fzero); [discriminate|].
  intros [= <-]. auto.
Qed.

(** The record at the position is rebuilt from the options given; the rest
    of the document is as it was. *)
Lemma update_fields_alter (today : Date) (i : nat) (description : option string)
      (amount : option float) (date category : option string) (d d' : Document) :
  update_fields today i description amount date category d = Ok d' ->
  next_id d' = next_id d /\ budgets d' = budgets d
  /\ expenses d' = alter (updated_record today description amount date category) i (expenses d).
Proof.
  unfold update_fields.
  assert (forall e : Expense, mkExpense (e_id e) (e_date e) (e_description e)
                                (e_amount e) (e_category e) = e) as Heta
    by (intros []; reflexivity).
  destruct amount as [a|];
    [destruct (validate_amount a) as [a'|?] eqn:Ha; [|discriminate];
     apply validate_amount_value in Ha as [-> _]|];
    (destruct date as [s|];
      [destruct (parse_date today (Some s)) as [s'|?] eqn:Hd; [|discriminate]|]);
    intros [= <-]; destruct description as [ds|], category as [c|];
    unfold assign, set_expenses; cbn [next_id budgets expenses];
    (split; [reflexivity|]); (split; [reflexivity|]);
    rewrite ?alter_alter;
    first [ apply alter_ext | symmetry; apply alter_same ];
    intros e; unfold updated_record, with_category, with_date, with_amount,
      with_description; cbn [e_id e_date e_description e_amount e_category];
    rewrite ?Hd; try reflexivity; apply Heta.
Qed.

Lemma update_fields_valid (today : Date) (i : nat) (description : option string)
      (amount : option float) (date category : option string) (d : Document) :
  update_valid today amount date ->
  exists d', update_fields today i description amount date category d = Ok d'.
Proof.
  intros [Ha Hd]. unfold update_fields.
  destruct amount as [a|].
  - rewrite validate_amount_ok by (apply Ha; reflexivity).
    destruct date as [s|]; [|eexists; reflexivity].
    specialize (Hd s eq_refl). destruct (parse_date today (Some s)); [|discriminate].
    eexists. reflexivity.
  - destruct date as [s|]; [|eexists; reflexivity].
    specialize (Hd s eq_refl). destruct (parse_date today (Some s)); [|discriminate].
    eexists. reflexivity.
Qed.

(** X3.  An [update] whose options pass validation changes the first record
    with the given id, and nothing else: in that record the id stays and each
    field is the stripped, rounded or parsed option given for it, or the old
    value when no option was given (an empty category clears the category);
    the records at the other positions, the number of records, [next_id] and
    the budgets are as before. *)
Theorem update_changes_the_first_match (env : Env) (w : World) (d : Document) (id : Z)
        (description : option string) (amount : option float)
        (date category : option string) (i : nat) :
  reads w d -> find_expense id (expenses d) = Some i ->
  update_valid (today env) amount date ->
  exists d' e,
    reads (invoke w (env, Update id description amount date category)) d'
    /\ nth_error (expenses d) i = Some e /\ e_id e = id
    /\ (forall j x, (j < i)%nat -> nth_error (expenses d) j = Some x -> e_id x <> id)
    /\ nth_error (expenses d') i
       = Some (updated_record (today env) description amount date category e)
    /\ (forall j, j <> i -> nth_error (expenses d') j = nth_error (expenses d) j)
    /\ length (expenses d') = length (expenses d)
    /\ next_id d' = next_id d /\ budgets d' = budgets d.
Proof.
  intros Hr Hi Hv.
  destruct (update_fields_valid (today env) i description amount date category d Hv)
    as [d' Hu].
  destruct (find_expense_some id _ i Hi) as (e & He & Hid).
  exists d', e.
  assert (reads (invoke w (env, Update id description amount date category)) d') as Hr'.
  { unfold invoke. cbn [fst snd].
    assert (exists w' line, main (Update id description amount date category) env w
              = (Ok tt, saved_and_printed w' d' line)) as (w' & line & Hm).
    { exists (snd (load_data env w)). eexists. apply main_ok. simpl.
      rewrite update_expense_eq. specialize (Hr env).
      destruct (load_data env w) as [[data|x] w1]; simpl in Hr; [|discriminate].
      injection Hr as ->. rewrite Hi, Hu. reflexivity. }
    rewrite Hm. intros env'. apply saved_and_printed_store. }
  apply update_fields_alter in Hu as (Hn & Hb & He').
  destruct (alter_nth_error (updated_record (today env) description amount date category)
              i (expenses d)) as (H1 & H2 & H3).
  rewrite He'. rewrite H1, He.
  repeat split; try assumption.
  apply (find_expense_first id _ i Hi).
Qed.

Lemma filter_id_length (id : Z) (l : list Expense) :
  In id (List.map e_id l) ->
  Nat.lt (length (List.filter (fun e => negb (e_id e =? id)) l)) (length l).
Proof.
  induction l as [|e l IH]; simpl; [contradiction|].
  pose proof (List.filter_length_le (fun e => negb (e_id e =? id)) l) as Hle.
  destruct (e_id e =? id) eqn:He; simpl.
  - intros _. lia.
  - intros [H | H]; [lia|]. specialize (IH H). lia.
Qed.

Lemma filter_id_unique (id : Z) (l : list Expense) :
  In id (List.map e_id l) -> List.NoDup (List.map e_id l) ->
  S (length (List.filter (fun e => negb (e_id e =? id)) l)) = length l.
Proof.
  induction l as [|e l IH]; simpl; [contradiction|].
  intros Hin Hnd. apply List.NoDup_cons_iff in Hnd as [Hnot Hnd].
  destruct (e_id e =? id) eqn:He; simpl.
  - assert (e_id e = id) as E by lia. rewrite E in Hnot.
    rewrite filter_keeps_all; [reflexivity|].
    intros x Hx Heq. apply Hnot. rewrite <- Heq. apply in_map, Hx.
  - destruct Hin as [H | H]; [lia|]. f_equal. apply IH; assumption.
Qed.

Lemma filter_id_gone (id : Z) (l : list Expense) :
  ~ In id (List.map e_id (List.filter (fun e => negb (e_id e =? id)) l)).
Proof.
  intros H. apply in_map_iff in H as (e & He & Hin).
  apply filter_In in Hin as [_ Hne]. apply negb_true_iff in Hne. lia.
Qed.

(** X4.  A [delete] of an id that is there removes every record with that id
    and no other, saves the document once and prints the success line; when
    the ids are pairwise distinct, exactly one record goes. *)
Theorem delete_removes_the_id (env : Env) (w : World) (d : Document) (id : Z) :
  reads w d -> In id (ids d) ->
  exists d',
    reads (invoke w (env, Delete id)) d'
    /\ ~ In id (ids d')
    /\ (forall e, e_id e <> id -> (In e (expenses d') <-> In e (expenses d)))
    /\ saves (invoke w (env, Delete id)) = (saves w ++ [d'])%list
    /\ stdout (invoke w (env, Delete id)) = (stdout w ++ ["Expense deleted successfully"])%list
    /\ next_id d' = next_id d /\ budgets d' = budgets d
    /\ (List.NoDup (ids d) -> S (length (expenses d')) = length (expenses d)).
Proof.
  intros Hr Hin.
  exists (set_expenses d (List.filter (fun e => negb (e_id e =? id)) (expenses d))).
  assert (main (Delete id) env w
          = (Ok tt, saved_and_printed (snd (load_data env w))
                      (set_expenses d (List.filter (fun e => negb (e_id e =? id)) (expenses d)))
                      "Expense deleted successfully")) as Hm.
  { apply main_ok. simpl. rewrite delete_expense_eq. specialize (Hr env).
    destruct (load_data env w) as [[data|x] w1]; simpl in Hr; [|discriminate].
    injection Hr as ->. cbv zeta.
    pose proof (filter_id_length id (expenses d) Hin) as Hlt.
    replace (Nat.eqb _ _) with false by (symmetry; apply Nat.eqb_neq; lia).
    reflexivity. }
  unfold invoke. cbn [fst snd]. rewrite Hm. cbn [snd].
  destruct (load_data_world env w) as (Hout & Hsaves & _).
  split; [intros env'; apply saved_and_printed_store|].
  split; [apply filter_id_gone|]. split.
  { intros e Hne. unfold set_expenses. simpl. rewrite filter_In.
    split; [intros [H _]; exact H|]. intros H. split; [exact H|].
    apply negb_true_iff, Z.eqb_neq, Hne. }
  split; [simpl; rewrite Hsaves; reflexivity|].
  split; [simpl; rewrite Hout; reflexivity|].
  split; [reflexivity|]. split; [reflexivity|].
  intros Hnd. apply filter_id_unique; assumption.
Qed.

Lemma filter_ids_nodup (f : Expense -> bool) (l : list Expense) :
  List.NoDup (List.map e_id l) -> List.NoDup (List.map e_id (List.filter f l)).
Proof.
  induction l as [|e l IH]; simpl; intros Hnd; [constructor|].
  apply List.NoDup_cons_iff in Hnd as [Hnot Hnd].
  destruct (f e); simpl; [|apply IH, Hnd].
  constructor; [|apply IH, Hnd].
  intros H. apply Hnot. apply in_map_iff in H as (x & Hx & Hin).
  apply filter_In in Hin as [Hin _]. rewrite <- Hx. apply in_map, Hin.
Qed.

Lemma step_doc_unique (env : Env) (c : Command) (d d' : Document) :
  step_doc env c d d' -> ids_below_next d -> List.NoDup (ids d) -> List.NoDup (ids d').
Proof.
  intros Hstep Hinv Hnd. rewrite ids_below_next_iff in Hinv.
  destruct c as [description amount date category
                | id description amount date category
                | id | category month | month | month amount | month
                | csv category month]; simpl in Hstep; try contradiction.
  - destruct Hstep as (date' & amount' & _ & _ & ->).
    unfold added, ids. simpl. rewrite List.map_app. simpl.
    apply (Permutation_NoDup (Permutation_cons_append _ _)).
    constructor; [|exact Hnd]. intros H. specialize (Hinv _ H). lia.
  - destruct Hstep as (i & _ & Hu).
    apply update_fields_keeps in Hu as (_ & Hi & _). rewrite Hi. exact Hnd.
  - destruct Hstep as [-> _]. unfold set_expenses, ids. simpl.
    apply filter_ids_nodup, Hnd.
  - destruct Hstep as (amount' & _ & _ & ->). exact Hnd.
Qed.

(** X5.  The ids stay pairwise distinct: from a document whose ids are
    distinct and below [next_id], every session of commands ends in a document
    whose ids are distinct and below [next_id]. *)
Theorem ids_stay_distinct (session : list (Env * Command)) (w : World) (d : Document) :
  reads w d -> ids_below_next d -> List.NoDup (ids d) ->
  exists dn, reads (final w session) dn /\ List.NoDup (ids dn) /\ ids_below_next dn.
Proof.
  revert w d. induction session as [|i rest IH]; intros w d Hr Hinv Hnd.
  - exists d. auto.
  - simpl.
    destruct (invoke_document w d i Hr)
      as [[Hr' _] | [(d' & Hstep & Hr' & _) | (_ & Hr' & _)]].
    + apply (IH _ d Hr' Hinv Hnd).
    + apply (IH _ d' Hr').
      * apply (step_doc_counter _ _ _ _ Hstep Hinv).
      * apply (step_doc_unique _ _ _ _ Hstep Hinv Hnd).
    + apply (IH _ fresh_document Hr'); [apply fresh_ids_below_next | constructor].
Qed.

(** X6.  Deleting the record an [add] has just stored gives the records
    back as they were, but not the counter: the id is spent. *)
Theorem add_then_delete (env env' : Env) (w : World) (d : Document)
        (description : string) (amount : float) (date category : option string)
        (date' : string) (amount' : float) :
  reads w d -> ids_below_next d ->
  parse_date (today env) date = Ok date' -> validate_amount amount = Ok amount' ->
  exists dn,
    reads (invoke (invoke w (env, Add description amount date category))
                  (env', Delete (next_id d))) dn
    /\ expenses dn = expenses d /\ budgets dn = budgets d
    /\ next_id dn = next_id d + 1.
Proof.
  intros Hr Hinv Hd Ha.
  pose proof (add_once env w d description amount date category date' amount' Hr Hd Ha)
    as Hr1.
  pose proof (delete_once env' _ _ (next_id d) Hr1) as Hr2.
  eexists. split; [exact Hr2|]. unfold added, set_expenses. simpl.
  split; [|split; reflexivity].
  rewrite List.filter_app. simpl. rewrite Z.eqb_refl. simpl. rewrite app_nil_r.
  apply filter_keeps_all. intros e He.
  unfold ids_below_next in Hinv. rewrite List.Forall_forall in Hinv.
  specialize (Hinv e He). lia.
Qed.

End RecordFacts.

(** ** Budget keys and budgets *)

Section KeyFacts.
Context `{PF : PyFloat} `{PT : PyText}.

Lemma digit_char_inj (a b : Z) :
  0 <= a <= 9 -> 0 <= b <= 9 -> digit_char a = digit_char b -> a = b.
Proof.
  intros Ha Hb E.
  rewrite <- (proj2 (isdigit_digit_char a Ha)), <- (proj2 (isdigit_digit_char b Hb)), E.
  reflexivity.
Qed.

Lemma ym_key_chars (a b c d e f : Z) :
  0 <= a <= 9 -> 0 <= b <= 9 -> 0 <= c <= 9 -> 0 <= d <= 9 -> 0 <= e <= 9 -> 0 <= f <= 9 ->
  ym_key (10 * (10 * (10 * a + b) + c) + d) (10 * e + f)
  = String (digit_char a) (String (digit_char b) (String (digit_char c)
      (String (digit_char d) (String "-" (String (digit_char e)
        (String (digit_char f) EmptyString)))))).
Proof.
  intros. unfold ym_key. rewrite format_4_digits, format_2_digits by assumption.
  reflexivity.
Qed.

Lemma ym_key_inj (y m y' m' : Z) :
  0 <= y <= 9999 -> 0 <= m <= 99 -> 0 <= y' <= 9999 -> 0 <= m' <= 99 ->
  ym_key y m = ym_key y' m' -> y = y' /\ m = m'.
Proof.
  intros Hy Hm Hy' Hm'.
  destruct (four_digits_of y Hy) as (a & b & c & d & Ha & Hb & Hc & Hd & ->).
  destruct (four_digits_of y' Hy') as (a' & b' & c' & d' & Ha' & Hb' & Hc' & Hd' & ->).
  destruct (two_digits_of m Hm) as (e & f & He & Hf & ->).
  destruct (two_digits_of m' Hm') as (e' & f' & He' & Hf' & ->).
  rewrite !ym_key_chars by assumption.
  intros E. injection E as E1 E2 E3 E4 E5 E6.
  apply digit_char_inj in E1, E2, E3, E4, E5, E6; try assumption.
  subst. auto.
Qed.

(** X7.  The budget key of a year up to 9999 and a month up to 99 has seven
    characters, and different (year, month) pairs have different keys: no two
    months share a budget entry. *)
Theorem ym_key_injective (y m y' m' : Z) :
  0 <= y <= 9999 -> 0 <= m <= 99 -> 0 <= y' <= 9999 -> 0 <= m' <= 99 ->
  String.length (ym_key y m) = 7%nat
  /\ (ym_key y m = ym_key y' m' -> y = y' /\ m = m').
Proof.
  intros Hy Hm Hy' Hm'. split; [|apply ym_key_inj; assumption].
  destruct (four_digits_of y Hy) as (a & b & c & d & Ha & Hb & Hc & Hd & ->).
  destruct (two_digits_of m Hm) as (e & f & He & Hf & ->).
  rewrite ym_key_chars by assumption. reflexivity.
Qed.

Lemma budget_show_month_eq (mo : Z) (env : Env) (w : World) :
  budget_show (Some mo) env w =
  match load_data env w with
  | (Raise e, w1) => (Raise e, w1)
  | (Ok data, w1) =>
      match month_to_ym (today env) mo (Some (year (today env))) with
      | Raise e => (Raise e, w1)
      | Ok (y, m) =>
          (Ok tt,
           printed w1
             [match budgets data !! ym_key y m with
              | Some b => budget_line (ym_key y m) b
              | None => no_budget_line (ym_key y m)
              end])
      end
  end.
Proof.
  unfold budget_show, bind, lift, ask.
  destruct (load_data env w) as [[data|e] w1]; [|reflexivity].
  destruct (month_to_ym (today env) mo (Some (year (today env)))) as [[y m]|e];
    [|reflexivity].
  destruct (budgets data !! ym_key y m); reflexivity.
Qed.

Lemma budget_set_output (env : Env) (w : World) (d : Document) (mo : Z) (amount : float) :
  reads w d -> 1 <= mo <= 12 -> fle amount fzero = false ->
  stdout (invoke w (env, BudgetSet mo amount))
  = (stdout w ++ [budget_set_line (ym_key (year (today env)) mo) (round2 amount)])%list.
Proof.
  intros Hr Hmo Ha. unfold invoke. cbn [fst snd].
  rewrite (main_ok _ _ _ (saved_and_printed (snd (load_data env w))
             (set_budgets d (<[ym_key (year (today env)) mo := round2 amount]> (budgets d)))
             (budget_set_line (ym_key (year (today env)) mo) (round2 amount)))).
  - simpl. destruct (load_data_world env w) as (-> & _ & _). reflexivity.
  - simpl. rewrite budget_set_eq. specialize (Hr env).
    destruct (load_data env w) as [[data|e] w1]; simpl in Hr; [|discriminate].
    injection Hr as ->. rewrite month_to_ym_ok by lia.
    rewrite validate_amount_ok by exact Ha. reflexivity.
Qed.

(** X8.  A budget that was set is the budget shown: after a valid
    [budget set], [budget show] for the same month of the same year prints the
    rounded amount that was stored, and saves nothing. *)
Theorem budget_show_after_set (env1 env2 : Env) (w : World) (d : Document) (mo : Z)
        (amount : float) :
  reads w d -> 1 <= mo <= 12 -> fle amount fzero = false ->
  year (today env1) = year (today env2) ->
  let key := ym_key (year (today env1)) mo in
  let w1 := invoke w (env1, BudgetSet mo amount) in
  let w2 := invoke w1 (env2, BudgetShow (Some mo)) in
  stdout w2
  = (stdout w ++ [budget_set_line key (round2 amount); budget_line key (round2 amount)])%list
  /\ saves w2 = saves w1.
Proof.
  intros Hr Hmo Ha Hyear key w1 w2.
  destruct (budget_set_once env1 w d mo amount Hr Hmo Ha) as [Hr1 _].
  fold w1 in Hr1. fold key in Hr1.
  pose proof (budget_set_output env1 w d mo amount Hr Hmo Ha) as Hout.
  fold w1 in Hout. fold key in Hout.
  unfold w2, invoke. cbn [fst snd].
  assert (main (BudgetShow (Some mo)) env2 w1
          = (Ok tt, printed (snd (load_data env2 w1)) [budget_line key (round2 amount)]))
    as Hm.
  { apply main_ok. simpl. rewrite budget_show_month_eq. specialize (Hr1 env2).
    destruct (load_data env2 w1) as [[data|e] w1']; simpl in Hr1; [|discriminate].
    injection Hr1 as ->. rewrite month_to_ym_ok by lia. rewrite <- Hyear. fold key.
    simpl. rewrite lookup_insert_eq. reflexivity. }
  rewrite Hm. simpl.
  destruct (load_data_world env2 w1) as (-> & -> & _).
  rewrite Hout, <- app_assoc. split; reflexivity.
Qed.

(** X9.  Budgets of different months do not interfere: after two valid
    [budget set] for different months of the same year each month has its own
    amount, every other key is as before, and the two commands in the other
    order leave the same document. *)
Theorem budgets_of_two_months (env1 env2 : Env) (w : World) (d : Document)
        (mo1 mo2 : Z) (a1 a2 : float) :
  reads w d -> valid_date (today env1) = true ->
  year (today env1) = year (today env2) ->
  1 <= mo1 <= 12 -> 1 <= mo2 <= 12 -> mo1 <> mo2 ->
  fle a1 fzero = false -> fle a2 fzero = false ->
  let y := year (today env1) in
  exists dn,
    reads (invoke (invoke w (env1, BudgetSet mo1 a1)) (env2, BudgetSet mo2 a2)) dn
    /\ reads (invoke (invoke w (env1, BudgetSet mo2 a2)) (env2, BudgetSet mo1 a1)) dn
    /\ budgets dn !! ym_key y mo1 = Some (round2 a1)
    /\ budgets dn !! ym_key y mo2 = Some (round2 a2)
    /\ (forall k, k <> ym_key y mo1 -> k <> ym_key y mo2 -> budgets dn !! k = budgets d !! k)
    /\ expenses dn = expenses d /\ next_id dn = next_id d.
Proof.
  intros Hr Hv Hyear H1 H2 Hne Ha1 Ha2 y.
  destruct (valid_date_bounds _ Hv) as (Hy & _ & _). fold y in Hy.
  assert (ym_key y mo1 <> ym_key y mo2) as Hkeys.
  { intros E. apply ym_key_inj in E as [_ E]; lia. }
  destruct (budget_set_once env1 w d mo1 a1 Hr H1 Ha1) as [Hr1 _].
  destruct (budget_set_once env2 _ _ mo2 a2 Hr1 H2 Ha2) as [Hr12 _].
  destruct (budget_set_once env1 w d mo2 a2 Hr H2 Ha2) as [Hr2 _].
  destruct (budget_set_once env2 _ _ mo1 a1 Hr2 H1 Ha1) as [Hr21 _].
  rewrite <- Hyear in Hr12, Hr21. fold y in Hr1, Hr12, Hr2, Hr21.
  eexists. split; [exact Hr12|]. split.
  { unfold set_budgets in *. simpl in *.
    rewrite (insert_insert_ne (budgets d)) by (intros E; apply Hkeys; congruence).
    exact Hr21. }
  unfold set_budgets. simpl.
  split; [rewrite lookup_insert_ne by congruence; apply lookup_insert_eq|].
  split; [apply lookup_insert_eq|].
  split; [|split; reflexivity].
  intros k Hk1 Hk2. rewrite !lookup_insert_ne by congruence. reflexivity.
Qed.

End KeyFacts.

(** ** Stored dates *)

Section DateFacts.
Context `{PF : PyFloat} `{PT : PyText}.

Lemma compare_digit_chars (a b : Z) :
  0 <= a <= 9 -> 0 <= b <= 9 -> Ascii.compare (digit_char a) (digit_char b) = (a ?= b).
Proof.
  intros Ha Hb.
  assert (forallb (fun a => forallb (fun b =>
            match Ascii.compare (digit_char a) (digit_char b), a ?= b with
            | Eq, Eq | Lt, Lt | Gt, Gt => true
            | _, _ => false
            end) digits) digits = true) as Hall by (vm_compute; reflexivity).
  pose proof (forall_digits _ Hall a Ha) as H1. cbv beta in H1.
  pose proof (forall_digits _ H1 b Hb) as H2. cbv beta in H2.
  destruct (Ascii.compare (digit_char a) (digit_char b)), (a ?= b);
    first [reflexivity | discriminate H2].
Qed.

Lemma compare_cons_digits (a b : Z) (s t : string) :
  0 <= a <= 9 -> 0 <= b <= 9 ->
  String.compare (String (digit_char a) s) (String (digit_char b) t)
  = match a ?= b with
    | Eq => String.compare s t
    | Lt => Lt
    | Gt => Gt
    end.
Proof.
  intros Ha Hb. simpl. rewrite compare_digit_chars by assumption. reflexivity.
Qed.

Lemma compare_cons_same (c : ascii) (s t : string) :
  String.compare (String c s) (String c t) = String.compare s t.
Proof.
  simpl. unfold Ascii.compare. rewrite N.compare_refl. reflexivity.
Qed.

Lemma isoformat_chars (a b c d e f g h : Z) :
  0 <= a <= 9 -> 0 <= b <= 9 -> 0 <= c <= 9 -> 0 <= d <= 9 ->
  0 <= e <= 9 -> 0 <= f <= 9 -> 0 <= g <= 9 -> 0 <= h <= 9 ->
  isoformat (mkDate (10 * (10 * (10 * a + b) + c) + d) (10 * e + f) (10 * g + h))
  = String (digit_char a) (String (digit_char b) (String (digit_char c)
      (String (digit_char d) (String "-" (String (digit_char e)
        (String (digit_char f) (String "-" (String (digit_char g)
          (String (digit_char h) EmptyString))))))))).
Proof.
  intros. unfold isoformat. cbn [year month day].
  rewrite format_4_digits, !format_2_digits by assumption. reflexivity.
Qed.

(** X10.  On valid dates in ISO form the order of the strings is the order
    of the calendar, so that sorting the records by their date strings sorts
    them by date. *)
Theorem iso_order_is_calendar_order (d1 d2 : Date) :
  valid_date d1 = true -> valid_date d2 = true ->
  (String.ltb (isoformat d1) (isoformat d2) = true <-> date_lt d1 d2).
Proof.
  intros H1 H2.
  destruct (valid_date_bounds d1 H1) as (Hy1 & Hm1 & Hd1).
  destruct (valid_date_bounds d2 H2) as (Hy2 & Hm2 & Hd2).
  destruct d1 as [y1 m1 dd1], d2 as [y2 m2 dd2]. cbn [year month day] in *.
  destruct (four_digits_of y1 ltac:(lia)) as (a & b & c & d & ? & ? & ? & ? & ->).
  destruct (four_digits_of y2 ltac:(lia)) as (a' & b' & c' & d' & ? & ? & ? & ? & ->).
  destruct (two_digits_of m1 ltac:(lia)) as (e & f & ? & ? & ->).
  destruct (two_digits_of m2 ltac:(lia)) as (e' & f' & ? & ? & ->).
  destruct (two_digits_of dd1 ltac:(lia)) as (g & h & ? & ? & ->).
  destruct (two_digits_of dd2 ltac:(lia)) as (g' & h' & ? & ? & ->).
  rewrite !isoformat_chars by assumption.
  unfold String.ltb, date_lt. cbn [year month day].
  rewrite !compare_cons_digits by assumption.
  destruct (Z.compare_spec a a');
    [destruct (Z.compare_spec b b');
      [destruct (Z.compare_spec c c');
        [destruct (Z.compare_spec d d')|..]|..]|..];
    try (split; [intros _; lia | reflexivity]);
    try (split; [discriminate | intros; lia]).
  rewrite compare_cons_same, !compare_cons_digits by assumption.
  destruct (Z.compare_spec e e');
    [destruct (Z.compare_spec f f')|..];
    try (split; [intros _; lia | reflexivity]);
    try (split; [discriminate | intros; lia]).
  rewrite compare_cons_same, !compare_cons_digits by assumption.
  destruct (Z.compare_spec g g');
    [destruct (Z.compare_spec h h')|..];
    try (split; [intros _; lia | reflexivity]);
    try (split; [discriminate | intros; lia]).
Qed.

Lemma parse_date_canonical (today : Date) (v : option string) (r : string) :
  valid_date today = true -> parse_date today v = Ok r -> iso_shape r = true.
Proof.
  intros Hv. unfold parse_date.
  destruct v as [[|c s]|]; try (intros [= <-]; apply isoformat_iso_shape, Hv).
  destruct (Strptime.strptime (String c s)) as [dt|] eqn:Hp; [|discriminate].
  intros [= <-]. apply strptime_sound in Hp as [Hdt _]. apply isoformat_iso_shape, Hdt.
Qed.

Lemma Forall_alter_record (P : Expense -> Prop) (f : Expense -> Expense) (i : nat)
      (l : list Expense) :
  (forall e, P e -> P (f e)) -> Forall P l -> Forall P (alter f i l).
Proof.
  intros Hf. revert i. induction l as [|e l IH]; intros i Hl; [exact Hl|].
  apply List.Forall_cons_iff in Hl as [He Hl].
  destruct i as [|i]; simpl.
  - constructor; [apply Hf, He | exact Hl].
  - constructor; [exact He | apply IH, Hl].
Qed.

Lemma step_doc_dates (env : Env) (c : Command) (d d' : Document) :
  step_doc env c d d' -> valid_date (today env) = true ->
  dates_canonical d -> dates_canonical d'.
Proof.
  unfold dates_canonical. intros Hstep Hv Hd.
  destruct c as [description amount date category
                | id description amount date category
                | id | category month | month | month amount | month
                | csv category month]; simpl in Hstep; try contradiction.
  - destruct Hstep as (date' & amount' & Hp & _ & ->). unfold added. simpl.
    apply List.Forall_app. split; [exact Hd|].
    constructor; [|constructor]. simpl. apply (parse_date_canonical _ _ _ Hv Hp).
  - destruct Hstep as (i & _ & Hu). apply update_fields_alter in Hu as (_ & _ & ->).
    apply Forall_alter_record; [|exact Hd].
    intros e He. unfold updated_record. cbn [e_date].
    destruct date as [s|]; [|exact He].
    destruct (parse_date (today env) (Some s)) as [s'|x] eqn:Hp; [|exact He].
    apply (parse_date_canonical _ _ _ Hv Hp).
  - destruct Hstep as [-> _]. unfold set_expenses. simpl.
    apply List.Forall_forall. intros e He. apply filter_In in He as [He _].
    rewrite List.Forall_forall in Hd. apply Hd, He.
  - destruct Hstep as (amount' & _ & _ & ->). exact Hd.
Qed.

(** X11.  The program only stores dates of the shape [YYYY-MM-DD]: when all
    stored dates have that shape and every invocation of a session runs on a
    valid current date, all dates stored at the end have that shape. *)
Theorem stored_dates_stay_canonical (session : list (Env * Command)) (w : World)
        (d : Document) :
  reads w d -> dates_canonical d ->
  Forall (fun i => valid_date (today (fst i)) = true) session ->
  exists dn, reads (final w session) dn /\ dates_canonical dn.
Proof.
  revert w d. induction session as [|i rest IH]; intros w d Hr Hd Hv.
  - exists d. auto.
  - apply List.Forall_cons_iff in Hv as [Hi Hv]. simpl.
    destruct (invoke_document w d i Hr)
      as [[Hr' _] | [(d' & Hstep & Hr' & _) | (_ & Hr' & _)]].
    + apply (IH _ d Hr' Hd Hv).
    + apply (IH _ d' Hr'); [|exact Hv]. apply (step_doc_dates _ _ _ _ Hstep Hi Hd).
    + apply (IH _ fresh_document Hr'); [constructor | exact Hv].
Qed.

End DateFacts.

(** ** Tables and the commands that print *)

Section TableFacts.
Context `{PF : PyFloat} `{PT : PyText}.

Lemma length_append (a b : string) :
  Text.len (a ++ b) = (Text.len a + Text.len b)%nat.
Proof.
  induction a as [|c a IH]; [reflexivity|].
  rewrite append_cons. simpl. destruct (Text.starts_char c); rewrite IH; reflexivity.
Qed.

Lemma length_blanks (k : nat) : Text.len (Text.blanks k) = k.
Proof. induction k as [|k IH]; simpl; [reflexivity | rewrite IH; reflexivity]. Qed.

Lemma length_ljust (w : nat) (s : string) :
  Text.len (Text.ljust w s) = Nat.max w (Text.len s).
Proof. unfold Text.ljust. rewrite length_append, length_blanks. lia. Qed.

Lemma length_join (sep : string) (parts : list string) :
  Text.len (Text.join sep parts)
  = (list_sum (List.map Text.len parts)
     + Text.len sep * (length parts - 1))%nat.
Proof.
  induction parts as [|p rest IH]; [simpl; lia|].
  destruct rest as [|q rest].
  - simpl. lia.
  - change (Text.join sep (p :: q :: rest)) with (p ++ sep ++ Text.join sep (q :: rest)).
    rewrite !length_append, IH. simpl. lia.
Qed.

Lemma fold_max_ge (base : nat) (l : list nat) :
  (base <= fold_right Nat.max base l)%nat
  /\ (forall x, In x l -> (x <= fold_right Nat.max base l)%nat).
Proof.
  induction l as [|y l [IH1 IH2]]; simpl.
  - split; [lia | contradiction].
  - split; [lia|]. intros x [<- | Hx]; [lia|]. specialize (IH2 x Hx). lia.
Qed.

Lemma column_width_ge (headers : list string) (rows : list (list string)) (i : nat) :
  (Text.len (nth i headers "") <= column_width headers rows i)%nat
  /\ (forall r, In r rows ->
        (Text.len (nth i r "") <= column_width headers rows i)%nat).
Proof.
  unfold column_width.
  destruct (fold_max_ge (Text.len (nth i headers ""))
              (List.map (fun r => Text.len (nth i r "")) rows)) as [H1 H2].
  split; [exact H1|]. intros r Hr. apply H2.
  apply (in_map (fun r => Text.len (nth i r "")) rows r Hr).
Qed.

Lemma fmt_cols_lengths (W : nat -> nat) (cols : list string) (start : nat) :
  (forall k, (k < length cols)%nat ->
     (Text.len (nth k cols "") <= W (start + k)%nat)%nat) ->
  List.map Text.len (fmt_cols (List.map W (seq start (length cols))) cols)
  = List.map W (seq start (length cols)).
Proof.
  revert start. induction cols as [|c cols IH]; intros start Hle; [reflexivity|].
  simpl. f_equal.
  - rewrite length_ljust. specialize (Hle 0%nat ltac:(simpl; lia)).
    simpl in Hle. rewrite Nat.add_0_r in Hle. lia.
  - apply IH. intros k Hk. specialize (Hle (S k) ltac:(simpl; lia)).
    simpl in Hle. rewrite Nat.add_succ_r in Hle. exact Hle.
Qed.

Lemma length_fmt_cols (widths : list nat) (cols : list string) :
  length widths = length cols -> length (fmt_cols widths cols) = length cols.
Proof.
  revert widths. induction cols as [|c cols IH]; intros [|w widths]; simpl;
    try reflexivity; try discriminate.
  intros [= H]. f_equal. apply IH, H.
Qed.

Lemma length_fmt_row (headers : list string) (rows : list (list string))
      (cols : list string) :
  length cols = length headers ->
  (forall k, (Text.len (nth k cols "") <= column_width headers rows k)%nat) ->
  Text.len
    (fmt_row (List.map (column_width headers rows) (seq 0 (length headers))) cols)
  = table_width headers rows.
Proof.
  intros Hlen Hle. unfold fmt_row, table_width. rewrite length_join.
  rewrite <- Hlen. rewrite fmt_cols_lengths by (intros k _; apply Hle).
  rewrite length_fmt_cols by (rewrite length_map, length_seq; reflexivity).
  reflexivity.
Qed.

Lemma print_table_lines (headers : list string) (rows : list (list string))
      (env : Env) (w : World) :
  print_table headers rows env w = (Ok tt, printed w (table_lines headers rows)).
Proof.
  unfold print_table, bind. rewrite print_eq, print_all_eq, printed_printed.
  reflexivity.
Qed.

Lemma table_lines_aligned (headers : list string) (rows : list (list string)) :
  (forall r, In r rows -> length r = length headers) ->
  length (table_lines headers rows) = S (length rows)
  /\ (forall line, In line (table_lines headers rows) ->
        Text.len line = table_width headers rows).
Proof.
  intros Hrows.
  unfold table_lines. cbv zeta. split; [simpl; rewrite length_map; reflexivity|].
  intros line [<- | Hin].
  - apply length_fmt_row; [reflexivity|].
    intros k. apply (proj1 (column_width_ge headers rows k)).
  - apply in_map_iff in Hin as (r & <- & Hr).
    apply length_fmt_row; [apply Hrows, Hr|].
    intros k. apply (proj2 (column_width_ge headers rows k) r Hr).
Qed.

(** X12.  A table is aligned: [print_table] prints the header line and one
    line per row, and when every row has as many cells as there are headers,
    all these lines have the same length, the sum of the column widths plus
    two blanks between neighbouring columns. *)
Theorem print_table_is_aligned (headers : list string) (rows : list (list string))
        (env : Env) (w : World) :
  (forall r, In r rows -> length r = length headers) ->
  print_table headers rows env w = (Ok tt, printed w (table_lines headers rows))
  /\ length (table_lines headers rows) = S (length rows)
  /\ (forall line, In line (table_lines headers rows) ->
        Text.len line = table_width headers rows).
Proof.
  intros Hrows. split; [apply print_table_lines | apply table_lines_aligned, Hrows].
Qed.

Lemma invoke_ok (c : Command) (env : Env) (w w' : World) :
  func c env w = (Ok tt, w') -> invoke w (env, c) = w'.
Proof. intros H. unfold invoke. cbn [fst snd]. rewrite (main_ok _ _ _ _ H). reflexivity. Qed.

(** X13.  [list] prints, after a filter that succeeds, the line
    [No expenses found.] when no record is kept, and otherwise the aligned
    table of the kept records in sorted order: a header line and one line per
    record, all of the same length. *)
Theorem list_prints_the_kept_records (env : Env) (w : World) (d : Document)
        (category : option string) (month : option Z) (exps : list Expense) :
  reads w d ->
  filter_expenses (today env) (expenses d) category month = Ok exps ->
  let lines :=
    match exps with
    | [] => ["No expenses found."]
    | _ => table_lines table_headers (List.map list_row exps)
    end in
  stdout (invoke w (env, ListCmd category month)) = (stdout w ++ lines)%list
  /\ (exps <> [] ->
        length lines = S (length exps)
        /\ forall line, In line lines ->
             Text.len line = table_width table_headers (List.map list_row exps)).
Proof.
  intros Hr Hf lines.
  destruct (load_data_world env w) as (Hout & _ & _).
  assert (func (ListCmd category month) env w
          = (Ok tt, printed (snd (load_data env w)) lines)) as Hfunc.
  { simpl. unfold list_expenses, bind, lift, ask. specialize (Hr env).
    destruct (load_data env w) as [[data|x] w1]; simpl in Hr; [|discriminate].
    injection Hr as ->. rewrite Hf. unfold lines.
    destruct exps as [|e exps]; [reflexivity|].
    apply print_table_lines. }
  rewrite (invoke_ok _ _ _ _ Hfunc). split; [simpl; rewrite Hout; reflexivity|].
  intros Hne. unfold lines. destruct exps as [|e exps]; [congruence|].
  destruct (table_lines_aligned table_headers (List.map list_row (e :: exps)))
    as [H1 H2].
  - intros r Hin. apply in_map_iff in Hin as (x & <- & _). reflexivity.
  - rewrite H1, length_map. split; [reflexivity | exact H2].
Qed.

End TableFacts.

(** ** Summary, export, and what the writing commands print *)

Section OutputFacts.
Context `{PF : PyFloat} `{PT : PyText}.

(** X14.  [summary] for a month 1..12 adds up the records of that month of
    the current year, whatever their category, prints the total with the
    month's name, and prints the over-budget warning after it exactly when a
    budget is stored for that month and the total is greater than it; without
    month it prints the total of all records.  It saves nothing. *)
Theorem summary_warns_over_budget (env : Env) (w : World) (d : Document) (mo : Z) :
  reads w d -> 1 <= mo <= 12 ->
  exists exps mname all,
    filter_expenses (today env) (expenses d) None (Some mo) = Ok exps
    /\ Permutation exps (List.filter (in_month (today env) mo) (expenses d))
    /\ month_name mo = Ok mname
    /\ filter_expenses (today env) (expenses d) None None = Ok all
    /\ stdout (invoke w (env, Summary (Some mo)))
       = (stdout w ++
          total_line (Some mname) (total_of exps)
          :: match budgets d !! ym_key (year (today env)) mo with
             | Some b =>
                 if fgt (total_of exps) b
                 then [over_budget_line (ym_key (year (today env)) mo) b (total_of exps)]
                 else []
             | None => []
             end)%list
    /\ stdout (invoke w (env, Summary None))
       = (stdout w ++ [total_line None (total_of all)])%list
    /\ saves (invoke w (env, Summary (Some mo))) = saves w
    /\ saves (invoke w (env, Summary None)) = saves w.
Proof.
  intros Hr Hmo.
  destruct (month_name_ok mo Hmo) as [mname Hname].
  pose proof (filter_expenses_unfold (today env) (expenses d) None (Some mo)
                ltac:(intros m [= <-]; exact Hmo)) as Hf.
  eexists. exists mname. eexists.
  split; [exact Hf|]. split.
  { rewrite sorted_perm. rewrite (filter_ext_bool _ (in_month (today env) mo));
      [reflexivity | intros e; reflexivity]. }
  split; [exact Hname|]. split; [reflexivity|].
  destruct (load_data_world env w) as (Hout & Hsaves & _).
  pose proof (Hr env) as Hl.
  assert (exists w',
            func (Summary (Some mo)) env w = (Ok tt, w')
            /\ saves w' = saves w
            /\ stdout w'
               = (stdout w ++
                  total_line (Some mname)
                    (total_of (sorted expense_lt
                       (List.filter (keeps (today env) None (Some mo)) (expenses d))))
                  :: match budgets d !! ym_key (year (today env)) mo with
                     | Some b =>
                         if fgt (total_of (sorted expense_lt
                                  (List.filter (keeps (today env) None (Some mo))
                                     (expenses d)))) b
                         then [over_budget_line (ym_key (year (today env)) mo) b
                                 (total_of (sorted expense_lt
                                    (List.filter (keeps (today env) None (Some mo))
                                       (expenses d))))]
                         else []
                     | None => []
                     end)%list) as (w1 & Hfunc1 & Hs1 & Ho1).
  { simpl. unfold summary, bind, lift, ask.
    destruct (load_data env w) as [[data|x] w0]; simpl in Hl; [|discriminate].
    injection Hl as ->. rewrite Hf, Hname. rewrite month_to_ym_ok by exact Hmo.
    simpl in Hout, Hsaves. unfold total_of, total_line, over_budget_line.
    destruct (budgets d !! ym_key (year (today env)) mo) as [b|]; [destruct (fgt _ b)|];
      eexists; (split; [reflexivity|]); simpl; rewrite Hout, Hsaves;
      rewrite <- ?app_assoc; split; reflexivity. }
  assert (exists w',
            func (Summary None) env w = (Ok tt, w')
            /\ saves w' = saves w
            /\ stdout w'
               = (stdout w ++ [total_line None (total_of (sorted expense_lt (expenses d)))])%list)
    as (w2 & Hfunc2 & Hs2 & Ho2).
  { simpl. unfold summary, bind, lift, ask.
    destruct (load_data env w) as [[data|x] w0]; simpl in Hl; [|discriminate].
    injection Hl as ->. simpl in Hout, Hsaves.
    eexists. split; [reflexivity|]. simpl. rewrite Hout, Hsaves. split; reflexivity. }
  rewrite (invoke_ok _ _ _ _ Hfunc1), (invoke_ok _ _ _ _ Hfunc2).
  split; [exact Ho1|]. split; [exact Ho2|]. split; assumption.
Qed.

(** X15.  [export] writes nothing and prints [No expenses to export.] when
    the filter keeps no record; otherwise it writes one file at the given
    path, the header row followed by one row per kept record in sorted order,
    and prints how many records it exported and the path as [pathlib] writes
    it.  It never saves the document.  The file written may be one of the
    three files of the data directory: it then holds the rows, and when it is
    the data file the next invocation reads the fresh document. *)
Theorem export_writes_the_kept_records (env : Env) (w : World) (d : Document)
        (csv : string) (category : option string) (month : option Z)
        (exps : list Expense) :
  reads w d ->
  filter_expenses (today env) (expenses d) category month = Ok exps ->
  let w' := invoke w (env, Export csv category month) in
  let rows := csv_header :: List.map export_row exps in
  saves w' = saves w
  /\ (exps = [] ->
        csv_files w' = csv_files w
        /\ stdout w' = (stdout w ++ ["No expenses to export."])%list
        /\ reads w' d)
  /\ (exps <> [] ->
        csv_files w' = (csv_files w ++ [(csv, rows)])%list
        /\ stdout w' = (stdout w ++ [exported_line (length exps) (path_str env csv)])%list
        /\ match csv_target env csv with
           | OtherFile => reads w' d
           | DataFile =>
               data_json (the_dir w') = Some (CsvText rows) /\ reads w' fresh_document
           | BackupFile => data_bak (the_dir w') = Some (CsvText rows) /\ reads w' d
           | TempFile => data_tmp (the_dir w') = Some (CsvText rows) /\ reads w' d
           end).
Proof.
  intros Hr Hf w' rows.
  destruct (load_data_world env w) as (Hout & Hsaves & Hcsv).
  pose proof (Hr env) as Hl.
  assert (func (Export csv category month) env w
          = (Ok tt,
             match exps with
             | [] => printed (snd (load_data env w)) ["No expenses to export."]
             | _ => exported env (snd (load_data env w)) csv rows
                      (exported_line (length exps) (path_str env csv))
             end)) as Hfunc.
  { simpl. rewrite export_csv_eq.
    destruct (load_data env w) as [[data|x] w0]; simpl in Hl; [|discriminate].
    injection Hl as ->. rewrite Hf. destruct exps; reflexivity. }
  assert (forall env', fst (load_data env' (snd (load_data env w))) = Ok d) as Hagain
    by (intros env'; rewrite load_data_again; exact Hl).
  unfold w'. rewrite (invoke_ok _ _ _ _ Hfunc).
  destruct exps as [|e exps].
  - simpl. rewrite Hout, Hsaves, Hcsv. split; [reflexivity|]. split; [|congruence].
    intros _. split; [reflexivity|]. split; [reflexivity|].
    intros env'. rewrite <- (Hagain env'). apply load_data_same_dir. reflexivity.
  - destruct (exported_world env (snd (load_data env w)) csv rows
                (exported_line (length (e :: exps)) (path_str env csv)))
      as (Hd' & Ho' & Hs' & Hc').
    rewrite Hs', Hsaves. split; [reflexivity|]. split; [discriminate|].
    intros _. rewrite Hc', Hcsv, Ho', Hout. split; [reflexivity|]. split; [reflexivity|].
    pose proof (fun env' => exported_reads env env' (snd (load_data env w)) csv rows
                  (exported_line (length (e :: exps)) (path_str env csv))) as Hreads.
    unfold the_dir at 1 2 3. rewrite Hd'.
    destruct (csv_target env csv) eqn:Ht.
    + intros env'. rewrite (proj2 (Hreads env')); [apply Hagain | discriminate|].
      apply load_data_dir.
    + split; [reflexivity|]. intros env'. apply (proj1 (Hreads env')). reflexivity.
    + split; [reflexivity|].
      intros env'. rewrite (proj2 (Hreads env')); [apply Hagain | discriminate|].
      apply load_data_dir.
    + split; [reflexivity|].
      intros env'. rewrite (proj2 (Hreads env')); [apply Hagain | discriminate|].
      apply load_data_dir.
Qed.

(** X16.  On a data file that is not JSON an [add] that passes validation
    starts over: the document saved holds the new record alone, with id 1.
    The unreadable text is kept under the backup name when the renaming
    succeeds; when it fails, the backup is as before and the text is
    overwritten by the new document. *)
Theorem add_over_unreadable_file (env : Env) (w : World) (text : string)
        (description : string) (amount : float) (date category : option string)
        (date' : string) (amount' : float) :
  data_json (the_dir w) = Some (NotJson text) ->
  parse_date (today env) date = Ok date' -> validate_amount amount = Ok amount' ->
  let w' := invoke w (env, Add description amount date category) in
  let d' := mkDocument 2
              [mkExpense 1 date' (str_strip description) amount' (clean_category category)]
              ∅ in
  reads w' d'
  /\ data_json (the_dir w') = Some (dump d')
  /\ data_bak (the_dir w')
     = (if replace_ok env then Some (NotJson text) else data_bak (the_dir w))
  /\ saves w' = (saves w ++ [d'])%list
  /\ stdout w' = (stdout w ++ ["Expense added successfully (ID: 1)"])%list.
Proof.
  intros Hjson Hd Ha w' d'.
  assert (func (Add description amount date category) env w
          = (Ok tt, saved_and_printed (snd (load_data env w)) d'
                      "Expense added successfully (ID: 1)")) as Hfunc.
  { simpl. rewrite add_expense_eq, load_data_eq, Hjson, Hd, Ha. reflexivity. }
  unfold w'. rewrite (invoke_ok _ _ _ _ Hfunc).
  split; [intros env'; apply saved_and_printed_store|].
  rewrite load_data_eq, Hjson. unfold saved_and_printed, the_dir, with_dir. simpl.
  destruct (replace_ok env); simpl; repeat split; reflexivity.
Qed.

(** X17.  The commands that write ([add], [update], [delete],
    [budget set]) print exactly one line on a document that loads, the
    confirmation or the error, and save the document at most once. *)
Theorem writers_print_one_line (c : Command) (env : Env) (w : World) (d : Document) :
  is_query c = false -> fst (load_data env w) = Ok d ->
  exists line,
    stdout (invoke w (env, c)) = (stdout w ++ [line])%list
    /\ (saves (invoke w (env, c)) = saves w
        \/ exists d', saves (invoke w (env, c)) = (saves w ++ [d'])%list).
Proof.
  intros Hq Hl. unfold invoke. cbn [fst snd].
  destruct (load_data_world env w) as (Hout & Hsaves & _).
  unfold main.
  destruct c as [description amount date category
                | id description amount date category
                | id | category month | month | month amount | month
                | csv category month]; simpl in Hq; try discriminate; simpl.
  - rewrite add_expense_eq.
    destruct (load_data env w) as [[data|x] w1]; simpl in Hl; [|discriminate].
    simpl in Hout, Hsaves.
    destruct (parse_date (today env) date) as [date'|x] eqn:Hd.
    + destruct (validate_amount amount) as [amount'|x] eqn:Ha.
      * eexists. simpl. rewrite Hout, Hsaves. split; [reflexivity | right; eauto].
      * destruct (validate_amount_raise_kind _ _ Ha) as [msg ->].
        eexists. simpl. rewrite Hout, Hsaves. split; [reflexivity | left; reflexivity].
    + destruct (parse_date_raise_kind _ _ _ Hd) as [msg ->].
      eexists. simpl. rewrite Hout, Hsaves. split; [reflexivity | left; reflexivity].
  - rewrite update_expense_eq.
    destruct (load_data env w) as [[data|x] w1]; simpl in Hl; [|discriminate].
    simpl in Hout, Hsaves.
    destruct (find_expense id (expenses data)) as [i|].
    + destruct (update_fields (today env) i description amount date category data)
        as [data4|x] eqn:Hu.
      * eexists. simpl. rewrite Hout, Hsaves. split; [reflexivity | right; eauto].
      * destruct (update_fields_raise_kind _ _ _ _ _ _ _ _ Hu) as [msg ->].
        eexists. simpl. rewrite Hout, Hsaves. split; [reflexivity | left; reflexivity].
    + eexists. simpl. rewrite Hout, Hsaves. split; [reflexivity | left; reflexivity].
  - rewrite delete_expense_eq.
    destruct (load_data env w) as [[data|x] w1]; simpl in Hl; [|discriminate].
    simpl in Hout, Hsaves. cbv zeta.
    destruct (Nat.eqb _ _).
    + eexists. simpl. rewrite Hout, Hsaves. split; [reflexivity | left; reflexivity].
    + eexists. simpl. rewrite Hout, Hsaves. split; [reflexivity | right; eauto].
  - rewrite budget_set_eq.
    destruct (load_data env w) as [[data|x] w1]; simpl in Hl; [|discriminate].
    simpl in Hout, Hsaves.
    destruct (month_to_ym (today env) month (Some (year (today env)))) as [[y m]|x] eqn:Hm.
    + destruct (validate_amount amount) as [amount'|x] eqn:Ha.
      * eexists. simpl. rewrite Hout, Hsaves. split; [reflexivity | right; eauto].
      * destruct (validate_amount_raise_kind _ _ Ha) as [msg ->].
        eexists. simpl. rewrite Hout, Hsaves. split; [reflexivity | left; reflexivity].
    + destruct (month_to_ym_raise_kind _ _ _ _ Hm) as [msg ->].
      eexists. simpl. rewrite Hout, Hsaves. split; [reflexivity | left; reflexivity].
Qed.

End OutputFacts.

(** ** The list of budgets and the data directory *)

Section ShowFacts.
Context `{PF : PyFloat} `{PT : PyText}.

Lemma not_ltb_leb (a b : string) : String.ltb a b = false -> String.leb b a = true.
Proof.
  unfold String.ltb, String.leb. rewrite (String.compare_antisym a b).
  destruct (String.compare b a); simpl; congruence.
Qed.

Lemma leb_trans (a b c : string) :
  String.leb a b = true -> String.leb b c = true -> String.leb a c = true.
Proof.
  intros H1 H2. apply Is_true_true. change (String.le a c).
  transitivity b; apply Is_true_true; assumption.
Qed.

(** X18.  [budget show] without month prints [No budgets set.] when there is
    no budget, and otherwise the aligned table of all budgets, one row per
    entry, in ascending order of the keys; it saves nothing. *)
Theorem budget_show_lists_all_budgets (env : Env) (w : World) (d : Document) :
  reads w d ->
  let items := budget_items d in
  let lines :=
    match items with
    | [] => ["No budgets set."]
    | _ => table_lines ["Month"; "Budget"] (List.map budget_row items)
    end in
  stdout (invoke w (env, BudgetShow None)) = (stdout w ++ lines)%list
  /\ saves (invoke w (env, BudgetShow None)) = saves w
  /\ Permutation items (map_to_list (budgets d))
  /\ StronglySorted (fun a b => String.leb (fst a) (fst b) = true) items
  /\ (items = [] <-> budgets d = ∅)
  /\ (forall line, In line lines -> items <> [] ->
        Text.len line = table_width ["Month"; "Budget"] (List.map budget_row items)).
Proof.
  intros Hr. cbv zeta. remember (budget_items d) as items eqn:Hitems.
  destruct (load_data_world env w) as (Hout & Hsaves & _).
  assert (Permutation items (map_to_list (budgets d))) as Hperm
    by (rewrite Hitems; apply sorted_perm).
  assert (func (BudgetShow None) env w
          = (Ok tt, printed (snd (load_data env w))
                      match items with
                      | [] => ["No budgets set."]
                      | _ => table_lines ["Month"; "Budget"] (List.map budget_row items)
                      end)) as Hfunc.
  { simpl. unfold budget_show, bind. specialize (Hr env).
    destruct (load_data env w) as [[data|x] w1]; simpl in Hr; [|discriminate].
    injection Hr as ->. rewrite Hitems. unfold budget_items.
    destruct (sorted _ (map_to_list (budgets d))) as [|kv rest]; [reflexivity|].
    apply print_table_lines. }
  rewrite (invoke_ok _ _ _ _ Hfunc).
  split; [simpl; rewrite Hout; reflexivity|].
  split; [simpl; exact Hsaves|].
  split; [exact Hperm|]. split.
  { rewrite Hitems.
    apply (sorted_ordered (fun a b => String.ltb (fst a) (fst b))
             (fun a b => String.leb (fst a) (fst b) = true)).
    - intros a b c. apply leb_trans.
    - intros a b. apply ltb_leb.
    - intros a b. apply not_ltb_leb. }
  split.
  { split.
    - intros E. rewrite E in Hperm. apply Permutation_nil in Hperm.
      apply map_to_list_empty_iff, Hperm.
    - intros E. rewrite Hitems. unfold budget_items.
      rewrite E, map_to_list_empty. reflexivity. }
  intros line Hin Hne.
  destruct items as [|kv rest]; [congruence|].
  refine (proj2 (table_lines_aligned ["Month"; "Budget"] (List.map budget_row (kv :: rest)) _)
            line Hin).
  intros r Hr'. apply in_map_iff in Hr' as (x & <- & _). reflexivity.
Qed.

(** [load_data] leaves the temporary file alone. *)
Lemma load_data_tmp (env : Env) (w : World) :
  data_tmp (the_dir (snd (load_data env w))) = data_tmp (the_dir w).
Proof.
  rewrite load_data_eq.
  destruct (data_json (the_dir w)) as [[| text | rows | o | t]|]; try reflexivity;
    destruct (replace_ok env); reflexivity.
Qed.

(** X19.  Every command, also one that only reads or that ends in an
    exception, leaves the data directory in place, and leaves no temporary
    file in it when there was none before, unless it is an export whose path
    leads to the temporary file. *)
Theorem commands_make_the_directory (c : Command) (env : Env) (w : World) :
  exists dir,
    data_dir (invoke w (env, c)) = Some dir
    /\ (data_tmp (the_dir w) = None ->
        (forall csv category month,
           c = Export csv category month -> csv_target env csv <> TempFile) ->
        data_tmp dir = None).
Proof.
  unfold invoke. cbn [fst snd].
  destruct (main_store c env w) as [Hdir _]. rewrite Hdir.
  pose proof (load_data_tmp env w) as Htmp.
  pose proof (load_data_dir env w) as Hload.
  destruct (func_outcome c env w)
    as [(Hd & _ & _) | [(d & d' & line & _ & _ & Hf)
                       | (csv & cat & mo & rows & line & -> & Hf)]].
  - rewrite Hd, Hload. eexists. split; [reflexivity|].
    intros Hnone _. rewrite Htmp. exact Hnone.
  - rewrite Hf. simpl. eexists. split; [reflexivity | reflexivity].
  - rewrite Hf. cbn [snd].
    rewrite (proj1 (exported_world env (snd (load_data env w)) csv rows line)).
    destruct (csv_target env csv) eqn:Ht.
    + rewrite Hload. eexists. split; [reflexivity|].
      intros Hnone _. rewrite Htmp. exact Hnone.
    + eexists. split; [reflexivity|]. intros Hnone _. simpl. rewrite Htmp. exact Hnone.
    + eexists. split; [reflexivity|]. intros Hnone _. simpl. rewrite Htmp. exact Hnone.
    + eexists. split; [reflexivity|]. intros _ Hno.
      destruct (Hno csv cat mo eq_refl Ht).
Qed.

End ShowFacts.

(** ** The further properties on the sample data *)

Lemma doc0_ids_distinct : List.NoDup (ids Sample.doc0).
Proof.
  unfold ids, Sample.doc0. simpl.
  repeat (constructor; [simpl; intros H; repeat (destruct H as [H | H]; [lia|]); exact H|]).
  constructor.
Qed.

Lemma doc0_dates_canonical : dates_canonical Sample.doc0.
Proof. unfold dates_canonical, Sample.doc0. simpl. repeat constructor. Qed.

Lemma session0_dates_valid :
  Forall (fun i => valid_date (today (fst i)) = true) Sample.session0.
Proof. unfold Sample.session0. repeat constructor. Qed.

Lemma queries_keep_the_document_witness :
  is_query (Export "out.csv" None (Some 3)) = true /\ reads Sample.world0 Sample.doc0
  /\ ~ overwrites_store (Sample.env0, Export "out.csv" None (Some 3))
  /\ reads (invoke Sample.world0 (Sample.env0, Export "out.csv" None (Some 3))) Sample.doc0.
Proof.
  assert (~ overwrites_store (Sample.env0, Export "out.csv" None (Some 3))) as Hno
    by (intros H; discriminate H).
  split; [reflexivity|]. split; [exact world0_reads_doc0|]. split; [exact Hno|].
  exact (proj1 (queries_keep_the_document (Export "out.csv" None (Some 3)) Sample.env0
                  Sample.world0 Sample.doc0 eq_refl world0_reads_doc0 Hno)).
Defined.

Lemma update_changes_the_first_match_witness :
  reads Sample.world0 Sample.doc0
  /\ find_expense 3 (expenses Sample.doc0) = Some 1%nat
  /\ update_valid (today Sample.env0) None None
  /\ exists d' e,
       reads (invoke Sample.world0 (Sample.env0, Update 3 (Some " Taxi ") None None (Some "")))
             d'
       /\ nth_error (expenses d') 1
          = Some (updated_record (today Sample.env0) (Some " Taxi ") None None (Some "") e)
       /\ length (expenses d') = 4%nat.
Proof.
  assert (update_valid (today Sample.env0) (@None float) None) as Hv
    by (split; intros x Hx; discriminate Hx).
  split; [exact world0_reads_doc0|]. split; [reflexivity|]. split; [exact Hv|].
  destruct (update_changes_the_first_match Sample.env0 Sample.world0 Sample.doc0 3
              (Some " Taxi ") None None (Some "") 1 world0_reads_doc0 eq_refl Hv)
    as (d' & e & H1 & _ & _ & _ & H2 & _ & H3 & _).
  exists d', e. auto.
Defined.

Lemma delete_removes_the_id_witness :
  reads Sample.world0 Sample.doc0 /\ In 3 (ids Sample.doc0)
  /\ exists d',
       reads (invoke Sample.world0 (Sample.env0, Delete 3)) d' /\ ~ In 3 (ids d').
Proof.
  assert (In 3 (ids Sample.doc0)) as Hin by (simpl; lia).
  split; [exact world0_reads_doc0|]. split; [exact Hin|].
  destruct (delete_removes_the_id Sample.env0 Sample.world0 Sample.doc0 3
              world0_reads_doc0 Hin) as (d' & H1 & H2 & _).
  exists d'. auto.
Defined.

Lemma ids_stay_distinct_witness :
  reads Sample.world0 Sample.doc0 /\ ids_below_next Sample.doc0
  /\ List.NoDup (ids Sample.doc0)
  /\ exists dn, reads (final Sample.world0 Sample.session0) dn /\ List.NoDup (ids dn).
Proof.
  split; [exact world0_reads_doc0|]. split; [exact doc0_ids_below_next|].
  split; [exact doc0_ids_distinct|].
  destruct (ids_stay_distinct Sample.session0 Sample.world0 Sample.doc0
              world0_reads_doc0 doc0_ids_below_next doc0_ids_distinct) as (dn & H1 & H2 & _).
  exists dn. auto.
Defined.

Lemma add_then_delete_witness :
  reads Sample.world0 Sample.doc0 /\ ids_below_next Sample.doc0
  /\ parse_date (today Sample.env0) None = Ok "2024-06-07"
  /\ validate_amount 450 = Ok 450
  /\ exists dn,
       reads (invoke (invoke Sample.world0 (Sample.env0, Add "Tea" 450 None None))
                     (Sample.env1, Delete 5)) dn
       /\ expenses dn = expenses Sample.doc0 /\ next_id dn = 6.
Proof.
  split; [exact world0_reads_doc0|]. split; [exact doc0_ids_below_next|].
  split; [reflexivity|]. split; [reflexivity|].
  destruct (add_then_delete Sample.env0 Sample.env1 Sample.world0 Sample.doc0 "Tea" 450
              None None "2024-06-07" 450 world0_reads_doc0 doc0_ids_below_next
              eq_refl eq_refl) as (dn & H1 & H2 & _ & H3).
  exists dn. auto.
Defined.

Lemma ym_key_injective_witness :
  0 <= 2024 <= 9999 /\ 0 <= 5 <= 99 /\ 0 <= 2023 <= 9999 /\ 0 <= 5 <= 99
  /\ String.length (ym_key 2024 5) = 7%nat
  /\ (ym_key 2024 5 = ym_key 2023 5 -> 2024 = 2023 /\ 5 = 5).
Proof.
  split; [lia|]. split; [lia|]. split; [lia|]. split; [lia|].
  exact (ym_key_injective 2024 5 2023 5 ltac:(lia) ltac:(lia) ltac:(lia) ltac:(lia)).
Defined.

Lemma budget_show_after_set_witness :
  reads Sample.world0 Sample.doc0 /\ 1 <= 5 <= 12 /\ fle 10000 fzero = false
  /\ year (today Sample.env0) = year (today Sample.env1)
  /\ stdout (invoke (invoke Sample.world0 (Sample.env0, BudgetSet 5 10000))
                    (Sample.env1, BudgetShow (Some 5)))
     = ["Budget set for 2024-05: $100.00"; "Budget for 2024-05: $100.00"].
Proof.
  split; [exact world0_reads_doc0|]. split; [lia|]. split; [reflexivity|].
  split; [reflexivity|].
  exact (proj1 (budget_show_after_set Sample.env0 Sample.env1 Sample.world0 Sample.doc0
                  5 10000 world0_reads_doc0 ltac:(lia) eq_refl eq_refl)).
Defined.

Lemma budgets_of_two_months_witness :
  reads Sample.world0 Sample.doc0 /\ valid_date (today Sample.env0) = true
  /\ year (today Sample.env0) = year (today Sample.env1)
  /\ 1 <= 3 <= 12 /\ 1 <= 5 <= 12 /\ 3 <> 5
  /\ fle 20000 fzero = false /\ fle 10000 fzero = false
  /\ exists dn,
       reads (invoke (invoke Sample.world0 (Sample.env0, BudgetSet 3 20000))
                     (Sample.env1, BudgetSet 5 10000)) dn
       /\ budgets dn !! ym_key 2024 3 = Some 20000
       /\ budgets dn !! ym_key 2024 5 = Some 10000.
Proof.
  split; [exact world0_reads_doc0|]. split; [reflexivity|]. split; [reflexivity|].
  split; [lia|]. split; [lia|]. split; [lia|]. split; [reflexivity|].
  split; [reflexivity|].
  destruct (budgets_of_two_months Sample.env0 Sample.env1 Sample.world0 Sample.doc0
              3 5 20000 10000 world0_reads_doc0 eq_refl eq_refl ltac:(lia) ltac:(lia)
              ltac:(lia) eq_refl eq_refl) as (dn & H1 & _ & H2 & H3 & _).
  exists dn. auto.
Defined.

Lemma iso_order_is_calendar_order_witness :
  valid_date (mkDate 2024 3 1) = true /\ valid_date (mkDate 2024 11 30) = true
  /\ (String.ltb (isoformat (mkDate 2024 3 1)) (isoformat (mkDate 2024 11 30)) = true
      <-> date_lt (mkDate 2024 3 1) (mkDate 2024 11 30)).
Proof.
  split; [reflexivity|]. split; [reflexivity|].
  exact (iso_order_is_calendar_order (mkDate 2024 3 1) (mkDate 2024 11 30) eq_refl eq_refl).
Defined.

Lemma stored_dates_stay_canonical_witness :
  reads Sample.world0 Sample.doc0 /\ dates_canonical Sample.doc0
  /\ Forall (fun i => valid_date (today (fst i)) = true) Sample.session0
  /\ exists dn, reads (final Sample.world0 Sample.session0) dn /\ dates_canonical dn.
Proof.
  split; [exact world0_reads_doc0|]. split; [exact doc0_dates_canonical|].
  split; [exact session0_dates_valid|].
  exact (stored_dates_stay_canonical Sample.session0 Sample.world0 Sample.doc0
           world0_reads_doc0 doc0_dates_canonical session0_dates_valid).
Defined.

Lemma print_table_is_aligned_witness :
  (forall r, In r [["2024-03"; "$10.00"]; ["2024-11"; "$1234.50"]] -> length r = 2%nat)
  /\ forall line,
       In line (table_lines ["Month"; "Budget"]
                  [["2024-03"; "$10.00"]; ["2024-11"; "$1234.50"]]) ->
       Text.len line
       = table_width ["Month"; "Budget"] [["2024-03"; "$10.00"]; ["2024-11"; "$1234.50"]].
Proof.
  assert (forall r, In r [["2024-03"; "$10.00"]; ["2024-11"; "$1234.50"]] ->
                    length r = 2%nat) as Hrows
    by (intros r [<- | [<- | []]]; reflexivity).
  split; [exact Hrows|].
  exact (proj2 (proj2 (print_table_is_aligned ["Month"; "Budget"]
                         [["2024-03"; "$10.00"]; ["2024-11"; "$1234.50"]]
                         Sample.env0 Sample.world0 Hrows))).
Defined.

Lemma list_prints_the_kept_records_witness :
  reads Sample.world0 Sample.doc0
  /\ filter_expenses (today Sample.env0) (expenses Sample.doc0) (Some "FOOD") None
     = Ok [Sample.lunch; Sample.tea]
  /\ stdout (invoke Sample.world0 (Sample.env0, ListCmd (Some "FOOD") None))
     = table_lines table_headers (List.map list_row [Sample.lunch; Sample.tea]).
Proof.
  split; [exact world0_reads_doc0|]. split; [reflexivity|].
  exact (proj1 (list_prints_the_kept_records Sample.env0 Sample.world0 Sample.doc0
                  (Some "FOOD") None [Sample.lunch; Sample.tea]
                  world0_reads_doc0 eq_refl)).
Defined.

Lemma summary_warns_over_budget_witness :
  reads Sample.world0 Sample.doc0 /\ 1 <= 3 <= 12
  /\ exists exps mname,
       filter_expenses (today Sample.env0) (expenses Sample.doc0) None (Some 3) = Ok exps
       /\ month_name 3 = Ok mname
       /\ saves (invoke Sample.world0 (Sample.env0, Summary (Some 3))) = saves Sample.world0.
Proof.
  split; [exact world0_reads_doc0|]. split; [lia|].
  destruct (summary_warns_over_budget Sample.env0 Sample.world0 Sample.doc0 3
              world0_reads_doc0 ltac:(lia))
    as (exps & mname & all & H1 & _ & H2 & _ & _ & _ & H3 & _).
  exists exps, mname. auto.
Defined.

Lemma export_writes_the_kept_records_witness :
  reads Sample.world0 Sample.doc0
  /\ filter_expenses (today Sample.env0) (expenses Sample.doc0) (Some "home") None
     = Ok [Sample.rent]
  /\ saves (invoke Sample.world0 (Sample.env0, Export "./out.csv" (Some "home") None))
     = saves Sample.world0
  /\ stdout (invoke Sample.world0 (Sample.env0, Export "./out.csv" (Some "home") None))
     = ["Exported 1 expenses to out.csv"].
Proof.
  assert (filter_expenses (today Sample.env0) (expenses Sample.doc0) (Some "home") None
          = Ok [Sample.rent]) as Hf by reflexivity.
  split; [exact world0_reads_doc0|]. split; [exact Hf|].
  destruct (export_writes_the_kept_records Sample.env0 Sample.world0 Sample.doc0
              "./out.csv" (Some "home") None [Sample.rent] world0_reads_doc0 Hf)
    as (H1 & _ & H2).
  split; [exact H1|].
  exact (proj1 (proj2 (H2 ltac:(discriminate)))).
Defined.

Lemma add_over_unreadable_file_witness :
  data_json (the_dir (Sample.world_of (Some (NotJson "{oops")))) = Some (NotJson "{oops")
  /\ parse_date (today Sample.env1) (Some "2024-3-1") = Ok "2024-03-01"
  /\ validate_amount 1250 = Ok 1250
  /\ data_bak (the_dir (invoke (Sample.world_of (Some (NotJson "{oops")))
                               (Sample.env1, Add "Lunch" 1250 (Some "2024-3-1") None)))
     = None.
Proof.
  split; [reflexivity|]. split; [reflexivity|]. split; [reflexivity|].
  exact (proj1 (proj2 (proj2 (add_over_unreadable_file Sample.env1
           (Sample.world_of (Some (NotJson "{oops"))) "{oops" "Lunch" 1250
           (Some "2024-3-1") None "2024-03-01" 1250 eq_refl eq_refl eq_refl)))).
Defined.

Lemma writers_print_one_line_witness :
  is_query (Delete 7) = false
  /\ fst (load_data Sample.env0 Sample.world0) = Ok Sample.doc0
  /\ exists line,
       stdout (invoke Sample.world0 (Sample.env0, Delete 7)) = [line].
Proof.
  split; [reflexivity|]. split; [reflexivity|].
  destruct (writers_print_one_line (Delete 7) Sample.env0 Sample.world0 Sample.doc0
              eq_refl eq_refl) as (line & H & _).
  exists line. exact H.
Defined.

(** With the renaming failing ([env1]) the unreadable text is nowhere after
    the [add]; with it succeeding ([env0]) it is in the backup. *)
Example unreadable_text_after_add :
  the_dir (invoke (Sample.world_of (Some (NotJson "{oops")))
                  (Sample.env0, Add "Lunch" 1250 None None))
  = mkDir (Some (dump (mkDocument 2 [mkExpense 1 "2024-06-07" "Lunch" 1250 None] ∅)))
          (Some (NotJson "{oops")) None
  /\ the_dir (invoke (Sample.world_of (Some (NotJson "{oops")))
                     (Sample.env1, Add "Lunch" 1250 None None))
     = mkDir (Some (dump (mkDocument 2 [mkExpense 1 "2024-11-30" "Lunch" 1250 None] ∅)))
             None None.
Proof. split; reflexivity. Qed.

Lemma budget_show_lists_all_budgets_witness :
  reads Sample.world0 Sample.doc0
  /\ stdout (invoke Sample.world0 (Sample.env0, BudgetShow None)) = ["No budgets set."].
Proof.
  split; [exact world0_reads_doc0|].
  exact (proj1 (budget_show_lists_all_budgets Sample.env0 Sample.world0 Sample.doc0
                  world0_reads_doc0)).
Defined.

(** Two budgets, set in the order November, March, are listed March first. *)
Example budget_show_sorted :
  stdout (final Sample.world0
            [ (Sample.env0, BudgetSet 11 123450); (Sample.env0, BudgetSet 3 1000);
              (Sample.env0, BudgetShow None) ])
  = [ "Budget set for 2024-11: $1234.50"; "Budget set for 2024-03: $10.00";
      "Month    Budget  "; "2024-03  $10.00  "; "2024-11  $1234.50" ].
Proof. vm_compute. reflexivity. Qed.
